(** * Room registry scripts of Renomate-Kostnadskalkyl (src/scripts.ts)

    A shallow embedding of the Apps Script code that adds, renames and
    deletes rooms, and the properties of its validation, of its row-range
    grouper and of its dashboard rewriting.

    Conventions of the embedding.
    - A JavaScript [number] holding a row position or a count is a [Z].
    - A JavaScript string is a [string]; its characters are 8-bit code
      units, so the white space [trim] removes is the part of
      ECMAScript's WhiteSpace and LineTerminator below 256.
    - An array is a [list]; [push] appends at the end.
    - A thrown [Error] is the [inl] of a sum, a returned value its [inr]. *)

From Stdlib Require Import String Ascii.
From Stdlib Require Import List ZArith Bool Lia Arith.
From Stdlib Require Import Sorting.Sorted Sorting.Permutation.
From Stdlib Require Import Numbers.DecimalString.
Import ListNotations.

Local Open Scope Z_scope.

(* ------------------------------------------------------------------ *)
(** ** RangeGrouper: [groupAdjacentNumbers] *)
(* ------------------------------------------------------------------ *)

(** A group is the pair [[start, count]] of the source. *)
Definition Group : Type := (Z * Z)%type.

(** [numbers[i]]; the loop only reads indexes below [numbers.length]. *)
Definition numAt (numbers : list Z) (i : nat) : Z := nth i numbers 0.

(** [groups[groups.length - 1][1] += 1].  On an empty array JavaScript
    would raise; the loop reaches this statement only for [i > 0], after
    the first group was pushed (see [bumpLast_defined]). *)
Fixpoint bumpLast (groups : list Group) : list Group :=
  match groups with
  | [] => []
  | [(s, c)] => [(s, c + 1)]
  | g :: rest => g :: bumpLast rest
  end.

(** Body of the [for] loop at index [i]. *)
Definition groupStep (numbers : list Z) (groups : list Group) (i : nat)
  : list Group :=
  if (i =? 0)%nat || negb (numAt numbers i =? numAt numbers (i - 1) + 1)
  then groups ++ [(numAt numbers i, 1)]
  else bumpLast groups.

(** The loop over [i = 0 .. numbers.length - 1]. *)
Definition groupLoop (numbers : list Z) : list Group :=
  fold_left (groupStep numbers) (seq 0 (length numbers)) [].

(** [groupAdjacentNumbers]: the loop, then [groups.reverse()]. *)
Definition groupAdjacentNumbers (numbers : list Z) : list Group :=
  rev (groupLoop numbers).

(** The run [start, start + 1, ..., start + count - 1] of a group. *)
Definition expandGroup (g : Group) : list Z :=
  map (fun k => fst g + Z.of_nat k) (seq 0 (Z.to_nat (snd g))).

(** Strictly ascending: every element is below its successor. *)
Definition strictlyAscending (numbers : list Z) : Prop := Sorted Z.lt numbers.

(** Strictly decreasing, for the starts of the returned groups. *)
Definition strictlyDescending (numbers : list Z) : Prop :=
  StronglySorted Z.gt numbers.


(* ------------------------------------------------------------------ *)
(** ** Strings *)
(* ------------------------------------------------------------------ *)

Local Open Scope string_scope.

(** The line terminator the messages end with. *)
Definition nl : string := String (ascii_of_nat 10) EmptyString.

(** Code units of the letters outside ASCII that the messages use. *)
Definition a_uml : string := String (ascii_of_nat 228) EmptyString.
Definition o_uml : string := String (ascii_of_nat 246) EmptyString.

(** White space and line terminators of ECMAScript among the 8-bit code
    units: TAB, LF, VT, FF, CR, SPACE and NBSP. *)
Definition isWhiteSpace (c : ascii) : bool :=
  let n := nat_of_ascii c in
  ((n =? 9) || (n =? 10) || (n =? 11) || (n =? 12) || (n =? 13)
   || (n =? 32) || (n =? 160))%nat.

Fixpoint trimStart (s : string) : string :=
  match s with
  | EmptyString => EmptyString
  | String c s' => if isWhiteSpace c then trimStart s' else s
  end.

Fixpoint trimEnd (s : string) : string :=
  match s with
  | EmptyString => EmptyString
  | String c s' =>
      match trimEnd s' with
      | EmptyString => if isWhiteSpace c then EmptyString else String c EmptyString
      | t => String c t
      end
  end.

(** [String.prototype.trim]. *)
Definition trim (s : string) : string := trimEnd (trimStart s).

(** [arr.includes(x)] on an array of strings. *)
Definition includes (arr : list string) (x : string) : bool :=
  existsb (fun y => y =? x) arr.

(** [arr.indexOf(x)]: the first index holding [x], or [-1]. *)
Fixpoint indexOf (arr : list string) (x : string) : Z :=
  match arr with
  | [] => -1
  | y :: rest =>
      if y =? x then 0%Z
      else let i := indexOf rest x in if (i <? 0)%Z then -1 else (i + 1)%Z
  end.

(** [arr.join(sep)]. *)
Definition join (sep : string) (arr : list string) : string :=
  String.concat sep arr.

(** A number inside a template literal: its decimal digits. *)
Definition showNat (n : nat) : string := NilEmpty.string_of_uint (Nat.to_uint n).

(** A value that may be [undefined], inside a template literal. *)
Definition showOptional (v : option string) : string :=
  match v with
  | Some s => s
  | None => "undefined"
  end.

(* ------------------------------------------------------------------ *)
(** ** Validator: [createRoomPairs] *)
(* ------------------------------------------------------------------ *)

(** [keyof typeof BUDGETING_TYPES | '']. *)
Inductive BudgetingType : Type :=
  | Enkel       (* 'Enkel (rekommenderad)' *)
  | Avancerad   (* 'Avancerad' *)
  | NoType.     (* '' *)

(** The string a budgeting type is in the sheet. *)
Definition typeText (type : BudgetingType) : string :=
  match type with
  | Enkel => "Enkel (rekommenderad)"
  | Avancerad => "Avancerad"
  | NoType => ""
  end.

(** [BUDGETING_TYPES[type]]; [undefined] for the blank type. *)
Definition BUDGETING_TYPES (type : BudgetingType) : option string :=
  match type with
  | Enkel => Some "(enkel)"
  | Avancerad => Some "(avancerad)"
  | NoType => None
  end.

(** [NewRoomRow]: [[roomName, template, type]]. *)
Definition NewRoomRow : Type := (string * string * BudgetingType)%type.

(** What validation returns: the thrown [Error]'s message, or the pairs. *)
Definition Validated : Type := (string + list (string * string))%type.

(** The callback of [newRooms.map] at [index], with the [error] it
    appends to threaded through: the new [error] and the returned pair. *)
Definition roomPair (sheetNames : list string) (error : string) (index : nat)
    (row : NewRoomRow) : string * (string * string) :=
  let '(inputRoomName, template, type) := row in
  let roomName := trim inputRoomName in
  let error :=
    if roomName =? "" then error ++ "Namn saknas till rum " ++ showNat (index + 1) ++ nl
    else error in
  let error :=
    if template =? "" then error ++ "Mall saknas till rum " ++ showNat (index + 1) ++ nl
    else error in
  let error :=
    if typeText type =? ""
    then error ++ "Budgeteringsalternativ saknas till rum " ++ showNat (index + 1) ++ nl
    else error in
  let error :=
    if includes sheetNames roomName then error ++ "Rum " ++ roomName ++ " finns redan" ++ nl
    else error in
  (error, (roomName, template ++ " " ++ showOptional (BUDGETING_TYPES type))).

(** [newRooms.map(...)] from [index] on. *)
Fixpoint mapRoomPairs (sheetNames : list string) (error : string) (index : nat)
    (newRooms : list NewRoomRow) : string * list (string * string) :=
  match newRooms with
  | [] => (error, [])
  | row :: rest =>
      let '(error1, namePair) := roomPair sheetNames error index row in
      let '(error2, pairs) := mapRoomPairs sheetNames error1 (S index) rest in
      (error2, namePair :: pairs)
  end.

(** [arr.filter((roomName, index, arr) => arr.indexOf(roomName) !== index)],
    scanning [rest] from [index] on. *)
Fixpoint laterOccurrences (arr : list string) (index : Z) (rest : list string)
  : list string :=
  match rest with
  | [] => []
  | roomName :: rest' =>
      if negb (indexOf arr roomName =? index)%Z
      then roomName :: laterOccurrences arr (index + 1) rest'
      else laterOccurrences arr (index + 1) rest'
  end.

Definition duplicateNames (roomNames : list string) : list string :=
  laterOccurrences roomNames 0 roomNames.

Definition createRoomPairs (newRooms : list NewRoomRow) (sheetNames : list string)
  : Validated :=
  let '(error, nameTemplatePairs) := mapRoomPairs sheetNames "" 0 newRooms in
  let duplicates := duplicateNames (map fst nameTemplatePairs) in
  let error :=
    if (0 <? length duplicates)%nat
    then error ++ "Rumnamn upprepas: " ++ join ", " duplicates ++ nl
    else error in
  if negb (error =? "") then inl error else inr nameTemplatePairs.

(** The copy of the script in src/unnamed/part_001: the same validation,
    on the room name as typed. *)
Module Part001.

Definition roomPair (sheetNames : list string) (error : string) (index : nat)
    (row : NewRoomRow) : string * (string * string) :=
  let '(roomName, template, type) := row in
  let error :=
    if roomName =? "" then error ++ "Namn saknas till rum " ++ showNat (index + 1) ++ nl
    else error in
  let error :=
    if template =? "" then error ++ "Mall saknas till rum " ++ showNat (index + 1) ++ nl
    else error in
  let error :=
    if typeText type =? ""
    then error ++ "Budgeteringsalternativ saknas till rum " ++ showNat (index + 1) ++ nl
    else error in
  let error :=
    if includes sheetNames roomName then error ++ "Rum " ++ roomName ++ " finns redan" ++ nl
    else error in
  (error, (roomName, template ++ " " ++ showOptional (BUDGETING_TYPES type))).

Fixpoint mapRoomPairs (sheetNames : list string) (error : string) (index : nat)
    (newRooms : list NewRoomRow) : string * list (string * string) :=
  match newRooms with
  | [] => (error, [])
  | row :: rest =>
      let '(error1, namePair) := roomPair sheetNames error index row in
      let '(error2, pairs) := mapRoomPairs sheetNames error1 (S index) rest in
      (error2, namePair :: pairs)
  end.

Definition createRoomPairs (newRooms : list NewRoomRow) (sheetNames : list string)
  : Validated :=
  let '(error, roomPairs) := mapRoomPairs sheetNames "" 0 newRooms in
  let duplicates := duplicateNames (map fst roomPairs) in
  let error :=
    if (0 <? length duplicates)%nat
    then error ++ "Rumnamn upprepas: " ++ join ", " duplicates ++ nl
    else error in
  if negb (error =? "") then inl error else inr roomPairs.

End Part001.

(* ------------------------------------------------------------------ *)
(** ** The spreadsheet, its calls and the operator *)
(* ------------------------------------------------------------------ *)

Local Open Scope list_scope.

(** A rich-text value: its text, its link target ([null] when it has
    none) and the bold flag of its text style when one was set. *)
Record RichTextValue : Type := {
  rtText : string;
  rtLinkUrl : option string;
  rtBold : option bool
}.

(** [SpreadsheetApp.newRichTextValue().build()]. *)
Definition emptyRichText : RichTextValue :=
  {| rtText := ""; rtLinkUrl := None; rtBold := None |}.

(** A cell of the dashboard's first column: a text cell with its rich
    text, or [None] for a cell whose value is not text (the host then
    returns [null] from [getRichTextValues]). *)
Definition Cell : Type := option RichTextValue.

(** The script's rich-text objects live in a heap; a reference is an
    index in it, so that the same object and an equal one differ. *)
Definition Ref : Type := nat.
Definition Heap : Type := list RichTextValue.

Definition alloc (heap : Heap) (v : RichTextValue) : Heap * Ref :=
  (heap ++ [v], length heap).

Definition deref (heap : Heap) (r : Ref) : RichTextValue :=
  nth r heap emptyRichText.

(** A tab of the spreadsheet. *)
Record Sheet : Type := {
  sheetName : string;
  sheetId : nat;
  sheetTabColor : option string;
  sheetHidden : bool
}.

(** The calls the scripts make on their collaborators, as a spy records
    them. *)
Inductive Call : Type :=
  | Toast (message : string)
  | Alert (message : string)
  | Prompt (message : string)
  | CopySheet (template roomName : string)
  | SetName (oldName newName : string)
  | DeleteSheet (roomName : string)
  | InsertRows (row numRows : Z)
  | SetRichTextValues (row numRows : Z)
  | DeleteRows (position numRows : Z)
  | ClearContent
  | Uncheck.

(** The calls that change a document, the dashboard or an input range. *)
Definition isMutation (c : Call) : bool :=
  match c with
  | Toast _ | Alert _ | Prompt _ => false
  | _ => true
  end.

(** The active spreadsheet: its tabs, the first column of the Dashboard
    sheet (row 1 first, down to the last row), the rows of the two named
    boundary ranges, the values of the AddRooms range, the rows
    [[checkbox, roomName]] of the ConfigExistingRooms range, and the
    calls made so far.  The Dashboard sheet and the named ranges exist,
    as the casts of the source assert. *)
Record Spreadsheet : Type := {
  sheets : list Sheet;
  dashboardColumn : list Cell;
  materialRow : Z;
  sumRow : Z;
  addRoomsValues : list NewRoomRow;
  configExistingRooms : list (bool * string);
  calls : list Call
}.

Definition RENOMATE_YELLOW : string := "#fcd241".

Definition logCalls (ss : Spreadsheet) (cs : list Call) : Spreadsheet :=
  {| sheets := sheets ss; dashboardColumn := dashboardColumn ss;
     materialRow := materialRow ss; sumRow := sumRow ss;
     addRoomsValues := addRoomsValues ss;
     configExistingRooms := configExistingRooms ss;
     calls := calls ss ++ cs |}.

Definition logCall (ss : Spreadsheet) (c : Call) : Spreadsheet := logCalls ss [c].

Definition withSheets (ss : Spreadsheet) (tabs : list Sheet) : Spreadsheet :=
  {| sheets := tabs; dashboardColumn := dashboardColumn ss;
     materialRow := materialRow ss; sumRow := sumRow ss;
     addRoomsValues := addRoomsValues ss;
     configExistingRooms := configExistingRooms ss;
     calls := calls ss |}.

Definition withDashboard (ss : Spreadsheet) (column : list Cell)
    (material sum : Z) : Spreadsheet :=
  {| sheets := sheets ss; dashboardColumn := column;
     materialRow := material; sumRow := sum;
     addRoomsValues := addRoomsValues ss;
     configExistingRooms := configExistingRooms ss;
     calls := calls ss |}.

(** [ss.getSheetByName(name)]. *)
Definition getSheetByName (ss : Spreadsheet) (name : string) : option Sheet :=
  find (fun sh => sheetName sh =? name) (sheets ss).

(** [ss.getSheets().map((sheet) => sheet.getName())]. *)
Definition getSheetNames (ss : Spreadsheet) : list string :=
  map sheetName (sheets ss).

(** The rows [row .. row + numRows - 1] of a column. *)
Definition getRows {A : Type} (column : list A) (row numRows : Z) : list A :=
  firstn (Z.to_nat numRows) (skipn (Z.to_nat (row - 1)) column).

(** Overwriting the rows from [row] on with [values]. *)
Definition setRows {A : Type} (column : list A) (row : Z) (values : list A)
  : list A :=
  firstn (Z.to_nat (row - 1)) column ++ values
  ++ skipn (Z.to_nat (row - 1) + length values) column.

(** [sheet.deleteRows(position, numRows)] on a column. *)
Definition removeRows {A : Type} (column : list A) (position numRows : Z)
  : list A :=
  firstn (Z.to_nat (position - 1)) column
  ++ skipn (Z.to_nat (position - 1) + Z.to_nat numRows) column.

(** Where the host moves a named row when [numRows] rows are inserted
    at [position], and when they are deleted there (a named row that is
    itself deleted keeps its number here; no later step reads it). *)
Definition rowAfterInsert (position numRows r : Z) : Z :=
  if (r <? position)%Z then r else (r + numRows)%Z.

Definition rowAfterDelete (position numRows r : Z) : Z :=
  if (position + numRows <=? r)%Z then (r - numRows)%Z else r.

(** [dashboardSheet.insertRows(row, numRows)]: blank rows at [row]. *)
Definition insertRows (ss : Spreadsheet) (row numRows : Z) : Spreadsheet :=
  let column := dashboardColumn ss in
  logCall
    (withDashboard ss
       (firstn (Z.to_nat (row - 1)) column
        ++ repeat (Some emptyRichText) (Z.to_nat numRows)
        ++ skipn (Z.to_nat (row - 1)) column)
       (rowAfterInsert row numRows (materialRow ss))
       (rowAfterInsert row numRows (sumRow ss)))
    (InsertRows row numRows).

(** [dashboardSheet.deleteRows(position, numRows)]. *)
Definition deleteRows (ss : Spreadsheet) (position numRows : Z) : Spreadsheet :=
  logCall
    (withDashboard ss
       (removeRows (dashboardColumn ss) position numRows)
       (rowAfterDelete position numRows (materialRow ss))
       (rowAfterDelete position numRows (sumRow ss)))
    (DeleteRows position numRows).

(** [dashboardSheet.getRange(row, 1, n, 1).setRichTextValues(values)]. *)
Definition setRichTextValues (ss : Spreadsheet) (row : Z)
    (values : list RichTextValue) : Spreadsheet :=
  logCall
    (withDashboard ss
       (setRows (dashboardColumn ss) row (map Some values))
       (materialRow ss) (sumRow ss))
    (SetRichTextValues row (Z.of_nat (length values))).

(* ------------------------------------------------------------------ *)
(** ** AddRooms *)
(* ------------------------------------------------------------------ *)

Definition freshSheetId (tabs : list Sheet) : nat :=
  S (fold_right Nat.max 0%nat (map sheetId tabs)).

(** Body of the loop of [createNewRoomSheets]: when the template exists,
    its copy, named, coloured and shown. *)
Definition createNewRoomSheet (ss : Spreadsheet) (namePair : string * string)
  : Spreadsheet :=
  let '(roomName, template) := namePair in
  match getSheetByName ss template with
  | None => ss
  | Some _ =>
      logCall
        (withSheets ss
           (sheets ss
            ++ [{| sheetName := roomName; sheetId := freshSheetId (sheets ss);
                   sheetTabColor := Some RENOMATE_YELLOW; sheetHidden := false |}]))
        (CopySheet template roomName)
  end.

Definition createNewRoomSheets (ss : Spreadsheet)
    (nameTemplatePairs : list (string * string)) : Spreadsheet :=
  fold_left createNewRoomSheet nameTemplatePairs ss.

Definition addNewRoomsToDashboard (ss : Spreadsheet) (roomNames : list string)
  : Spreadsheet :=
  let insertRow := sumRow ss in
  let richTextValues :=
    map (fun roomName =>
           {| rtText := roomName;
              rtLinkUrl :=
                Some ("#gid="
                      ++ showOptional
                           (option_map (fun sh => showNat (sheetId sh))
                              (getSheetByName ss roomName)))%string;
              rtBold := Some false |})
        roomNames in
  let ss := insertRows ss insertRow (Z.of_nat (length roomNames)) in
  setRichTextValues ss insertRow richTextValues.

(** [addRoomsRange.clearContent()]. *)
Definition clearContent (ss : Spreadsheet) : Spreadsheet :=
  logCall
    {| sheets := sheets ss; dashboardColumn := dashboardColumn ss;
       materialRow := materialRow ss; sumRow := sumRow ss;
       addRoomsValues := map (fun _ => ("", "", NoType)) (addRoomsValues ss);
       configExistingRooms := configExistingRooms ss;
       calls := calls ss |}
    ClearContent.

(** [roomRow.join('')]. *)
Definition joinRow (roomRow : NewRoomRow) : string :=
  let '(roomName, template, type) := roomRow in
  join "" [roomName; template; typeText type].

Definition nothingToAdd : string :=
  ("Det finns inga nya rum att l" ++ a_uml ++ "gga till")%string.

(** The rows of the AddRooms range that are not blank. *)
Definition newRoomRows (ss : Spreadsheet) : list NewRoomRow :=
  filter (fun roomRow => negb (joinRow roomRow =? "")) (addRoomsValues ss).

(** [addNewRooms]: the [try] block, and the [catch] that alerts the
    message of the error validation threw. *)
Definition addNewRooms (ss : Spreadsheet) : Spreadsheet :=
  let sheetNames := getSheetNames ss in
  match createRoomPairs (newRoomRows ss) sheetNames with
  | inl message => logCall ss (Alert message)
  | inr nameTemplatePairs =>
      if (length nameTemplatePairs =? 0)%nat then logCall ss (Toast nothingToAdd)
      else
        let newRooms := map fst nameTemplatePairs in
        let ss := createNewRoomSheets ss nameTemplatePairs in
        let ss := addNewRoomsToDashboard ss newRooms in
        clearContent ss
  end.

(* ------------------------------------------------------------------ *)
(** ** RenameRooms *)
(* ------------------------------------------------------------------ *)

(** [getSelectedRooms]: the names of the checked rows. *)
Definition getSelectedRooms (configValues : list (bool * string)) : list string :=
  map snd (filter fst configValues).

(** A [Map<string, string>] in insertion order. *)
Definition RenameMap : Type := list (string * string).

(** [renameMap.set(key, value)]: a key already present keeps its place. *)
Fixpoint mapSet (renameMap : RenameMap) (key value : string) : RenameMap :=
  match renameMap with
  | [] => [(key, value)]
  | (k, v) :: rest =>
      if k =? key then (key, value) :: rest else (k, v) :: mapSet rest key value
  end.

Definition mapHas (renameMap : RenameMap) (key : string) : bool :=
  existsb (fun kv => fst kv =? key) renameMap.

Definition mapGet (renameMap : RenameMap) (key : string) : option string :=
  option_map snd (find (fun kv => fst kv =? key) renameMap).

(** [[...renameMap.values()]]. *)
Definition mapValues (renameMap : RenameMap) : list string := map snd renameMap.

(** What the operator does at one prompt: OK with a text, or any other
    button. *)
Inductive PromptResponse : Type :=
  | ResponseOK (text : string)
  | ResponseCancel.

(** How [requestNewRoomNames] ends: it returns the map, it returns
    [null], or it still waits at a prompt the operator has not answered. *)
Inductive PromptOutcome : Type :=
  | Renamed (renameMap : RenameMap)
  | Cancelled
  | Unanswered.

Definition promptMessage (oldName : string) : string :=
  ("Vad vill du d" ++ o_uml ++ "pa om " ++ oldName ++ " till?")%string.

(** The [if]/[else if] chain on a trimmed proposal: the alert that
    rejects it, or [None] when it is accepted. *)
Definition rejection (oldName newRoomName : string) (sheetNames : list string)
    (renameMap : RenameMap) : option string :=
  if newRoomName =? "" then Some ("Namn saknas till rum " ++ oldName)%string
  else if includes sheetNames newRoomName
       then Some ("Rum " ++ newRoomName ++ " finns redan")%string
  else if includes (mapValues renameMap) newRoomName
       then Some ("Du har redan angett: " ++ newRoomName)%string
  else None.

(** The two loops of [requestNewRoomNames], every prompt taking the
    operator's next response: the UI calls made and the outcome. *)
Fixpoint requestLoop (sheetNames : list string) (oldRoomNames : list string)
    (renameMap : RenameMap) (operator : list PromptResponse)
  : list Call * PromptOutcome :=
  match oldRoomNames with
  | [] => ([], Renamed renameMap)
  | oldName :: rest =>
      match operator with
      | [] => ([Prompt (promptMessage oldName)], Unanswered)
      | ResponseCancel :: _ => ([Prompt (promptMessage oldName)], Cancelled)
      | ResponseOK text :: operator' =>
          let newRoomName := trim text in
          match rejection oldName newRoomName sheetNames renameMap with
          | Some message =>
              let '(uiCalls, outcome) :=
                requestLoop sheetNames oldRoomNames renameMap operator' in
              (Prompt (promptMessage oldName) :: Alert message :: uiCalls, outcome)
          | None =>
              let '(uiCalls, outcome) :=
                requestLoop sheetNames rest (mapSet renameMap oldName newRoomName)
                  operator' in
              (Prompt (promptMessage oldName) :: uiCalls, outcome)
          end
      end
  end.

Definition requestNewRoomNames (oldRoomNames sheetNames : list string)
    (operator : list PromptResponse) : list Call * PromptOutcome :=
  requestLoop sheetNames oldRoomNames [] operator.

(** [sheet.setName(newName)] on the first tab named [oldName]. *)
Fixpoint setName (tabs : list Sheet) (oldName newName : string) : list Sheet :=
  match tabs with
  | [] => []
  | sh :: rest =>
      if sheetName sh =? oldName
      then {| sheetName := newName; sheetId := sheetId sh;
              sheetTabColor := sheetTabColor sh; sheetHidden := sheetHidden sh |}
           :: rest
      else sh :: setName rest oldName newName
  end.

(** Body of the loop of [renameSheets]. *)
Definition renameSheet (ss : Spreadsheet) (entry : string * string) : Spreadsheet :=
  let '(oldName, newName) := entry in
  match getSheetByName ss oldName with
  | None => ss
  | Some _ =>
      logCall (withSheets ss (setName (sheets ss) oldName newName))
        (SetName oldName newName)
  end.

Definition renameSheets (ss : Spreadsheet) (renameMap : RenameMap) : Spreadsheet :=
  fold_left renameSheet (renameMap : list (string * string)) ss.

(** [roomsRange.getRichTextValues()]: one new object per text cell,
    [null] for the others. *)
Fixpoint getRichTextValues (heap : Heap) (cells : list Cell)
  : Heap * list (option Ref) :=
  match cells with
  | [] => (heap, [])
  | None :: rest =>
      let '(heap1, rooms) := getRichTextValues heap rest in (heap1, None :: rooms)
  | Some v :: rest =>
      let '(heap1, r) := alloc heap v in
      let '(heap2, rooms) := getRichTextValues heap1 rest in
      (heap2, Some r :: rooms)
  end.

(** The callback of [map] in [renameInDashboard] on one row [[room]]. *)
Definition relabel (renameMap : RenameMap) (heap : Heap) (room : option Ref)
  : Heap * Ref :=
  match room with
  | None => alloc heap emptyRichText
  | Some r =>
      let roomText := rtText (deref heap r) in
      if negb (mapHas renameMap roomText) then (heap, r)
      else
        alloc heap
          {| rtText := showOptional (mapGet renameMap roomText);
             rtLinkUrl := rtLinkUrl (deref heap r);
             rtBold := None |}
  end.

(** [roomsRange.getRichTextValues().map(...)]. *)
Fixpoint relabelAll (renameMap : RenameMap) (heap : Heap)
    (rooms : list (option Ref)) : Heap * list Ref :=
  match rooms with
  | [] => (heap, [])
  | room :: rest =>
      let '(heap1, r) := relabel renameMap heap room in
      let '(heap2, rs) := relabelAll renameMap heap1 rest in
      (heap2, r :: rs)
  end.

(** The array [newRichText] that [renameInDashboard] writes back, from
    the cells of the band: the heap after the callbacks, the objects
    read and the objects written. *)
Definition newRichText (renameMap : RenameMap) (cells : list Cell)
  : Heap * list (option Ref) * list Ref :=
  let '(heap, rooms) := getRichTextValues [] cells in
  let '(heap', written) := relabelAll renameMap heap rooms in
  (heap', rooms, written).

(** [renameInDashboard]; [None] when the host refuses the range because
    no row lies between the two boundary rows. *)
Definition renameInDashboard (ss : Spreadsheet) (renameMap : RenameMap)
  : option Spreadsheet :=
  let row := (materialRow ss + 1)%Z in
  let numRows := (sumRow ss - materialRow ss - 1)%Z in
  if (numRows <? 1)%Z then None
  else
    let '(heap, _, written) :=
      newRichText renameMap (getRows (dashboardColumn ss) row numRows) in
    Some (setRichTextValues ss row (map (deref heap) written)).

(** [configExistingRoomsRange.uncheck()]. *)
Definition uncheck (ss : Spreadsheet) : Spreadsheet :=
  logCall
    {| sheets := sheets ss; dashboardColumn := dashboardColumn ss;
       materialRow := materialRow ss; sumRow := sumRow ss;
       addRoomsValues := addRoomsValues ss;
       configExistingRooms :=
         map (fun row => (false, snd row)) (configExistingRooms ss);
       calls := calls ss |}
    Uncheck.

Definition noRoomsSelected : string := "Inga rum valda".

(** [renameRooms], the operator answering the prompts in turn.  A run
    still waiting at a prompt has made its UI calls and nothing else. *)
Definition renameRooms (ss : Spreadsheet) (operator : list PromptResponse)
  : Spreadsheet :=
  let selectedRooms := getSelectedRooms (configExistingRooms ss) in
  if (length selectedRooms =? 0)%nat then logCall ss (Toast noRoomsSelected)
  else
    let sheetNames := getSheetNames ss in
    let '(uiCalls, renamedRooms) :=
      requestNewRoomNames selectedRooms sheetNames operator in
    let ss := logCalls ss uiCalls in
    match renamedRooms with
    | Cancelled | Unanswered => ss
    | Renamed renameMap =>
        let ss := renameSheets ss renameMap in
        match renameInDashboard ss renameMap with
        | None => ss
        | Some ss' => uncheck ss'
        end
    end.

(* ------------------------------------------------------------------ *)
(** ** DeleteRooms *)
(* ------------------------------------------------------------------ *)

(** Body of the loop of [deleteSheets]. *)
Definition deleteSheet (ss : Spreadsheet) (roomName : string) : Spreadsheet :=
  match getSheetByName ss roomName with
  | None => ss
  | Some _ =>
      logCall
        (withSheets ss
           (let tabs := sheets ss in
            let i := Z.to_nat (indexOf (map sheetName tabs) roomName) in
            firstn i tabs ++ skipn (S i) tabs))
        (DeleteSheet roomName)
  end.

Definition deleteSheets (ss : Spreadsheet) (roomNames : list string) : Spreadsheet :=
  fold_left deleteSheet roomNames ss.

(** [range.getValues()] on the first column: the string of a text cell,
    [None] for a value that is not a string. *)
Definition getValues (column : list Cell) : list (option string) :=
  map (option_map rtText) column.

(** [firstColumnValues.findIndex(([row]) => row === roomName)]. *)
Fixpoint findIndex (values : list (option string)) (roomName : string) : Z :=
  match values with
  | [] => -1
  | row :: rest =>
      if match row with Some text => text =? roomName | None => false end
      then 0%Z
      else let i := findIndex rest roomName in if (i <? 0)%Z then -1 else (i + 1)%Z
  end.

(** [deleteIndexes] of [deleteInDashboard]. *)
Definition deleteIndexes (column : list Cell) (roomNames : list string) : list Z :=
  let firstColumnValues := getValues column in
  filter (fun index => negb (index =? 0)%Z)
    (map (fun roomName => (findIndex firstColumnValues roomName + 1)%Z) roomNames).

(** [deleteGroups] of [deleteInDashboard]. *)
Definition deleteGroups (column : list Cell) (roomNames : list string) : list Group :=
  groupAdjacentNumbers (deleteIndexes column roomNames).

Definition deleteInDashboard (ss : Spreadsheet) (roomNames : list string)
  : Spreadsheet :=
  fold_left (fun ss '(position, numRows) => deleteRows ss position numRows)
    (deleteGroups (dashboardColumn ss) roomNames) ss.

Definition confirmMessage (selectedRooms : list string) : string :=
  ("Vill du verkligen ta bort rummen: " ++ join ", " selectedRooms ++ "?")%string.

(** [deleteRooms]; [answerYes] is whether the operator answers YES. *)
Definition deleteRooms (ss : Spreadsheet) (answerYes : bool) : Spreadsheet :=
  let selectedRooms := getSelectedRooms (configExistingRooms ss) in
  if (length selectedRooms =? 0)%nat then logCall ss (Toast noRoomsSelected)
  else
    let ss := logCall ss (Alert (confirmMessage selectedRooms)) in
    if negb answerYes then ss
    else
      let ss := deleteSheets ss selectedRooms in
      let ss := deleteInDashboard ss selectedRooms in
      uncheck ss.

(* ================================================================== *)
(** * Vocabulary of the properties

    The loop read structurally, the contracts in the spec's words, the
    example spreadsheets and the predicates the properties are stated
    with. *)
(* ================================================================== *)

Local Open Scope Z_scope.

(* ------------------------------------------------------------------ *)
(** ** RangeGrouper *)
(* ------------------------------------------------------------------ *)

(** *** The loop, read structurally

    [scan prev rest groups] is the loop from the element after [prev]
    on: the same body, with [numbers[i - 1]] named [prev]. *)
Fixpoint scan (prev : Z) (rest : list Z) (groups : list Group) : list Group :=
  match rest with
  | [] => groups
  | x :: rest' =>
      scan x rest'
        (if negb (x =? prev + 1) then groups ++ [(x, 1)] else bumpLast groups)
  end.

Local Open Scope string_scope.

(* ------------------------------------------------------------------ *)
(** ** Validator *)
(* ------------------------------------------------------------------ *)

(** *** The contract of [validateNewRooms], in the spec's words

    Every entry raises a message for each of its problems; the names
    repeated in the batch raise one more; the failure value holds every
    message, one per line; the success value holds one pair per entry. *)

Definition nameMissing (position : nat) : string :=
  "Namn saknas till rum " ++ showNat position.

Definition templateMissing (position : nat) : string :=
  "Mall saknas till rum " ++ showNat position.

Definition budgetingMissing (position : nat) : string :=
  "Budgeteringsalternativ saknas till rum " ++ showNat position.

Definition alreadyExists (roomName : string) : string :=
  "Rum " ++ roomName ++ " finns redan".

Definition namesRepeated (duplicates : list string) : string :=
  "Rumnamn upprepas: " ++ join ", " duplicates.

(** The messages of the entry at [index] (its position is [index + 1]). *)
Definition entryMessages (sheetNames : list string) (index : nat)
    (row : NewRoomRow) : list string :=
  let '(inputRoomName, template, type) := row in
  ((if trim inputRoomName =? "" then [nameMissing (index + 1)] else [])
   ++ (if template =? "" then [templateMissing (index + 1)] else [])
   ++ (match type with NoType => [budgetingMissing (index + 1)] | _ => [] end)
   ++ (if includes sheetNames (trim inputRoomName)
       then [alreadyExists (trim inputRoomName)] else []))%list.

Fixpoint entriesMessages (sheetNames : list string) (index : nat)
    (newRooms : list NewRoomRow) : list string :=
  match newRooms with
  | [] => []
  | row :: rest =>
      (entryMessages sheetNames index row
       ++ entriesMessages sheetNames (S index) rest)%list
  end.

(** The trimmed names of a batch, in input order. *)
Definition trimmedNames (newRooms : list NewRoomRow) : list string :=
  map (fun row => trim (fst (fst row))) newRooms.

Definition duplicatesMessages (newRooms : list NewRoomRow) : list string :=
  match duplicateNames (trimmedNames newRooms) with
  | [] => []
  | duplicates => [namesRepeated duplicates]
  end.

(** Every message validation has to report for a batch. *)
Definition validationMessages (newRooms : list NewRoomRow)
    (sheetNames : list string) : list string :=
  (entriesMessages sheetNames 0 newRooms ++ duplicatesMessages newRooms)%list.

(** The failure value: the messages, one per line. *)
Fixpoint onePerLine (messages : list string) : string :=
  match messages with
  | [] => ""
  | message :: rest => message ++ nl ++ onePerLine rest
  end.

(** The success value: the trimmed name and the resolved template of
    every entry, in input order. *)
Definition resolvedPairs (newRooms : list NewRoomRow) : list (string * string) :=
  map (fun row : NewRoomRow =>
         let '(inputRoomName, template, type) := row in
         (trim inputRoomName, template ++ " " ++ showOptional (BUDGETING_TYPES type)))
      newRooms.

Local Open Scope list_scope.

(* ------------------------------------------------------------------ *)
(** ** Example spreadsheets *)
(* ------------------------------------------------------------------ *)

(** A text cell, not bold, with its link. *)
Definition textCell (text : string) (link : option string) : Cell :=
  Some {| rtText := text; rtLinkUrl := link; rtBold := Some false |}.

Definition exampleTabs : list Sheet :=
  map (fun entry : string * nat =>
         {| sheetName := fst entry; sheetId := snd entry;
            sheetTabColor := None; sheetHidden := false |})
      [("Dashboard", 0%nat); ("Mall (enkel)", 1%nat); ("Kitchen", 2%nat);
       ("Den", 3%nat); ("Bath", 4%nat); ("Hall", 5%nat); ("Attic", 6%nat)].

(** The dashboard of the spec's example: Kitchen, Den, Bath, Hall and
    Attic in rows 5 to 9, between the material row 4 and the sum row 10. *)
Definition exampleColumn : list Cell :=
  [textCell "Dashboard" None; textCell "" None; textCell "Rum" None;
   textCell "Material" None;
   textCell "Kitchen" (Some "#gid=2"); textCell "Den" (Some "#gid=3");
   textCell "Bath" (Some "#gid=4"); textCell "Hall" (Some "#gid=5");
   textCell "Attic" (Some "#gid=6");
   textCell "Summa" None].

Definition exampleSpreadsheet (addRows : list NewRoomRow)
    (config : list (bool * string)) : Spreadsheet :=
  {| sheets := exampleTabs; dashboardColumn := exampleColumn;
     materialRow := 4; sumRow := 10;
     addRoomsValues := addRows; configExistingRooms := config; calls := [] |}.

(* ------------------------------------------------------------------ *)
(** ** Relabelling: the objects read and written *)
(* ------------------------------------------------------------------ *)

(** [heap'] is [heap] with more objects allocated. *)
Definition extends (heap heap' : Heap) : Prop := exists more, heap' = heap ++ more.

(** The object read for a cell: none for a cell that is not text, and
    for a text cell an object holding the cell's rich text. *)
Definition readAs (heap : Heap) (cell : Cell) (room : option Ref) : Prop :=
  match cell, room with
  | Some v, Some r => nth_error heap r = Some v
  | None, None => True
  | _, _ => False
  end.

(** What the callback returns for the object [room] read, [before]
    being the heap the objects were read into and [after] the heap when
    the array is written back.
    - For [null]: a new object, empty.
    - For an object whose text is no key of the map: the same object.
    - For an object whose text is a key: a new object with the mapped
      name as text and the link target of the object read. *)
Definition writtenAs (renameMap : RenameMap) (before after : Heap)
    (room : option Ref) (w : Ref) : Prop :=
  match room with
  | None => nth_error before w = None /\ nth_error after w = Some emptyRichText
  | Some r =>
      exists v,
        nth_error before r = Some v /\ nth_error after r = Some v
        /\ match mapGet renameMap (rtText v) with
           | None => w = r
           | Some newName =>
               nth_error before w = None
               /\ nth_error after w
                  = Some {| rtText := newName; rtLinkUrl := rtLinkUrl v;
                            rtBold := None |}
           end
  end.

(** The cell a band cell becomes when the array is written back. *)
Definition cellAfter (renameMap : RenameMap) (cell : Cell) : RichTextValue :=
  match cell with
  | None => emptyRichText
  | Some v =>
      match mapGet renameMap (rtText v) with
      | None => v
      | Some newName =>
          {| rtText := newName; rtLinkUrl := rtLinkUrl v; rtBold := None |}
      end
  end.

(** A cell none of whose text is a key of the map: a text cell with
    another text, or a cell that is not text. *)
Definition matchesNoKey (renameMap : RenameMap) (cell : Cell) : Prop :=
  match cell with
  | Some v => mapHas renameMap (rtText v) = false
  | None => True
  end.

(** The claim that every band cell matching no key is passed through:
    the object written for it is the object read for it. *)
Definition unmatchedPassThrough (renameMap : RenameMap) (cells : list Cell) : Prop :=
  forall (i : nat) (cell : Cell),
    nth_error cells i = Some cell ->
    matchesNoKey renameMap cell ->
    exists r,
      nth_error (snd (fst (newRichText renameMap cells))) i = Some (Some r)
      /\ nth_error (snd (newRichText renameMap cells)) i = Some r.

Local Open Scope Z_scope.

(* ------------------------------------------------------------------ *)
(** ** Rows and the band *)
(* ------------------------------------------------------------------ *)

(** The cell at row [r] (rows count from 1). *)
Definition rowAt {A : Type} (column : list A) (r : Z) : option A :=
  nth_error column (Z.to_nat (r - 1)).

(** A group of rows lies in the band when all its rows are strictly
    between the material row and the sum row. *)
Definition inBand (material sum : Z) (g : Group) : Prop :=
  material < fst g /\ fst g + snd g - 1 < sum.

(** The rows of a column whose position, counted from [row], [keep]
    holds of. *)
Fixpoint keepRows {A : Type} (keep : Z -> bool) (row : Z) (column : list A)
  : list A :=
  match column with
  | [] => []
  | x :: rest =>
      if keep row then x :: keepRows keep (row + 1) rest
      else keepRows keep (row + 1) rest
  end.

Definition memZ (positions : list Z) (r : Z) : bool :=
  existsb (fun p => p =? r) positions.

(** A column without the rows at [positions], positions being those of
    the column as it is. *)
Definition withoutRows {A : Type} (positions : list Z) (column : list A) : list A :=
  keepRows (fun r => negb (memZ positions r)) 1 column.

(** A dashboard where a room is called like the label of the material
    row: Material in row 4, the boundary, and in row 6, a room. *)
Definition labelledColumn : list Cell :=
  [textCell "Dashboard" None; textCell "" None; textCell "Rum" None;
   textCell "Material" None;
   textCell "Kitchen" (Some "#gid=2"); textCell "Material" (Some "#gid=3");
   textCell "Summa" None].

(* ------------------------------------------------------------------ *)
(** ** Removal, in the spec's words *)
(* ------------------------------------------------------------------ *)

(** [removeRooms] in the spec's words: the positions found are
    deduplicated and sorted ascending before they are grouped. *)
Fixpoint insertPosition (p : Z) (ascending : list Z) : list Z :=
  match ascending with
  | [] => [p]
  | q :: rest =>
      if p <? q then p :: ascending
      else if p =? q then ascending
      else q :: insertPosition p rest
  end.

Definition sortedPositions (positions : list Z) : list Z :=
  fold_right insertPosition [] positions.

Definition removeRoomsGroups (column : list Cell) (roomNames : list string)
  : list Group :=
  groupAdjacentNumbers (sortedPositions (deleteIndexes column roomNames)).

(* ================================================================== *)
(** * The other copies of the script, and more vocabulary *)
(* ================================================================== *)

(* ------------------------------------------------------------------ *)
(** ** [groupAdjacentNumbers] of src/unnamed/part_001 *)
(* ------------------------------------------------------------------ *)

Local Open Scope Z_scope.

(** The grouper of that copy is a [reduce] over the array: the callback
    gets the groups so far, the number, its index and the array. *)
Module Part001Grouper.

Definition reduceStep (arr : list Z) (groups : list Group) (entry : nat * Z)
  : list Group :=
  let '(i, num) := entry in
  if (i =? 0)%nat || negb (num =? numAt arr (i - 1) + 1)
  then groups ++ [(num, 1)]
  else bumpLast groups.

Definition groupAdjacentNumbers (numbers : list Z) : list Group :=
  rev (fold_left (reduceStep numbers)
         (combine (seq 0 (length numbers)) numbers) []).

End Part001Grouper.

(** No two neighbours of the returned groups could be one group: the
    later run (first in the output) does not start right after the
    earlier one ends. *)
Fixpoint runsMaximal (groups : list Group) : Prop :=
  match groups with
  | later :: ((earlier :: _) as rest) =>
      fst later <> fst earlier + snd earlier /\ runsMaximal rest
  | _ => True
  end.

(* ------------------------------------------------------------------ *)
(** ** The validator of src/unnamed/part_000 *)
(* ------------------------------------------------------------------ *)

Local Open Scope string_scope.

(** That copy adds one room at a time, from a pair
    [[roomName, template]]; its errors are pushed on an array and
    joined with line breaks. *)
Module Part000.

Definition createRoomNameAndTemplatePair (newRoom : string * string)
    (sheetNames : list string) : string + (string * string) :=
  let '(inputRoomName, template) := newRoom in
  let errors : list string := [] in
  let roomName := trim inputRoomName in
  let errors := if roomName =? "" then (errors ++ ["Namn saknas"])%list else errors in
  let errors := if template =? "" then (errors ++ ["Mall saknas"])%list else errors in
  let errors :=
    if includes sheetNames roomName
    then (errors ++ [("Rum " ++ roomName ++ " finns redan")%string])%list
    else errors in
  if (0 <? length errors)%nat then inl (join nl errors)
  else inr (roomName, template ++ " (mall)").

End Part000.

(* ------------------------------------------------------------------ *)
(** ** Names after a rename *)
(* ------------------------------------------------------------------ *)

Local Open Scope list_scope.

(** The name a rename map gives to [name]: its entry when it has one,
    [name] itself otherwise. *)
Definition newNameOf (renameMap : RenameMap) (name : string) : string :=
  match mapGet renameMap name with
  | Some newName => newName
  | None => name
  end.

(** [sheet.setName] seen on the names of the tabs: the name [oldName]
    becomes [newName]. *)
Definition renameName (oldName newName name : string) : string :=
  if name =? oldName then newName else name.

Local Open Scope Z_scope.

(* ------------------------------------------------------------------ *)
(** ** A dashboard to relabel *)
(* ------------------------------------------------------------------ *)

(** The example of the spec for relabelling: Kitchen, linked to
    doc://123, and Bath in rows 3 and 4, followed by a cell that is not
    text, between the material row 2 and the sum row 6. *)
Definition relabelExample : Spreadsheet :=
  {| sheets := exampleTabs;
     dashboardColumn :=
       [textCell "Dashboard" None; textCell "Material" None;
        textCell "Kitchen" (Some "doc://123"); textCell "Bath" (Some "doc://7");
        None; textCell "Summa" None];
     materialRow := 2; sumRow := 6;
     addRoomsValues := []; configExistingRooms := []; calls := [] |}.

(* ================================================================== *)
(** * Properties *)
(* ================================================================== *)

(* ------------------------------------------------------------------ *)
(** ** RangeGrouper *)
(* ------------------------------------------------------------------ *)

Local Open Scope Z_scope.

Lemma numAt_app_here (pre : list Z) (x : Z) (post : list Z) :
  numAt (pre ++ x :: post) (length pre) = x.
Proof.
  unfold numAt. rewrite app_nth2 by lia.
  now rewrite Nat.sub_diag.
Qed.

Lemma groupLoop_from (rest : list Z) :
  forall (pre : list Z) (prev : Z) (groups : list Group),
    fold_left (groupStep (pre ++ prev :: rest))
      (seq (S (length pre)) (length rest)) groups
    = scan prev rest groups.
Proof.
  induction rest as [|x rest IH]; intros pre prev groups; [reflexivity|].
  cbn [length seq fold_left scan].
  replace (pre ++ prev :: x :: rest) with ((pre ++ [prev]) ++ x :: rest)
    by now rewrite <- app_assoc.
  replace (S (S (length pre))) with (S (length (pre ++ [prev])))
    by (rewrite length_app; simpl; lia).
  replace (groupStep ((pre ++ [prev]) ++ x :: rest) groups (S (length pre)))
    with (if negb (x =? prev + 1) then groups ++ [(x, 1)] else bumpLast groups).
  - apply IH.
  - unfold groupStep.
    replace (S (length pre)) with (length (pre ++ [prev]))
      by (rewrite length_app; simpl; lia).
    rewrite numAt_app_here.
    replace (length (pre ++ [prev]) - 1)%nat with (length pre)
      by (rewrite length_app; simpl; lia).
    rewrite <- app_assoc. cbn [app]. rewrite numAt_app_here.
    replace (length (pre ++ [prev]) =? 0)%nat with false; [reflexivity|].
    symmetry. apply Nat.eqb_neq. rewrite length_app. simpl. lia.
Qed.

Lemma groupLoop_cons (x : Z) (rest : list Z) :
  groupLoop (x :: rest) = scan x rest [(x, 1)].
Proof.
  unfold groupLoop. cbn [length seq fold_left].
  change (groupStep (x :: rest) [] 0%nat) with [(x, 1)].
  exact (groupLoop_from rest [] x [(x, 1)]).
Qed.

Lemma bumpLast_last (gs : list Group) (s c : Z) :
  bumpLast (gs ++ [(s, c)]) = gs ++ [(s, c + 1)%Z].
Proof.
  induction gs as [|g gs IH]; [reflexivity|].
  cbn [app bumpLast]. rewrite IH.
  destruct (gs ++ [(s, c)]) eqn:E; [now destruct gs|].
  now destruct g.
Qed.

(** The statement that bumps the last group is reached with a group to
    bump: after any number of steps from a first element the array of
    groups is not empty. *)
Lemma bumpLast_defined (rest : list Z) :
  forall (prev : Z) (groups : list Group),
    groups <> [] -> scan prev rest groups <> [].
Proof.
  induction rest as [|x rest IH]; intros prev groups Hne; [exact Hne|].
  cbn [scan]. apply IH.
  destruct (negb (x =? prev + 1)%Z).
  - now destruct groups.
  - destruct groups as [|g groups]; [contradiction|].
    destruct g as [s c]. cbn [bumpLast].
    now destruct groups.
Qed.

Lemma expandGroup_single (x : Z) : expandGroup (x, 1%Z) = [x].
Proof.
  unfold expandGroup. cbn [fst snd].
  change (Z.to_nat 1) with 1%nat. cbn [seq map Z.of_nat].
  now rewrite Z.add_0_r.
Qed.

Lemma expandGroup_bump (s c : Z) :
  (0 <= c)%Z -> expandGroup (s, (c + 1)%Z) = expandGroup (s, c) ++ [(s + c)%Z].
Proof.
  intros Hc. unfold expandGroup. cbn [fst snd].
  replace (Z.to_nat (c + 1)) with (S (Z.to_nat c)) by lia.
  rewrite seq_S, map_app. cbn [map Nat.add].
  now rewrite Z2Nat.id by lia.
Qed.

Lemma flat_map_snoc {A B : Type} (f : A -> list B) (l : list A) (a : A) :
  flat_map f (l ++ [a]) = flat_map f l ++ f a.
Proof. rewrite flat_map_app. cbn. now rewrite app_nil_r. Qed.

(** The loop invariant: the groups built so far expand to the numbers
    consumed so far, the last group ends at the previous number, and the
    starts, read from the last group back, strictly decrease. *)
Lemma scan_invariant (rest : list Z) :
  forall (prev : Z) (gs : list Group) (s c : Z) (consumed : list Z),
    strictlyAscending (prev :: rest) ->
    (0 < c)%Z -> (s + c = prev + 1)%Z ->
    flat_map expandGroup (gs ++ [(s, c)]) = consumed ->
    strictlyDescending (map fst (rev (gs ++ [(s, c)]))) ->
    flat_map expandGroup (scan prev rest (gs ++ [(s, c)])) = consumed ++ rest
    /\ strictlyDescending (map fst (rev (scan prev rest (gs ++ [(s, c)])))).
Proof.
  induction rest as [|x rest IH]; intros prev gs s c consumed Hasc Hc Hend Hexp Hdesc.
  - cbn [scan]. now rewrite app_nil_r.
  - apply Sorted_inv in Hasc. destruct Hasc as [Hasc Hhd].
    apply HdRel_inv in Hhd.
    cbn [scan].
    replace (consumed ++ x :: rest) with ((consumed ++ [x]) ++ rest)
      by now rewrite <- app_assoc.
    destruct (x =? prev + 1)%Z eqn:E; cbn [negb].
    + apply Z.eqb_eq in E. rewrite bumpLast_last.
      apply IH; try assumption; try lia.
      * rewrite flat_map_snoc, expandGroup_bump by lia.
        rewrite flat_map_snoc in Hexp. rewrite <- Hexp, <- app_assoc.
        do 3 f_equal. lia.
      * rewrite rev_app_distr in *. exact Hdesc.
    + apply (IH x (gs ++ [(s, c)]) x 1%Z); try assumption; try lia.
      * now rewrite flat_map_snoc, expandGroup_single, Hexp.
      * rewrite rev_app_distr. cbn [rev app map fst].
        constructor; [exact Hdesc|].
        rewrite rev_app_distr in Hdesc. cbn [rev app map fst] in Hdesc.
        apply StronglySorted_inv in Hdesc. destruct Hdesc as [_ Hall].
        rewrite rev_app_distr. cbn [rev app map fst].
        constructor; [lia|].
        eapply Forall_impl; [|exact Hall]. cbn. intros y Hy. lia.
Qed.

Lemma groupLoop_invariant (numbers : list Z) :
  strictlyAscending numbers ->
  flat_map expandGroup (groupLoop numbers) = numbers
  /\ strictlyDescending (map fst (rev (groupLoop numbers))).
Proof.
  destruct numbers as [|x rest]; intros Hasc.
  - split; [reflexivity|constructor].
  - rewrite groupLoop_cons.
    apply (scan_invariant rest x [] x 1%Z [x]); try assumption; try lia.
    + cbn [app flat_map]. now rewrite expandGroup_single.
    + cbn [app rev map fst]. repeat constructor.
Qed.

(** C1.  On a strictly ascending (hence duplicate-free) list of
    integers, the groups [groupAdjacentNumbers] returns expand to runs
    whose concatenation is the input: read from the last group back it
    is the input list itself, and in the order returned it is a
    permutation of it; the starts of the groups strictly decrease along
    the output.  The empty list gives the empty list, [[5]] gives
    [[(5,1)]] and [[2,3,4,7,9,10]] gives [[(9,2),(7,1),(2,3)]]. *)
Theorem groupAdjacentNumbers_reconstructs (numbers : list Z) :
  strictlyAscending numbers ->
  (flat_map expandGroup (rev (groupAdjacentNumbers numbers)) = numbers
   /\ Permutation (flat_map expandGroup (groupAdjacentNumbers numbers)) numbers
   /\ strictlyDescending (map fst (groupAdjacentNumbers numbers)))
  /\ groupAdjacentNumbers [] = []
  /\ groupAdjacentNumbers [5%Z] = [(5%Z, 1%Z)]
  /\ groupAdjacentNumbers [2; 3; 4; 7; 9; 10]%Z = [(9, 2); (7, 1); (2, 3)]%Z.
Proof.
  intros Hasc.
  destruct (groupLoop_invariant numbers Hasc) as [Hexp Hdesc].
  unfold groupAdjacentNumbers.
  repeat split; try reflexivity.
  - now rewrite rev_involutive.
  - rewrite <- Hexp at 2.
    apply Permutation_flat_map. symmetry. apply Permutation_rev.
  - exact Hdesc.
Qed.

Lemma groupAdjacentNumbers_reconstructs_witness :
  strictlyAscending [2; 3; 4; 7; 9; 10]%Z
  /\ flat_map expandGroup [(9, 2); (7, 1); (2, 3)]%Z = [9; 10; 7; 2; 3; 4]%Z
  /\ Permutation
       (flat_map expandGroup (groupAdjacentNumbers [2; 3; 4; 7; 9; 10]%Z))
       [2; 3; 4; 7; 9; 10]%Z.
Proof.
  assert (H : strictlyAscending [2; 3; 4; 7; 9; 10]%Z)
    by (unfold strictlyAscending; repeat constructor).
  split; [exact H|]. split; [reflexivity|].
  exact (proj1 (proj2 (proj1
           (groupAdjacentNumbers_reconstructs [2; 3; 4; 7; 9; 10]%Z H)))).
Defined.

(* ------------------------------------------------------------------ *)
(** ** Validator *)
(* ------------------------------------------------------------------ *)

Local Open Scope string_scope.

(** *** Strings *)

Lemma append_assoc (a b c : string) : (a ++ b) ++ c = a ++ (b ++ c).
Proof. induction a as [|ch a IH]; cbn; [reflexivity|now rewrite IH]. Qed.

Lemma append_nil_r (a : string) : a ++ "" = a.
Proof. induction a as [|ch a IH]; cbn; [reflexivity|now rewrite IH]. Qed.

Lemma append_nl_not_empty (a b : string) : a ++ nl ++ b <> "".
Proof. destruct a; discriminate. Qed.

Lemma onePerLine_app (xs ys : list string) :
  onePerLine (xs ++ ys)%list = onePerLine xs ++ onePerLine ys.
Proof.
  induction xs as [|x xs IH]; cbn [app onePerLine]; [reflexivity|].
  now rewrite IH, !append_assoc.
Qed.

Lemma onePerLine_empty (messages : list string) :
  onePerLine messages = "" <-> messages = [].
Proof.
  split; [|now intros ->].
  destruct messages as [|m rest]; [reflexivity|].
  cbn [onePerLine]. intros H. now apply append_nl_not_empty in H.
Qed.

Lemma typeText_blank (type : BudgetingType) :
  (typeText type =? "") = match type with NoType => true | _ => false end.
Proof. now destruct type. Qed.

(** *** The accumulated [error] is the messages, one per line *)

Lemma roomPair_messages (sheetNames : list string) (error : string) (index : nat)
    (row : NewRoomRow) :
  roomPair sheetNames error index row
  = (error ++ onePerLine (entryMessages sheetNames index row),
     let '(inputRoomName, template, type) := row in
     (trim inputRoomName, template ++ " " ++ showOptional (BUDGETING_TYPES type))).
Proof.
  destruct row as [[inputRoomName template] type].
  unfold roomPair, entryMessages. rewrite typeText_blank.
  unfold nameMissing, templateMissing, budgetingMissing, alreadyExists.
  f_equal.
  destruct (trim inputRoomName =? ""), (template =? ""), type,
    (includes sheetNames (trim inputRoomName));
    cbn [app onePerLine]; rewrite ?append_assoc, ?append_nil_r; reflexivity.
Qed.

Lemma mapRoomPairs_messages (sheetNames : list string) (newRooms : list NewRoomRow) :
  forall (error : string) (index : nat),
    mapRoomPairs sheetNames error index newRooms
    = (error ++ onePerLine (entriesMessages sheetNames index newRooms),
       resolvedPairs newRooms).
Proof.
  induction newRooms as [|row rest IH]; intros error index.
  - cbn. now rewrite append_nil_r.
  - cbn [mapRoomPairs entriesMessages]. rewrite roomPair_messages, IH.
    rewrite onePerLine_app, append_assoc.
    unfold resolvedPairs. cbn [map]. reflexivity.
Qed.

Lemma resolvedPairs_names (newRooms : list NewRoomRow) :
  map fst (resolvedPairs newRooms) = trimmedNames newRooms.
Proof.
  unfold resolvedPairs, trimmedNames. rewrite map_map.
  apply map_ext. now intros [[n t] k].
Qed.

Lemma createRoomPairs_refines (newRooms : list NewRoomRow) (sheetNames : list string) :
  createRoomPairs newRooms sheetNames
  = match validationMessages newRooms sheetNames with
    | [] => inr (resolvedPairs newRooms)
    | messages => inl (onePerLine messages)
    end.
Proof.
  unfold createRoomPairs. rewrite mapRoomPairs_messages.
  rewrite resolvedPairs_names.
  change ("" ++ onePerLine (entriesMessages sheetNames 0 newRooms))
    with (onePerLine (entriesMessages sheetNames 0 newRooms)).
  assert (Herr :
    (if (0 <? length (duplicateNames (trimmedNames newRooms)))%nat
     then onePerLine (entriesMessages sheetNames 0 newRooms)
          ++ "Rumnamn upprepas: "
          ++ join ", " (duplicateNames (trimmedNames newRooms)) ++ nl
     else onePerLine (entriesMessages sheetNames 0 newRooms))
    = onePerLine (validationMessages newRooms sheetNames)).
  { unfold validationMessages, duplicatesMessages. rewrite onePerLine_app.
    destruct (duplicateNames (trimmedNames newRooms)) as [|d ds];
      cbn [length Nat.ltb Nat.leb onePerLine].
    - now rewrite append_nil_r.
    - unfold namesRepeated. now rewrite append_nil_r, append_assoc. }
  rewrite Herr.
  destruct (validationMessages newRooms sheetNames) as [|m rest] eqn:E.
  - reflexivity.
  - destruct (onePerLine (m :: rest) =? "") eqn:E'; [|reflexivity].
    apply String.eqb_eq, onePerLine_empty in E'. discriminate.
Qed.

Lemma entriesMessages_at (sheetNames : list string) (newRooms : list NewRoomRow) :
  forall (start index : nat) (row : NewRoomRow) (message : string),
    nth_error newRooms index = Some row ->
    In message (entryMessages sheetNames (start + index) row) ->
    In message (entriesMessages sheetNames start newRooms).
Proof.
  induction newRooms as [|r rest IH]; intros start index row message Hnth Hin.
  - now destruct index.
  - cbn [entriesMessages]. apply in_or_app.
    destruct index as [|index]; cbn in Hnth.
    + injection Hnth as ->. left. now rewrite Nat.add_0_r in Hin.
    + right. apply (IH (S start) index row); [exact Hnth|].
      now replace (S start + index)%nat with (start + S index)%nat by lia.
Qed.

Lemma includes_In (arr : list string) (x : string) :
  includes arr x = true <-> In x arr.
Proof.
  unfold includes. rewrite existsb_exists. split.
  - intros [y [Hy E]]. apply String.eqb_eq in E. now subst.
  - intros H. exists x. split; [exact H|apply String.eqb_refl].
Qed.

(** The list of messages holds the message of every problem. *)
Lemma validationMessages_complete
    (newRooms : list NewRoomRow) (sheetNames : list string) :
  (forall (index : nat) (inputRoomName template : string) (type : BudgetingType),
      nth_error newRooms index = Some (inputRoomName, template, type) ->
      (trim inputRoomName = "" ->
       In (nameMissing (index + 1)) (validationMessages newRooms sheetNames))
      /\ (template = "" ->
          In (templateMissing (index + 1)) (validationMessages newRooms sheetNames))
      /\ (type = NoType ->
          In (budgetingMissing (index + 1)) (validationMessages newRooms sheetNames))
      /\ (In (trim inputRoomName) sheetNames ->
          In (alreadyExists (trim inputRoomName))
            (validationMessages newRooms sheetNames)))
  /\ (duplicateNames (trimmedNames newRooms) <> [] ->
      In (namesRepeated (duplicateNames (trimmedNames newRooms)))
        (validationMessages newRooms sheetNames)).
Proof.
  split.
  - intros index inputRoomName template type Hnth.
    assert (Hat : forall message,
      In message (entryMessages sheetNames index (inputRoomName, template, type)) ->
      In message (validationMessages newRooms sheetNames)).
    { intros message Hin. unfold validationMessages. apply in_or_app. left.
      now apply (entriesMessages_at sheetNames newRooms 0 index
                   (inputRoomName, template, type)). }
    unfold entryMessages in Hat.
    repeat split; intros H; apply Hat.
    + rewrite H. cbn. now left.
    + apply in_or_app. right. apply in_or_app. left.
      rewrite H. cbn. now left.
    + do 2 (apply in_or_app; right). apply in_or_app. left.
      rewrite H. now left.
    + do 3 (apply in_or_app; right).
      apply includes_In in H. rewrite H. now left.
  - intros Hdup. unfold validationMessages, duplicatesMessages.
    apply in_or_app. right.
    destruct (duplicateNames (trimmedNames newRooms)); [contradiction|now left].
Qed.

Lemma duplicateNames_twice (roomName : string) :
  duplicateNames [roomName; roomName] = [roomName].
Proof.
  unfold duplicateNames. cbn [laterOccurrences indexOf].
  rewrite String.eqb_refl. reflexivity.
Qed.

Lemma entryMessages_clean (index : nat) (inputRoomName template : string)
    (type : BudgetingType) :
  trim inputRoomName <> "" -> template <> "" -> type <> NoType ->
  entryMessages [] index (inputRoomName, template, type) = [].
Proof.
  intros Hn Ht Hk. unfold entryMessages.
  apply String.eqb_neq in Hn, Ht. rewrite Hn, Ht.
  now destruct type.
Qed.

(** C8.  Two entries with the same name, valid otherwise and validated
    against no existing name, fail with the line of repeated names
    alone: it lists the name once, and no message says that the room
    already exists, the existing names being the only ones that check
    looks at. *)
Theorem createRoomPairs_same_name_twice
    (A T1 T2 : string) (k1 k2 : BudgetingType) :
  trim A <> "" -> T1 <> "" -> T2 <> "" -> k1 <> NoType -> k2 <> NoType ->
  duplicateNames (trimmedNames [(A, T1, k1); (A, T2, k2)]) = [trim A]
  /\ validationMessages [(A, T1, k1); (A, T2, k2)] [] = [namesRepeated [trim A]]
  /\ createRoomPairs [(A, T1, k1); (A, T2, k2)] []
     = inl ("Rumnamn upprepas: " ++ trim A ++ nl)
  /\ ~ In (alreadyExists (trim A)) (validationMessages [(A, T1, k1); (A, T2, k2)] []).
Proof.
  intros HA HT1 HT2 Hk1 Hk2.
  assert (Hdup : duplicateNames (trimmedNames [(A, T1, k1); (A, T2, k2)]) = [trim A])
    by apply duplicateNames_twice.
  assert (Hmsgs : validationMessages [(A, T1, k1); (A, T2, k2)] []
                  = [namesRepeated [trim A]]).
  { unfold validationMessages, duplicatesMessages. rewrite Hdup.
    cbn [entriesMessages]. now rewrite !entryMessages_clean. }
  repeat split; try assumption.
  - rewrite createRoomPairs_refines, Hmsgs. cbn [onePerLine].
    unfold namesRepeated, join. cbn [concat].
    now rewrite append_nil_r, append_assoc.
  - rewrite Hmsgs. intros [H|[]]. discriminate H.
Qed.

Lemma createRoomPairs_same_name_twice_witness :
  createRoomPairs [("A", "T1", Enkel); ("A", "T2", Enkel)] []
  = inl ("Rumnamn upprepas: A" ++ nl).
Proof.
  exact (proj1 (proj2 (proj2
    (createRoomPairs_same_name_twice "A" "T1" "T2" Enkel Enkel
       ltac:(discriminate) ltac:(discriminate) ltac:(discriminate)
       ltac:(discriminate) ltac:(discriminate))))).
Defined.

(** The validation of src/scripts.ts trims: a name blank after trimming
    fails the batch with the message of its 1-based position among the
    lines of the error; a batch that passes returns one pair per entry,
    in input order, each with the trimmed name; the empty batch passes
    with no pair. *)
Theorem createRoomPairs_trims (newRooms : list NewRoomRow) (sheetNames : list string) :
  (forall (index : nat) (inputRoomName template : string) (type : BudgetingType),
      nth_error newRooms index = Some (inputRoomName, template, type) ->
      trim inputRoomName = "" ->
      exists messages,
        createRoomPairs newRooms sheetNames = inl (onePerLine messages)
        /\ In (nameMissing (index + 1)) messages)
  /\ (forall pairs,
        createRoomPairs newRooms sheetNames = inr pairs ->
        pairs = resolvedPairs newRooms
        /\ map fst pairs = trimmedNames newRooms
        /\ length pairs = length newRooms)
  /\ createRoomPairs [] sheetNames = inr [].
Proof.
  pose proof (createRoomPairs_refines newRooms sheetNames) as Href.
  destruct (validationMessages_complete newRooms sheetNames) as [Hentry _].
  repeat split.
  - intros index inputRoomName template type Hnth Hblank.
    destruct (Hentry index inputRoomName template type Hnth) as [Hname _].
    specialize (Hname Hblank).
    exists (validationMessages newRooms sheetNames).
    split; [|exact Hname].
    rewrite Href.
    destruct (validationMessages newRooms sheetNames); [contradiction|reflexivity].
  - rewrite Href in H.
    destruct (validationMessages newRooms sheetNames); [|discriminate].
    now injection H as <-.
  - rewrite Href in H.
    destruct (validationMessages newRooms sheetNames); [|discriminate].
    injection H as <-. apply resolvedPairs_names.
  - rewrite Href in H.
    destruct (validationMessages newRooms sheetNames); [|discriminate].
    injection H as <-. unfold resolvedPairs. apply length_map.
Qed.

(** C9 on src/unnamed/part_001.  That copy of [createRoomPairs] does not
    trim: a padded name is returned as typed, a name of blanks passes
    with no message, and a padded copy of an existing name passes the
    collision check; on the same batches the validation of
    src/scripts.ts returns the trimmed name, reports the missing name
    and reports the collision. *)
Theorem part001_createRoomPairs_does_not_trim :
  Part001.createRoomPairs [(" A ", "T", Avancerad)] []
  = inr [(" A ", "T (avancerad)")]
  /\ Part001.createRoomPairs [("  ", "T", Avancerad)] []
     = inr [("  ", "T (avancerad)")]
  /\ Part001.createRoomPairs [("A ", "T", Enkel)] ["A"]
     = inr [("A ", "T (enkel)")]
  /\ createRoomPairs [(" A ", "T", Avancerad)] [] = inr [("A", "T (avancerad)")]
  /\ createRoomPairs [("  ", "T", Avancerad)] []
     = inl ("Namn saknas till rum 1" ++ nl)
  /\ createRoomPairs [("A ", "T", Enkel)] ["A"] = inl ("Rum A finns redan" ++ nl).
Proof. repeat split; vm_compute; reflexivity. Qed.

(* ------------------------------------------------------------------ *)
(** ** AddRooms *)
(* ------------------------------------------------------------------ *)

Local Open Scope list_scope.

Lemma filter_isMutation_app (cs ds : list Call) :
  filter isMutation ds = [] ->
  filter isMutation (cs ++ ds) = filter isMutation cs.
Proof. intros H. now rewrite filter_app, H, app_nil_r. Qed.

Lemma addNewRooms_cases (ss : Spreadsheet) :
  addNewRooms ss
  = match validationMessages (newRoomRows ss) (getSheetNames ss) with
    | [] =>
        match resolvedPairs (newRoomRows ss) with
        | [] => logCall ss (Toast nothingToAdd)
        | nameTemplatePairs =>
            clearContent
              (addNewRoomsToDashboard (createNewRoomSheets ss nameTemplatePairs)
                 (map fst nameTemplatePairs))
        end
    | messages => logCall ss (Alert (onePerLine messages))
    end.
Proof.
  unfold addNewRooms. rewrite createRoomPairs_refines.
  destruct (validationMessages (newRoomRows ss) (getSheetNames ss)); [|reflexivity].
  now destruct (resolvedPairs (newRoomRows ss)).
Qed.

(** C6.  A batch with any validation message leaves everything as it
    was: [addNewRooms] only alerts the combined error text; the tabs,
    the dashboard, the boundary rows, the AddRooms values and the
    selection table are unchanged and no mutating call is recorded (no
    copy, no row inserted or written, no clearing).  A run that records
    a mutating call is a run whose batch raised no message and held an
    entry. *)
Theorem addNewRooms_invalid_batch_has_no_effect (ss : Spreadsheet) :
  (validationMessages (newRoomRows ss) (getSheetNames ss) <> [] ->
   addNewRooms ss
   = logCall ss
       (Alert (onePerLine (validationMessages (newRoomRows ss) (getSheetNames ss))))
   /\ sheets (addNewRooms ss) = sheets ss
   /\ dashboardColumn (addNewRooms ss) = dashboardColumn ss
   /\ materialRow (addNewRooms ss) = materialRow ss
   /\ sumRow (addNewRooms ss) = sumRow ss
   /\ addRoomsValues (addNewRooms ss) = addRoomsValues ss
   /\ configExistingRooms (addNewRooms ss) = configExistingRooms ss
   /\ filter isMutation (calls (addNewRooms ss)) = filter isMutation (calls ss))
  /\ (filter isMutation (calls (addNewRooms ss)) <> filter isMutation (calls ss) ->
      validationMessages (newRoomRows ss) (getSheetNames ss) = []
      /\ newRoomRows ss <> []).
Proof.
  rewrite addNewRooms_cases. split.
  - intros Hfail.
    destruct (validationMessages (newRoomRows ss) (getSheetNames ss)) as [|m rest];
      [contradiction|].
    repeat split. cbn [logCall logCalls calls].
    now apply filter_isMutation_app.
  - intros Hmut.
    destruct (validationMessages (newRoomRows ss) (getSheetNames ss)) as [|m rest].
    + split; [reflexivity|].
      intros Hnone. rewrite Hnone in Hmut. cbn in Hmut.
      apply Hmut. now apply filter_isMutation_app.
    + exfalso. apply Hmut. cbn [logCall logCalls calls].
      now apply filter_isMutation_app.
Qed.

Lemma addNewRooms_invalid_batch_has_no_effect_witness :
  addNewRooms
    (exampleSpreadsheet [("Loft", "Mall", Enkel); ("", "", NoType); (" ", "Mall", NoType)] [])
  = logCall
      (exampleSpreadsheet [("Loft", "Mall", Enkel); ("", "", NoType); (" ", "Mall", NoType)] [])
      (Alert ("Namn saknas till rum 2" ++ nl
              ++ "Budgeteringsalternativ saknas till rum 2" ++ nl)%string).
Proof.
  exact (proj1 (proj1
    (addNewRooms_invalid_batch_has_no_effect
       (exampleSpreadsheet
          [("Loft", "Mall", Enkel); ("", "", NoType); (" ", "Mall", NoType)] []))
    ltac:(vm_compute; discriminate))).
Defined.

(* ------------------------------------------------------------------ *)
(** ** RenameRooms: the prompts *)
(* ------------------------------------------------------------------ *)

(** Collecting names only talks to the operator. *)
Lemma requestLoop_only_ui (sheetNames : list string) (operator : list PromptResponse) :
  forall (oldRoomNames : list string) (renameMap : RenameMap),
    filter isMutation (fst (requestLoop sheetNames oldRoomNames renameMap operator))
    = [].
Proof.
  induction operator as [|response operator IH]; intros oldRoomNames renameMap.
  - now destruct oldRoomNames.
  - destruct oldRoomNames as [|oldName rest]; [reflexivity|].
    destruct response as [text|]; [|reflexivity].
    cbn [requestLoop].
    destruct (rejection oldName (trim text) sheetNames renameMap) as [message|].
    + specialize (IH (oldName :: rest) renameMap).
      destruct (requestLoop sheetNames (oldName :: rest) renameMap operator).
      exact IH.
    + specialize (IH rest (mapSet renameMap oldName (trim text))).
      destruct (requestLoop sheetNames rest (mapSet renameMap oldName (trim text))
                  operator).
      exact IH.
Qed.

(** A cancel at the prompt the operator faces ends the collection with
    [null], whatever was accepted before. *)
Lemma requestLoop_cancel (sheetNames : list string) (answered : list PromptResponse) :
  forall (oldRoomNames : list string) (renameMap : RenameMap)
         (rest : list PromptResponse),
    snd (requestLoop sheetNames oldRoomNames renameMap answered) = Unanswered ->
    snd (requestLoop sheetNames oldRoomNames renameMap
           (answered ++ ResponseCancel :: rest))
    = Cancelled.
Proof.
  induction answered as [|response answered IH]; intros oldRoomNames renameMap rest H.
  - destruct oldRoomNames; [discriminate H|reflexivity].
  - destruct oldRoomNames as [|oldName others]; [discriminate H|].
    destruct response as [text|]; [|discriminate H].
    cbn [requestLoop app] in *.
    destruct (rejection oldName (trim text) sheetNames renameMap) as [message|].
    + specialize (IH (oldName :: others) renameMap rest).
      destruct (requestLoop sheetNames (oldName :: others) renameMap answered).
      destruct (requestLoop sheetNames (oldName :: others) renameMap
                  (answered ++ ResponseCancel :: rest)).
      exact (IH H).
    + specialize (IH others (mapSet renameMap oldName (trim text)) rest).
      destruct (requestLoop sheetNames others (mapSet renameMap oldName (trim text))
                  answered).
      destruct (requestLoop sheetNames others (mapSet renameMap oldName (trim text))
                  (answered ++ ResponseCancel :: rest)).
      exact (IH H).
Qed.

(** When the collection ends with [null], [renameRooms] has only made
    the UI calls of the collection. *)
Lemma renameRooms_cancelled (ss : Spreadsheet) (operator : list PromptResponse) :
  snd (requestNewRoomNames (getSelectedRooms (configExistingRooms ss))
         (getSheetNames ss) operator)
  = Cancelled ->
  renameRooms ss operator
  = logCalls ss
      (fst (requestNewRoomNames (getSelectedRooms (configExistingRooms ss))
              (getSheetNames ss) operator)).
Proof.
  intros H. unfold renameRooms.
  destruct (getSelectedRooms (configExistingRooms ss)) as [|room others] eqn:E;
    [now destruct operator|].
  cbn [length Nat.eqb].
  destruct (requestNewRoomNames (room :: others) (getSheetNames ss) operator)
    as [uiCalls outcome].
  cbn [snd fst] in *. now rewrite H.
Qed.

(** C7.  The operator has answered some prompts, any number of names
    being accepted, and cancels at the prompt then open: [renameRooms]
    renames no tab, changes no dashboard cell and leaves the selection
    table checked; the tabs, the dashboard, the boundary rows and both
    input ranges are as before and no mutating call is recorded. *)
Theorem renameRooms_cancel_commits_nothing
    (ss : Spreadsheet) (answered rest : list PromptResponse) :
  snd (requestNewRoomNames (getSelectedRooms (configExistingRooms ss))
         (getSheetNames ss) answered)
  = Unanswered ->
  sheets (renameRooms ss (answered ++ ResponseCancel :: rest)) = sheets ss
  /\ dashboardColumn (renameRooms ss (answered ++ ResponseCancel :: rest))
     = dashboardColumn ss
  /\ materialRow (renameRooms ss (answered ++ ResponseCancel :: rest)) = materialRow ss
  /\ sumRow (renameRooms ss (answered ++ ResponseCancel :: rest)) = sumRow ss
  /\ configExistingRooms (renameRooms ss (answered ++ ResponseCancel :: rest))
     = configExistingRooms ss
  /\ addRoomsValues (renameRooms ss (answered ++ ResponseCancel :: rest))
     = addRoomsValues ss
  /\ filter isMutation (calls (renameRooms ss (answered ++ ResponseCancel :: rest)))
     = filter isMutation (calls ss).
Proof.
  intros H.
  rewrite renameRooms_cancelled by (now apply requestLoop_cancel).
  repeat split. cbn [logCalls calls].
  apply filter_isMutation_app, requestLoop_only_ui.
Qed.

(** Three rooms selected; the first new name is accepted, then the
    operator cancels at the prompt for the second room. *)
Lemma renameRooms_cancel_commits_nothing_witness :
  snd (requestNewRoomNames ["Kitchen"; "Den"; "Bath"]
         (getSheetNames (exampleSpreadsheet []
            [(true, "Kitchen"); (true, "Den"); (true, "Bath"); (false, "Hall")]))
         [ResponseOK "Pantry"])
  = Unanswered
  /\ sheets (renameRooms
               (exampleSpreadsheet []
                  [(true, "Kitchen"); (true, "Den"); (true, "Bath"); (false, "Hall")])
               [ResponseOK "Pantry"; ResponseCancel])
     = exampleTabs
  /\ dashboardColumn
       (renameRooms
          (exampleSpreadsheet []
             [(true, "Kitchen"); (true, "Den"); (true, "Bath"); (false, "Hall")])
          [ResponseOK "Pantry"; ResponseCancel])
     = exampleColumn.
Proof.
  split; [reflexivity|].
  pose proof (renameRooms_cancel_commits_nothing
                (exampleSpreadsheet []
                   [(true, "Kitchen"); (true, "Den"); (true, "Bath"); (false, "Hall")])
                [ResponseOK "Pantry"] [] eq_refl) as H.
  exact (conj (proj1 H) (proj1 (proj2 H))).
Defined.

(* ------------------------------------------------------------------ *)
(** ** RenameRooms: names that exist *)
(* ------------------------------------------------------------------ *)


Lemma rejection_accepts (oldName newRoomName : string) (sheetNames : list string)
    (renameMap : RenameMap) :
  rejection oldName newRoomName sheetNames renameMap = None ->
  newRoomName <> ""%string /\ ~ In newRoomName sheetNames
  /\ ~ In newRoomName (mapValues renameMap).
Proof.
  unfold rejection.
  destruct (newRoomName =? "")%string eqn:E1; [discriminate|].
  destruct (includes sheetNames newRoomName) eqn:E2; [discriminate|].
  destruct (includes (mapValues renameMap) newRoomName) eqn:E3; [discriminate|].
  intros _. repeat split.
  - now apply String.eqb_neq.
  - intros Hin. apply includes_In in Hin. congruence.
  - intros Hin. apply includes_In in Hin. congruence.
Qed.

Lemma In_mapSet (renameMap : RenameMap) (key value : string) (entry : string * string) :
  In entry (mapSet renameMap key value) -> entry = (key, value) \/ In entry renameMap.
Proof.
  induction renameMap as [|[k v] rest IH]; cbn [mapSet].
  - intros [H|[]]. now left.
  - destruct (k =? key)%string.
    + intros [H|H]; [now left|right; now right].
    + intros [H|H]; [right; now left|].
      destruct (IH H) as [H'|H']; [now left|right; now right].
Qed.


(* ------------------------------------------------------------------ *)
(** ** DashboardSync: relabelling *)
(* ------------------------------------------------------------------ *)

Lemma extends_refl (heap : Heap) : extends heap heap.
Proof. exists []. now rewrite app_nil_r. Qed.

Lemma extends_trans (h1 h2 h3 : Heap) : extends h1 h2 -> extends h2 h3 -> extends h1 h3.
Proof. intros [m1 ->] [m2 ->]. exists (m1 ++ m2). now rewrite app_assoc. Qed.

Lemma extends_alloc (heap : Heap) (v : RichTextValue) : extends heap (heap ++ [v]).
Proof. now exists [v]. Qed.

Lemma extends_lookup (heap heap' : Heap) (r : Ref) (v : RichTextValue) :
  extends heap heap' -> nth_error heap r = Some v -> nth_error heap' r = Some v.
Proof.
  intros [more ->] H. rewrite nth_error_app1; [exact H|].
  apply nth_error_Some. congruence.
Qed.

Lemma extends_fresh (heap heap' : Heap) :
  extends heap heap' -> nth_error heap (length heap') = None.
Proof.
  intros [more ->]. apply nth_error_None. rewrite length_app. lia.
Qed.

Lemma alloc_lookup (heap : Heap) (v : RichTextValue) :
  nth_error (heap ++ [v]) (length heap) = Some v.
Proof. rewrite nth_error_app2 by lia. now rewrite Nat.sub_diag. Qed.

Lemma deref_lookup (heap : Heap) (r : Ref) (v : RichTextValue) :
  nth_error heap r = Some v -> deref heap r = v.
Proof. intros H. unfold deref. now apply nth_error_nth. Qed.

Lemma mapHas_mapGet (renameMap : RenameMap) (key : string) :
  mapHas renameMap key
  = match mapGet renameMap key with Some _ => true | None => false end.
Proof.
  unfold mapHas, mapGet.
  induction renameMap as [|[k v] rest IH]; [reflexivity|].
  cbn [existsb find fst]. now destruct (k =? key)%string.
Qed.

Lemma getRichTextValues_reads (cells : list Cell) :
  forall heap : Heap,
    extends heap (fst (getRichTextValues heap cells))
    /\ Forall2 (readAs (fst (getRichTextValues heap cells))) cells
         (snd (getRichTextValues heap cells)).
Proof.
  induction cells as [|cell rest IH]; intros heap.
  - split; [apply extends_refl|constructor].
  - destruct cell as [v|]; cbn [getRichTextValues alloc].
    + destruct (IH (heap ++ [v])) as [Hext Hread].
      destruct (getRichTextValues (heap ++ [v]) rest) as [heap2 rooms].
      cbn [fst snd] in *. split.
      * eapply extends_trans; [apply extends_alloc|exact Hext].
      * constructor; [|exact Hread].
        cbn. eapply extends_lookup; [exact Hext|apply alloc_lookup].
    + destruct (IH heap) as [Hext Hread].
      destruct (getRichTextValues heap rest) as [heap1 rooms].
      cbn [fst snd] in *. split; [exact Hext|].
      constructor; [exact I|exact Hread].
Qed.

Lemma relabelAll_writes (renameMap : RenameMap) (before : Heap)
    (cells : list Cell) (rooms : list (option Ref)) :
  Forall2 (readAs before) cells rooms ->
  forall heap : Heap,
    extends before heap ->
    extends heap (fst (relabelAll renameMap heap rooms))
    /\ Forall2 (writtenAs renameMap before (fst (relabelAll renameMap heap rooms)))
         rooms (snd (relabelAll renameMap heap rooms)).
Proof.
  induction 1 as [|cell room cells rooms Hread _ IH]; intros heap Hext.
  - split; [apply extends_refl|constructor].
  - cbn [relabelAll].
    destruct room as [r|]; cbn [relabel].
    + destruct cell as [v|]; [|contradiction]. cbn in Hread.
      pose proof (extends_lookup _ _ _ _ Hext Hread) as Hheap.
      rewrite (deref_lookup _ _ _ Hheap), mapHas_mapGet.
      destruct (mapGet renameMap (rtText v)) as [newName|] eqn:G; cbn [negb alloc].
      * set (built := {| rtText := showOptional (Some newName);
                         rtLinkUrl := rtLinkUrl v; rtBold := None |}).
        destruct (IH (heap ++ [built])) as [Hext' Hrest].
        { eapply extends_trans; [exact Hext|apply extends_alloc]. }
        destruct (relabelAll renameMap (heap ++ [built]) rooms) as [heap2 written].
        cbn [fst snd] in *. split.
        -- eapply extends_trans; [apply extends_alloc|exact Hext'].
        -- constructor; [|exact Hrest].
           exists v. split; [exact Hread|]. split.
           ++ eapply extends_lookup; [|exact Hheap].
              eapply extends_trans; [apply extends_alloc|exact Hext'].
           ++ rewrite G. split; [now apply extends_fresh|].
              eapply extends_lookup; [exact Hext'|apply alloc_lookup].
      * destruct (IH heap Hext) as [Hext' Hrest].
        destruct (relabelAll renameMap heap rooms) as [heap2 written].
        cbn [fst snd] in *. split; [exact Hext'|].
        constructor; [|exact Hrest].
        exists v. split; [exact Hread|]. split.
        -- eapply extends_lookup; [exact Hext'|exact Hheap].
        -- now rewrite G.
    + destruct cell as [v|]; [contradiction|]. cbn [alloc].
      destruct (IH (heap ++ [emptyRichText])) as [Hext' Hrest].
      { eapply extends_trans; [exact Hext|apply extends_alloc]. }
      destruct (relabelAll renameMap (heap ++ [emptyRichText]) rooms)
        as [heap2 written].
      cbn [fst snd] in *. split.
      * eapply extends_trans; [apply extends_alloc|exact Hext'].
      * constructor; [|exact Hrest].
        split; [now apply extends_fresh|].
        eapply extends_lookup; [exact Hext'|apply alloc_lookup].
Qed.

(** The array written back, object by object. *)
Lemma newRichText_objects (renameMap : RenameMap) (cells : list Cell) :
  let before := fst (getRichTextValues [] cells) in
  let after := fst (fst (newRichText renameMap cells)) in
  let rooms := snd (fst (newRichText renameMap cells)) in
  let written := snd (newRichText renameMap cells) in
  rooms = snd (getRichTextValues [] cells)
  /\ Forall2 (readAs before) cells rooms
  /\ Forall2 (writtenAs renameMap before after) rooms written.
Proof.
  unfold newRichText.
  destruct (getRichTextValues_reads cells []) as [_ Hread].
  destruct (getRichTextValues [] cells) as [before rooms] eqn:E.
  cbn [fst snd] in Hread.
  destruct (relabelAll_writes renameMap before cells rooms Hread before
              (extends_refl before)) as [_ Hwritten].
  destruct (relabelAll renameMap before rooms) as [after written].
  cbn [fst snd] in *. now repeat split.
Qed.

(** The values written back, cell by cell. *)
Lemma written_values (renameMap : RenameMap) (before after : Heap)
    (cells : list Cell) (rooms : list (option Ref)) :
  Forall2 (readAs before) cells rooms ->
  forall written : list Ref,
    Forall2 (writtenAs renameMap before after) rooms written ->
    map (deref after) written = map (cellAfter renameMap) cells.
Proof.
  induction 1 as [|cell room cells rooms Hread _ IH]; intros written Hwritten.
  - now inversion Hwritten.
  - inversion Hwritten as [|room' w rooms' written' Hw Hrest]; subst.
    cbn [map]. f_equal; [|now apply IH].
    destruct cell as [v|], room as [r|]; try contradiction; cbn in Hread, Hw.
    + destruct Hw as [v' [Hv' [Hafter Hcase]]].
      assert (v' = v) by congruence. subst v'. cbn [cellAfter].
      destruct (mapGet renameMap (rtText v)) as [newName|].
      * now apply deref_lookup.
      * subst w. now apply deref_lookup.
    + now apply deref_lookup.
Qed.

Lemma newRichText_values (renameMap : RenameMap) (cells : list Cell) :
  map (deref (fst (fst (newRichText renameMap cells))))
    (snd (newRichText renameMap cells))
  = map (cellAfter renameMap) cells.
Proof.
  destruct (newRichText_objects renameMap cells) as [_ [Hread Hwritten]].
  exact (written_values _ _ _ _ _ Hread _ Hwritten).
Qed.

Lemma Forall2_nth_error_l {A B : Type} (R : A -> B -> Prop) (l : list A) (l' : list B) :
  Forall2 R l l' ->
  forall (i : nat) (a : A),
    nth_error l i = Some a -> exists b, nth_error l' i = Some b /\ R a b.
Proof.
  induction 1 as [|x y l l' Hxy _ IH]; intros i a Hi.
  - now destruct i.
  - destruct i as [|i]; cbn in *.
    + injection Hi as <-. now exists y.
    + now apply IH.
Qed.

Lemma length_getRows_le {A : Type} (column : list A) (row numRows : Z) :
  (length (getRows column row numRows)
   <= length column - Z.to_nat (row - 1))%nat.
Proof.
  unfold getRows. rewrite length_firstn, length_skipn. lia.
Qed.

Lemma length_setRows {A : Type} (column : list A) (row : Z) (values : list A) :
  (length values <= length column - Z.to_nat (row - 1))%nat ->
  length (setRows column row values) = length column.
Proof.
  intros H. unfold setRows.
  rewrite !length_app, length_firstn, length_skipn. lia.
Qed.

(** What [renameInDashboard] does when the host accepts the range: one
    write over the band, of the relabelled cells. *)
Lemma renameInDashboard_writes (ss ss' : Spreadsheet) (renameMap : RenameMap) :
  renameInDashboard ss renameMap = Some ss' ->
  (1 <= sumRow ss - materialRow ss - 1)%Z
  /\ ss'
     = setRichTextValues ss (materialRow ss + 1)
         (map (cellAfter renameMap)
            (getRows (dashboardColumn ss) (materialRow ss + 1)
               (sumRow ss - materialRow ss - 1))).
Proof.
  unfold renameInDashboard.
  destruct (sumRow ss - materialRow ss - 1 <? 1)%Z eqn:E; [discriminate|].
  apply Z.ltb_ge in E.
  pose proof (newRichText_values renameMap
                (getRows (dashboardColumn ss) (materialRow ss + 1)
                   (sumRow ss - materialRow ss - 1))) as Hvalues.
  destruct (newRichText renameMap
              (getRows (dashboardColumn ss) (materialRow ss + 1)
                 (sumRow ss - materialRow ss - 1))) as [[heap rooms] written].
  cbn [fst snd] in Hvalues. rewrite Hvalues.
  intros H. injection H as <-. now split.
Qed.

Lemma length_after_rename (ss ss' : Spreadsheet) (renameMap : RenameMap) :
  renameInDashboard ss renameMap = Some ss' ->
  length (dashboardColumn ss') = length (dashboardColumn ss).
Proof.
  intros H. apply renameInDashboard_writes in H. destruct H as [_ ->].
  cbn [setRichTextValues logCall logCalls withDashboard dashboardColumn].
  apply length_setRows. rewrite !length_map. apply length_getRows_le.
Qed.

(** The claim as the spec states it fails on a band cell that is not
    text: it matches no key, and a new empty value is written for it. *)
Lemma relabel_rebuilds_cell_without_text :
  matchesNoKey [("Kitchen", "Den")] None
  /\ newRichText [("Kitchen", "Den")] [None] = ([emptyRichText], [None], [0%nat])
  /\ ~ unmatchedPassThrough [("Kitchen", "Den")] [None].
Proof.
  split; [exact I|]. split; [reflexivity|].
  intros Hpass. destruct (Hpass 0%nat None eq_refl I) as [r [Hread _]].
  discriminate Hread.
Qed.

(* ------------------------------------------------------------------ *)
(** ** DashboardSync: rows touched *)
(* ------------------------------------------------------------------ *)

Local Open Scope Z_scope.

Lemma keepRows_ext {A : Type} (keep keep' : Z -> bool) (column : list A) :
  forall row : Z,
    (forall r, row <= r < row + Z.of_nat (length column) -> keep r = keep' r) ->
    keepRows keep row column = keepRows keep' row column.
Proof.
  induction column as [|x rest IH]; intros row H; [reflexivity|].
  cbn [keepRows]. rewrite (H row) by (cbn [length]; lia).
  rewrite (IH (row + 1)); [reflexivity|].
  intros r Hr. apply H. cbn [length]. lia.
Qed.

Lemma keepRows_app {A : Type} (keep : Z -> bool) (l1 l2 : list A) :
  forall row : Z,
    keepRows keep row (l1 ++ l2)
    = keepRows keep row l1 ++ keepRows keep (row + Z.of_nat (length l1)) l2.
Proof.
  induction l1 as [|x l1 IH]; intros row.
  - cbn. now rewrite Z.add_0_r.
  - cbn [app keepRows length]. rewrite IH.
    replace (row + 1 + Z.of_nat (length l1)) with (row + Z.of_nat (S (length l1)))
      by lia.
    now destruct (keep row).
Qed.

Lemma keepRows_all {A : Type} (keep : Z -> bool) (column : list A) :
  forall row : Z,
    (forall r, row <= r < row + Z.of_nat (length column) -> keep r = true) ->
    keepRows keep row column = column.
Proof.
  induction column as [|x rest IH]; intros row H; [reflexivity|].
  cbn [keepRows]. rewrite (H row) by (cbn [length]; lia).
  f_equal. apply IH. intros r Hr. apply H. cbn [length]. lia.
Qed.

Lemma keepRows_none {A : Type} (keep : Z -> bool) (column : list A) :
  forall row : Z,
    (forall r, row <= r < row + Z.of_nat (length column) -> keep r = false) ->
    keepRows keep row column = [].
Proof.
  induction column as [|x rest IH]; intros row H; [reflexivity|].
  cbn [keepRows]. rewrite (H row) by (cbn [length]; lia).
  apply IH. intros r Hr. apply H. cbn [length]. lia.
Qed.

Lemma memZ_In (positions : list Z) (r : Z) : memZ positions r = true <-> In r positions.
Proof.
  unfold memZ. rewrite existsb_exists. split.
  - intros [p [Hp E]]. apply Z.eqb_eq in E. now subst.
  - intros H. exists r. split; [exact H|apply Z.eqb_refl].
Qed.

Lemma memZ_false (positions : list Z) (r : Z) :
  memZ positions r = false <-> ~ In r positions.
Proof.
  rewrite <- memZ_In. now destruct (memZ positions r).
Qed.

Lemma In_expandGroup (s c r : Z) : In r (expandGroup (s, c)) <-> s <= r < s + c.
Proof.
  unfold expandGroup. cbn [fst snd]. rewrite in_map_iff. split.
  - intros [k [<- Hk]]. apply in_seq in Hk. lia.
  - intros H. exists (Z.to_nat (r - s)). split; [lia|].
    apply in_seq. lia.
Qed.

(** Deleting the group of rows [(s, c)], every position of [above]
    being above it: what is left without the rows at [above] is the
    column without the rows at [above] and the rows of the group. *)
Lemma withoutRows_removeRows {A : Type} (above : list Z) (s c : Z) (column : list A) :
  1 <= s -> 0 <= c ->
  (forall a, In a above -> a < s) ->
  withoutRows above (removeRows column s c)
  = withoutRows (above ++ expandGroup (s, c)) column.
Proof.
  intros Hs Hc Habove. unfold withoutRows, removeRows.
  set (a := Z.to_nat (s - 1)). set (n := Z.to_nat c).
  set (keepA := fun r => negb (memZ above r)).
  set (keepAE := fun r => negb (memZ (above ++ expandGroup (s, c)) r)).
  assert (HkeepA : forall r, s <= r -> keepA r = true).
  { intros r Hr. unfold keepA. apply negb_true_iff, memZ_false.
    intros Hin. apply Habove in Hin. lia. }
  assert (Hbelow : forall r, r < s -> keepAE r = keepA r).
  { intros r Hr. unfold keepAE, keepA, memZ. rewrite existsb_app.
    fold (memZ above r). fold (memZ (expandGroup (s, c)) r).
    replace (memZ (expandGroup (s, c)) r) with false; [now rewrite orb_false_r|].
    symmetry. apply memZ_false. rewrite In_expandGroup. lia. }
  assert (Hin : forall r, s <= r < s + c -> keepAE r = false).
  { intros r Hr. unfold keepAE. apply negb_false_iff, memZ_In.
    apply in_or_app. right. apply In_expandGroup. lia. }
  assert (Hafter : forall r, s + c <= r -> keepAE r = true).
  { intros r Hr. unfold keepAE. apply negb_true_iff, memZ_false.
    intros H. apply in_app_or in H. destruct H as [H|H].
    - apply Habove in H. lia.
    - apply In_expandGroup in H. lia. }
  assert (Hsplit : column
                   = firstn a column ++ firstn n (skipn a column)
                     ++ skipn (a + n) column).
  { replace (a + n)%nat with (n + a)%nat by lia.
    now rewrite <- skipn_skipn, !firstn_skipn. }
  rewrite Hsplit at 3. rewrite !keepRows_app.
  destruct (Nat.le_gt_cases a (length column)) as [Hle|Hgt].
  - assert (Hpre : length (firstn a column) = a) by (apply firstn_length_le; lia).
    rewrite Hpre.
    rewrite (keepRows_ext keepAE keepA (firstn a column) 1)
      by (intros r Hr; apply Hbelow; lia).
    f_equal.
    rewrite (keepRows_none keepAE (firstn n (skipn a column))).
    2:{ intros r Hr. apply Hin. rewrite length_firstn in Hr. lia. }
    cbn [app].
    destruct (Nat.le_gt_cases (length column) (a + n)) as [Hshort|Hlong].
    + now rewrite (skipn_all2 column Hshort).
    + rewrite (keepRows_all keepA) by (intros r Hr; apply HkeepA; lia).
      rewrite (keepRows_all keepAE); [reflexivity|].
      intros r Hr. apply Hafter.
      rewrite length_firstn, length_skipn in Hr. lia.
  - rewrite (skipn_all2 (n := a + n) column) by lia.
    rewrite (skipn_all2 (n := a) column) by lia.
    rewrite firstn_nil. cbn [keepRows]. rewrite !app_nil_r.
    apply keepRows_ext. intros r Hr. symmetry. apply Hbelow.
    rewrite length_firstn in Hr. lia.
Qed.

Lemma StronglySorted_app_lt (l1 l2 : list Z) :
  StronglySorted Z.lt (l1 ++ l2) ->
  StronglySorted Z.lt l1 /\ (forall x y, In x l1 -> In y l2 -> x < y).
Proof.
  induction l1 as [|a l1 IH]; cbn [app]; intros H.
  - split; [constructor|]. intros x y [].
  - apply StronglySorted_inv in H. destruct H as [Hrest Hall].
    destruct (IH Hrest) as [Hl1 Hcross]. split.
    + constructor; [exact Hl1|].
      apply Forall_forall. intros x Hx.
      rewrite Forall_forall in Hall. apply Hall, in_or_app. now left.
    + intros x y [<-|Hx] Hy.
      * rewrite Forall_forall in Hall. apply Hall, in_or_app. now right.
      * now apply Hcross.
Qed.

Lemma strictlyAscending_strong (numbers : list Z) :
  strictlyAscending numbers -> StronglySorted Z.lt numbers.
Proof. apply Sorted_StronglySorted. exact Z.lt_trans. Qed.

(** Deleting the groups from the last one back removes the rows the
    groups expand to, positions being those before any deletion. *)
Lemma removeRows_descending {A : Type} (groups : list Group) :
  StronglySorted Z.lt (flat_map expandGroup groups) ->
  Forall (fun g => 1 <= fst g /\ 0 < snd g) groups ->
  forall column : list A,
    fold_left (fun column '(position, numRows) => removeRows column position numRows)
      (rev groups) column
    = withoutRows (flat_map expandGroup groups) column.
Proof.
  induction groups as [|[s c] groups IH] using rev_ind; intros Hsorted Hgroups column.
  - cbn. unfold withoutRows. symmetry. now apply keepRows_all.
  - rewrite rev_app_distr. cbn [rev app fold_left].
    rewrite flat_map_snoc in *.
    apply StronglySorted_app_lt in Hsorted. destruct Hsorted as [Hsorted Hcross].
    apply Forall_app in Hgroups. destruct Hgroups as [Hgroups Hlast].
    apply Forall_inv in Hlast. cbn [fst snd] in Hlast.
    rewrite (IH Hsorted Hgroups).
    apply withoutRows_removeRows; try lia.
    intros a Ha. apply Hcross; [exact Ha|].
    apply In_expandGroup. lia.
Qed.

Lemma bumpLast_counts (groups : list Group) :
  Forall (fun g => 0 < snd g) groups -> Forall (fun g => 0 < snd g) (bumpLast groups).
Proof.
  induction groups as [|[s c] groups IH]; intros H; [constructor|].
  apply Forall_cons_iff in H. destruct H as [Hc Hrest].
  cbn [bumpLast]. destruct groups as [|g groups].
  - constructor; [cbn in *; lia|constructor].
  - constructor; [exact Hc|now apply IH].
Qed.

Lemma scan_counts (rest : list Z) :
  forall (prev : Z) (groups : list Group),
    Forall (fun g => 0 < snd g) groups ->
    Forall (fun g => 0 < snd g) (scan prev rest groups).
Proof.
  induction rest as [|x rest IH]; intros prev groups H; [exact H|].
  cbn [scan]. apply IH.
  destruct (negb (x =? prev + 1)).
  - apply Forall_app. split; [exact H|]. constructor; [cbn; lia|constructor].
  - now apply bumpLast_counts.
Qed.

Lemma groupLoop_counts (numbers : list Z) :
  Forall (fun g => 0 < snd g) (groupLoop numbers).
Proof.
  destruct numbers as [|x rest]; [constructor|].
  rewrite groupLoop_cons. apply scan_counts.
  constructor; [cbn; lia|constructor].
Qed.

(** The first and the last row of every group are among the numbers
    grouped. *)
Lemma groupLoop_ends (numbers : list Z) (g : Group) :
  strictlyAscending numbers ->
  In g (groupLoop numbers) ->
  0 < snd g /\ In (fst g) numbers /\ In (fst g + snd g - 1) numbers.
Proof.
  intros Hasc Hg.
  destruct (groupLoop_invariant numbers Hasc) as [Hexp _].
  pose proof (groupLoop_counts numbers) as Hcounts.
  rewrite Forall_forall in Hcounts. specialize (Hcounts g Hg).
  split; [exact Hcounts|].
  assert (Hsub : forall r, In r (expandGroup g) -> In r numbers).
  { intros r Hr. rewrite <- Hexp. apply in_flat_map. now exists g. }
  destruct g as [s c]. cbn [fst snd] in *.
  split; apply Hsub, In_expandGroup; lia.
Qed.

Lemma findIndex_found (values : list (option string)) (roomName : string) :
  -1 <= findIndex values roomName
  /\ (0 <= findIndex values roomName ->
      nth_error values (Z.to_nat (findIndex values roomName)) = Some (Some roomName)
      /\ forall j,
           (j < Z.to_nat (findIndex values roomName))%nat ->
           nth_error values j <> Some (Some roomName)).
Proof.
  induction values as [|row rest IH]; cbn [findIndex]; [split; lia|].
  destruct row as [text|].
  - destruct (text =? roomName)%string eqn:E.
    + apply String.eqb_eq in E. subst. split; [lia|]. intros _. split; [reflexivity|].
      intros j Hj. cbn in Hj. lia.
    + apply String.eqb_neq in E. destruct IH as [Hlow Hfound].
      destruct (findIndex rest roomName <? 0) eqn:L; [split; lia|].
      apply Z.ltb_ge in L. destruct (Hfound L) as [Hat Hfirst]. split; [lia|].
      intros _. replace (Z.to_nat (findIndex rest roomName + 1))
        with (S (Z.to_nat (findIndex rest roomName))) by lia.
      split; [exact Hat|].
      intros [|j] Hj; cbn [nth_error]; [congruence|]. apply Hfirst. lia.
  - destruct IH as [Hlow Hfound].
    destruct (findIndex rest roomName <? 0) eqn:L; [split; lia|].
    apply Z.ltb_ge in L. destruct (Hfound L) as [Hat Hfirst]. split; [lia|].
    intros _. replace (Z.to_nat (findIndex rest roomName + 1))
      with (S (Z.to_nat (findIndex rest roomName))) by lia.
    split; [exact Hat|].
    intros [|j] Hj; cbn [nth_error]; [discriminate|]. apply Hfirst. lia.
Qed.

(** Every position to delete is the row of the first match of a
    selected name in the whole first column. *)
Lemma deleteIndexes_first_match (column : list Cell) (roomNames : list string) (p : Z) :
  In p (deleteIndexes column roomNames) ->
  1 <= p
  /\ exists roomName,
       In roomName roomNames
       /\ rowAt (getValues column) p = Some (Some roomName)
       /\ forall r, 1 <= r < p -> rowAt (getValues column) r <> Some (Some roomName).
Proof.
  unfold deleteIndexes. rewrite filter_In, in_map_iff.
  intros [[roomName [<- Hname]] Hnz].
  apply negb_true_iff, Z.eqb_neq in Hnz.
  destruct (findIndex_found (getValues column) roomName) as [Hlow Hfound].
  assert (Hpos : 0 <= findIndex (getValues column) roomName) by lia.
  destruct (Hfound Hpos) as [Hat Hfirst].
  split; [lia|]. exists roomName. split; [exact Hname|]. unfold rowAt. split.
  - now replace (findIndex (getValues column) roomName + 1 - 1)
      with (findIndex (getValues column) roomName) by lia.
  - intros r Hr. apply Hfirst. lia.
Qed.

Lemma deleteRows_column (groups : list Group) :
  forall ss : Spreadsheet,
    dashboardColumn
      (fold_left (fun ss '(position, numRows) => deleteRows ss position numRows)
         groups ss)
    = fold_left (fun column '(position, numRows) => removeRows column position numRows)
        groups (dashboardColumn ss).
Proof.
  induction groups as [|[s c] groups IH]; intros ss; [reflexivity|].
  cbn [fold_left]. now rewrite IH.
Qed.


(** Selected names whose positions come out ascending: the dashboard
    loses exactly the rows at those positions. *)
Lemma deleteInDashboard_ascending (ss : Spreadsheet) (roomNames : list string) :
  strictlyAscending (deleteIndexes (dashboardColumn ss) roomNames) ->
  dashboardColumn (deleteInDashboard ss roomNames)
  = withoutRows (deleteIndexes (dashboardColumn ss) roomNames) (dashboardColumn ss).
Proof.
  intros Hasc. unfold deleteInDashboard. rewrite deleteRows_column.
  unfold deleteGroups, groupAdjacentNumbers.
  destruct (groupLoop_invariant _ Hasc) as [Hexp _].
  rewrite removeRows_descending.
  - now rewrite Hexp.
  - rewrite Hexp. now apply strictlyAscending_strong.
  - apply Forall_forall. intros g Hg.
    destruct (groupLoop_ends _ g Hasc Hg) as [Hc [Hfirst _]].
    split; [|exact Hc].
    now apply deleteIndexes_first_match in Hfirst.
Qed.

Lemma rowAt_setRows_outside {A : Type} (column : list A) (row : Z) (values : list A)
    (r : Z) :
  1 <= row -> 1 <= r ->
  (length values <= length column - Z.to_nat (row - 1))%nat ->
  r < row \/ row + Z.of_nat (length values) <= r ->
  rowAt (setRows column row values) r = rowAt column r.
Proof.
  intros Hrow Hr Hlen Hout. unfold rowAt, setRows.
  set (a := Z.to_nat (row - 1)) in *. set (j := Z.to_nat (r - 1)).
  destruct (Nat.le_gt_cases a (length column)) as [Hle|Hgt].
  - assert (Hpre : length (firstn a column) = a) by (apply firstn_length_le; lia).
    destruct Hout as [Hbefore|Hafter].
    + rewrite nth_error_app1 by lia.
      rewrite nth_error_firstn.
      replace (j <? a)%nat with true; [reflexivity|].
      symmetry. apply Nat.ltb_lt. lia.
    + rewrite nth_error_app2 by lia. rewrite nth_error_app2 by lia.
      rewrite nth_error_skipn. f_equal. lia.
  - assert (Hnone : values = []) by (destruct values; [reflexivity|cbn in Hlen; lia]).
    subst values. cbn [length app]. rewrite Nat.add_0_r.
    rewrite (skipn_all2 (n := a) column) by lia.
    rewrite (firstn_all2 (n := a) column) by lia.
    now rewrite app_nil_r.
Qed.

(** C3 on a room named like the label of the material row.  Deleting
    looks the name up in the whole first column: its first match is the
    material row itself, and that row, outside the band, is the row
    deleted, the room's row staying.  Renaming the same room on the
    same dashboard rewrites the room's row, in the band, and leaves the
    material row as it was. *)
Lemma deleteInDashboard_leaves_the_band :
  option_map (fun ss' => getValues (dashboardColumn ss'))
    (renameInDashboard
       {| sheets := []; dashboardColumn := labelledColumn;
          materialRow := 4; sumRow := 7; addRoomsValues := [];
          configExistingRooms := []; calls := [] |}
       [("Material", "Stone")]%string)
  = Some [Some "Dashboard"; Some ""; Some "Rum"; Some "Material"; Some "Kitchen";
          Some "Stone"; Some "Summa"]%string
  /\ deleteGroups labelledColumn ["Material"%string] = [(4, 1)]
  /\ ~ Forall (inBand 4 7) (deleteGroups labelledColumn ["Material"%string])
  /\ getValues
       (dashboardColumn
          (deleteInDashboard
             {| sheets := []; dashboardColumn := labelledColumn;
                materialRow := 4; sumRow := 7; addRoomsValues := [];
                configExistingRooms := []; calls := [] |}
             ["Material"%string]))
     = [Some "Dashboard"; Some ""; Some "Rum"; Some "Kitchen"; Some "Material";
        Some "Summa"]%string.
Proof.
  split; [reflexivity|]. split; [reflexivity|]. split; [|reflexivity].
  change (deleteGroups labelledColumn ["Material"%string]) with [(4, 1)].
  intros H. apply Forall_inv in H. destruct H as [H _]. cbn in H. lia.
Qed.

(** The edits of the dashboard and the band.  When [renameInDashboard]
    writes, the material row being a row, its one write starts at the
    row after the material row and covers at most the rows up to the
    one before the sum row; every row at or above the material row and
    at or below the sum row is as it was, and no row is inserted or
    removed.  When the positions [deleteInDashboard] resolves come out
    strictly ascending, the rows removed are exactly the rows at those
    positions, each the first match of a selected name in the whole
    first column; and if, besides, no selected name occurs in the first
    column at or above the material row or at or below the sum row,
    every group of rows deleted lies in the band. *)
Theorem dashboard_edits_and_the_band (ss : Spreadsheet) :
  (forall (renameMap : RenameMap) (ss' : Spreadsheet),
      1 <= materialRow ss ->
      renameInDashboard ss renameMap = Some ss' ->
      length (dashboardColumn ss') = length (dashboardColumn ss)
      /\ (forall r,
            1 <= r -> r <= materialRow ss \/ sumRow ss <= r ->
            rowAt (dashboardColumn ss') r = rowAt (dashboardColumn ss) r)
      /\ exists numRows,
           numRows <= sumRow ss - materialRow ss - 1
           /\ calls ss' = calls ss ++ [SetRichTextValues (materialRow ss + 1) numRows])
  /\ (forall roomNames : list string,
        strictlyAscending (deleteIndexes (dashboardColumn ss) roomNames) ->
        dashboardColumn (deleteInDashboard ss roomNames)
        = withoutRows (deleteIndexes (dashboardColumn ss) roomNames)
            (dashboardColumn ss)
        /\ (forall p,
              In p (deleteIndexes (dashboardColumn ss) roomNames) ->
              exists roomName,
                In roomName roomNames
                /\ rowAt (getValues (dashboardColumn ss)) p = Some (Some roomName)
                /\ forall r,
                     1 <= r < p ->
                     rowAt (getValues (dashboardColumn ss)) r <> Some (Some roomName))
        /\ ((forall roomName r,
               In roomName roomNames ->
               1 <= r -> r <= materialRow ss \/ sumRow ss <= r ->
               rowAt (getValues (dashboardColumn ss)) r <> Some (Some roomName)) ->
            Forall (inBand (materialRow ss) (sumRow ss))
              (deleteGroups (dashboardColumn ss) roomNames))).
Proof.
  split.
  - intros renameMap ss' Hmaterial Hrename.
    split; [now apply (length_after_rename ss ss' renameMap)|].
    apply renameInDashboard_writes in Hrename. destruct Hrename as [Hband ->].
    set (values := map (cellAfter renameMap)
                     (getRows (dashboardColumn ss) (materialRow ss + 1)
                        (sumRow ss - materialRow ss - 1))).
    assert (Hlen : (length (map Some values)
                    <= length (dashboardColumn ss)
                       - Z.to_nat (materialRow ss + 1 - 1))%nat).
    { unfold values. rewrite !length_map. apply length_getRows_le. }
    assert (Hcount : Z.of_nat (length (map Some values))
                     <= sumRow ss - materialRow ss - 1).
    { unfold values, getRows. rewrite !length_map, length_firstn. lia. }
    split.
    + intros r Hr Hout.
      cbn [setRichTextValues logCall logCalls withDashboard dashboardColumn].
      apply rowAt_setRows_outside; try lia; [exact Hlen|].
      rewrite length_map in Hcount |- *. destruct Hout; [left|right]; lia.
    + exists (Z.of_nat (length values)). split; [|reflexivity].
      now rewrite length_map in Hcount.
  - intros roomNames Hasc.
    split; [now apply deleteInDashboard_ascending|]. split.
    + intros p Hp. now apply deleteIndexes_first_match in Hp.
    + intros Hinside. apply Forall_forall. intros g Hg.
      unfold deleteGroups, groupAdjacentNumbers in Hg. apply in_rev in Hg.
      destruct (groupLoop_ends _ g Hasc Hg) as [Hc [Hfirst Hlast]].
      assert (Hin : forall p,
        In p (deleteIndexes (dashboardColumn ss) roomNames) ->
        materialRow ss < p < sumRow ss).
      { intros p Hp. apply deleteIndexes_first_match in Hp.
        destruct Hp as [Hp [roomName [Hname [Hat _]]]].
        destruct (Z.le_gt_cases p (materialRow ss)) as [Hlow|Hlow].
        - exfalso. apply (Hinside roomName p Hname Hp); [now left|exact Hat].
        - destruct (Z.le_gt_cases (sumRow ss) p) as [Hhigh|Hhigh]; [|lia].
          exfalso. apply (Hinside roomName p Hname Hp); [now right|exact Hat]. }
      apply Hin in Hfirst, Hlast. unfold inBand. lia.
Qed.

(** On the example of the spec, Bath and Hall resolve to rows 7 and 8,
    one group inside the band from row 5 to row 9. *)
Lemma dashboard_edits_and_the_band_witness :
  strictlyAscending (deleteIndexes exampleColumn ["Bath"; "Hall"]%string)
  /\ getValues
       (dashboardColumn
          (deleteInDashboard (exampleSpreadsheet [] []) ["Bath"; "Hall"]%string))
     = [Some "Dashboard"; Some ""; Some "Rum"; Some "Material"; Some "Kitchen";
        Some "Den"; Some "Attic"; Some "Summa"]%string.
Proof.
  assert (Hasc : strictlyAscending
                   (deleteIndexes (dashboardColumn (exampleSpreadsheet [] []))
                      ["Bath"; "Hall"]%string))
    by (unfold strictlyAscending; repeat constructor).
  split; [exact Hasc|].
  rewrite (proj1 (proj2 (dashboard_edits_and_the_band (exampleSpreadsheet [] []))
                    ["Bath"; "Hall"]%string Hasc)).
  reflexivity.
Defined.

(* ------------------------------------------------------------------ *)
(** ** DashboardSync: the order of the selection *)
(* ------------------------------------------------------------------ *)


(** C2 on a selection that is not in dashboard order.  With Kitchen,
    Den, Bath, Hall, Attic in rows 5 to 9: deleting Bath and Hall issues
    the one deletion of two rows from row 7; deleting Hall and Bath
    issues a deletion of row 7 and then one of row 8, which by then
    holds Attic, so Hall stays and Attic is lost, where sorted positions
    give the one group from row 7; deleting Attic and Kitchen deletes
    Kitchen and then the sum row; and a name selected twice has its row
    deleted twice. *)
Theorem deleteInDashboard_does_not_sort :
  deleteGroups exampleColumn ["Bath"; "Hall"]%string = [(7, 2)]
  /\ deleteIndexes exampleColumn ["Hall"; "Bath"]%string = [8; 7]
  /\ deleteGroups exampleColumn ["Hall"; "Bath"]%string = [(7, 1); (8, 1)]
  /\ removeRoomsGroups exampleColumn ["Hall"; "Bath"]%string = [(7, 2)]
  /\ calls (deleteInDashboard (exampleSpreadsheet [] []) ["Hall"; "Bath"]%string)
     = [DeleteRows 7 1; DeleteRows 8 1]
  /\ getValues
       (dashboardColumn
          (deleteInDashboard (exampleSpreadsheet [] []) ["Hall"; "Bath"]%string))
     = [Some "Dashboard"; Some ""; Some "Rum"; Some "Material"; Some "Kitchen";
        Some "Den"; Some "Hall"; Some "Summa"]%string
  /\ deleteGroups exampleColumn ["Attic"; "Kitchen"]%string = [(5, 1); (9, 1)]
  /\ getValues
       (dashboardColumn
          (deleteInDashboard (exampleSpreadsheet [] []) ["Attic"; "Kitchen"]%string))
     = [Some "Dashboard"; Some ""; Some "Rum"; Some "Material"; Some "Den";
        Some "Bath"; Some "Hall"; Some "Attic"]%string
  /\ deleteGroups exampleColumn ["Bath"; "Bath"]%string = [(7, 1); (7, 1)]
  /\ removeRoomsGroups exampleColumn ["Bath"; "Bath"]%string = [(7, 1)]
  /\ getValues
       (dashboardColumn
          (deleteInDashboard (exampleSpreadsheet [] []) ["Bath"; "Bath"]%string))
     = [Some "Dashboard"; Some ""; Some "Rum"; Some "Material"; Some "Kitchen";
        Some "Den"; Some "Attic"; Some "Summa"]%string.
Proof. repeat split; vm_compute; reflexivity. Qed.

(* ================================================================== *)
(** * Further properties of the scripts *)
(* ================================================================== *)

(* ------------------------------------------------------------------ *)
(** ** RangeGrouper on any list *)
(* ------------------------------------------------------------------ *)

Lemma scan_any (rest : list Z) :
  forall (prev : Z) (gs : list Group) (s c : Z) (consumed : list Z),
    0 < c -> s + c = prev + 1 ->
    flat_map expandGroup (gs ++ [(s, c)]) = consumed ->
    runsMaximal (rev (gs ++ [(s, c)])) ->
    flat_map expandGroup (scan prev rest (gs ++ [(s, c)])) = consumed ++ rest
    /\ runsMaximal (rev (scan prev rest (gs ++ [(s, c)])))
    /\ (length (scan prev rest (gs ++ [(s, c)]))
        <= length (gs ++ [(s, c)]) + length rest)%nat.
Proof.
  induction rest as [|x rest IH]; intros prev gs s c consumed Hc Hend Hexp Hmax.
  - cbn [scan]. rewrite app_nil_r. repeat split; try assumption. lia.
  - cbn [scan].
    replace (consumed ++ x :: rest) with ((consumed ++ [x]) ++ rest)
      by now rewrite <- app_assoc.
    destruct (x =? prev + 1) eqn:E; cbn [negb].
    + apply Z.eqb_eq in E. rewrite bumpLast_last.
      destruct (IH x gs s (c + 1) (consumed ++ [x])) as [H1 [H2 H3]]; try lia.
      * rewrite flat_map_snoc, expandGroup_bump by lia.
        rewrite flat_map_snoc in Hexp. rewrite <- Hexp, <- app_assoc.
        do 3 f_equal. lia.
      * rewrite rev_app_distr in *. cbn [rev app] in *.
        destruct (rev gs) as [|earlier others]; [exact I|exact Hmax].
      * repeat split; try assumption.
        rewrite !length_app in *. cbn [length] in *. lia.
    + apply Z.eqb_neq in E.
      destruct (IH x (gs ++ [(s, c)]) x 1 (consumed ++ [x])) as [H1 [H2 H3]];
        try lia.
      * now rewrite flat_map_snoc, expandGroup_single, Hexp.
      * rewrite rev_app_distr. cbn [rev app].
        rewrite rev_app_distr in *. cbn [rev app] in *.
        split; [cbn [fst snd]; lia|exact Hmax].
      * repeat split; try assumption.
        rewrite !length_app in *. cbn [length] in *. lia.
Qed.

(** Whatever the order of the numbers, sorted or not: the runs of the
    returned groups, read from the last group back, are the input list
    itself; every group counts at least one number; no two neighbouring
    groups could be merged into one run; and there are no more groups
    than numbers. *)
Theorem groupAdjacentNumbers_any_list (numbers : list Z) :
  flat_map expandGroup (rev (groupAdjacentNumbers numbers)) = numbers
  /\ Forall (fun g => 0 < snd g) (groupAdjacentNumbers numbers)
  /\ runsMaximal (groupAdjacentNumbers numbers)
  /\ (length (groupAdjacentNumbers numbers) <= length numbers)%nat.
Proof.
  unfold groupAdjacentNumbers. rewrite rev_involutive, length_rev.
  split; [|split].
  - destruct numbers as [|x rest]; [reflexivity|].
    rewrite groupLoop_cons.
    apply (scan_any rest x [] x 1 [x]); try lia.
    + cbn [app flat_map]. now rewrite expandGroup_single.
    + exact I.
  - apply Forall_rev, groupLoop_counts.
  - destruct numbers as [|x rest]; [split; [exact I|cbn; lia]|].
    rewrite groupLoop_cons.
    destruct (scan_any rest x [] x 1 [x]) as [_ [H2 H3]]; try lia.
    + cbn [app flat_map]. now rewrite expandGroup_single.
    + exact I.
    + split; [exact H2|]. cbn [app length] in *. lia.
Qed.

Lemma combine_seq_nth (numbers : list Z) :
  forall start : nat,
    combine (seq start (length numbers)) numbers
    = map (fun i => (i, nth (i - start) numbers 0)) (seq start (length numbers)).
Proof.
  induction numbers as [|x rest IH]; intros start; [reflexivity|].
  cbn [length seq combine map]. rewrite Nat.sub_diag. cbn [nth].
  f_equal. rewrite IH. apply map_ext_in. intros i Hi. apply in_seq in Hi.
  replace (i - start)%nat with (S (i - S start)) by lia. reflexivity.
Qed.

(** The [reduce] of src/unnamed/part_001 and the [for] loop of
    src/scripts.ts group every list alike. *)
Theorem groupAdjacentNumbers_reduce_is_loop (numbers : list Z) :
  Part001Grouper.groupAdjacentNumbers numbers = groupAdjacentNumbers numbers.
Proof.
  unfold Part001Grouper.groupAdjacentNumbers, groupAdjacentNumbers, groupLoop.
  f_equal. rewrite (combine_seq_nth numbers 0).
  generalize (@nil Group) as groups.
  induction (seq 0 (length numbers)) as [|i indexes IH]; intros groups;
    [reflexivity|].
  cbn [map fold_left]. rewrite <- IH. f_equal.
  unfold Part001Grouper.reduceStep, groupStep, numAt.
  now rewrite Nat.sub_0_r.
Qed.

(* ------------------------------------------------------------------ *)
(** ** Validator: what a batch that passes holds *)
(* ------------------------------------------------------------------ *)

Local Open Scope string_scope.
Local Open Scope list_scope.

Lemma trimStart_clean (s : string) :
  match trimStart s with
  | EmptyString => True
  | String c _ => isWhiteSpace c = false
  end.
Proof.
  induction s as [|c s IH]; cbn [trimStart]; [exact I|].
  destruct (isWhiteSpace c) eqn:E; [exact IH|exact E].
Qed.

Lemma trimStart_fixed (s : string) :
  match s with
  | EmptyString => True
  | String c _ => isWhiteSpace c = false
  end ->
  trimStart s = s.
Proof. destruct s as [|c s]; [reflexivity|]. cbn. now intros ->. Qed.

Lemma trimEnd_clean (s : string) :
  match s with
  | EmptyString => True
  | String c _ => isWhiteSpace c = false
  end ->
  match trimEnd s with
  | EmptyString => True
  | String c _ => isWhiteSpace c = false
  end.
Proof.
  destruct s as [|c s]; [trivial|]. cbn [trimEnd]. intros H.
  destruct (trimEnd s); [now rewrite H|exact H].
Qed.

Lemma trimEnd_idempotent (s : string) : trimEnd (trimEnd s) = trimEnd s.
Proof.
  induction s as [|c s IH]; [reflexivity|]. cbn [trimEnd].
  destruct (trimEnd s) as [|d t] eqn:E.
  - destruct (isWhiteSpace c) eqn:W; [reflexivity|]. cbn. now rewrite W.
  - change (trimEnd (String c (String d t)))
      with (match trimEnd (String d t) with
            | EmptyString =>
                if isWhiteSpace c then EmptyString else String c EmptyString
            | u => String c u
            end).
    now rewrite IH.
Qed.

Lemma trim_idempotent (s : string) : trim (trim s) = trim s.
Proof.
  unfold trim.
  rewrite (trimStart_fixed (trimEnd (trimStart s))).
  - apply trimEnd_idempotent.
  - apply trimEnd_clean, trimStart_clean.
Qed.

Lemma indexOf_first (pre : list string) (x : string) (post : list string) :
  ~ In x pre -> indexOf (pre ++ x :: post) x = Z.of_nat (length pre).
Proof.
  induction pre as [|y pre IH]; intros Hnot; cbn [app indexOf].
  - now rewrite String.eqb_refl.
  - assert (Hyx : (y =? x) = false)
      by (apply String.eqb_neq; intros ->; apply Hnot; now left).
    rewrite Hyx, IH by (intros H; apply Hnot; now right).
    destruct (Z.of_nat (length pre) <? 0)%Z eqn:L; [lia|].
    cbn [length]. lia.
Qed.

Lemma indexOf_earlier (pre : list string) (x : string) (rest : list string) :
  In x pre -> (0 <= indexOf (pre ++ rest) x < Z.of_nat (length pre))%Z.
Proof.
  induction pre as [|y pre IH]; intros Hin; [contradiction|].
  cbn [app indexOf length].
  destruct (y =? x) eqn:E; [lia|].
  apply String.eqb_neq in E.
  destruct Hin as [->|Hin]; [contradiction|].
  specialize (IH Hin).
  destruct (indexOf (pre ++ rest) x <? 0)%Z eqn:L; lia.
Qed.

Lemma laterOccurrences_In (rest : list string) :
  forall (pre : list string) (x : string),
    In x (laterOccurrences (pre ++ rest) (Z.of_nat (length pre)) rest)
    <-> (In x pre /\ In x rest) \/ (2 <= count_occ string_dec rest x)%nat.
Proof.
  induction rest as [|y rest IH]; intros pre x.
  - cbn. split; [contradiction|]. intros [[_ []]|H]; lia.
  - cbn [laterOccurrences].
    replace (Z.of_nat (length pre) + 1)%Z with (Z.of_nat (length (pre ++ [y])))
      by (rewrite length_app; cbn [length]; lia).
    assert (Harr : pre ++ y :: rest = (pre ++ [y]) ++ rest)
      by now rewrite <- app_assoc.
    pose proof (count_occ_In string_dec rest x) as Hcount.
    destruct (in_dec string_dec y pre) as [Hy|Hy].
    + pose proof (indexOf_earlier pre y (y :: rest) Hy) as Hidx.
      replace (indexOf (pre ++ y :: rest) y =? Z.of_nat (length pre))%Z with false
        by (symmetry; apply Z.eqb_neq; lia).
      cbn [negb In]. rewrite Harr, IH, in_app_iff. cbn [In].
      destruct (string_dec y x) as [->|Hne].
      * rewrite count_occ_cons_eq by reflexivity. split; [|now left].
        intros _. left. split; [exact Hy|now left].
      * rewrite count_occ_cons_neq by exact Hne. tauto.
    + rewrite (indexOf_first pre y rest Hy), Z.eqb_refl. cbn [negb].
      rewrite Harr, IH, in_app_iff. cbn [In].
      destruct (string_dec y x) as [->|Hne].
      * rewrite count_occ_cons_eq by reflexivity. split.
        -- intros [[_ H]|H]; right; [apply Hcount in H|]; lia.
        -- intros [[H _]|H]; [contradiction|].
           left. split; [now right; left|]. apply Hcount. lia.
      * rewrite count_occ_cons_neq by exact Hne. tauto.
Qed.

Lemma laterOccurrences_length (rest : list string) :
  forall (arr : list string) (index : Z),
    (length (laterOccurrences arr index rest) <= length rest)%nat.
Proof.
  induction rest as [|y rest IH]; intros arr index; [cbn; lia|].
  cbn [laterOccurrences].
  destruct (negb (indexOf arr y =? index)%Z); cbn [length];
    specialize (IH arr (index + 1)%Z); lia.
Qed.

Lemma duplicateNames_In (roomNames : list string) (x : string) :
  In x (duplicateNames roomNames)
  <-> (2 <= count_occ string_dec roomNames x)%nat.
Proof.
  unfold duplicateNames.
  rewrite (laterOccurrences_In roomNames [] x). cbn [In]. tauto.
Qed.

Lemma duplicateNames_nil (roomNames : list string) :
  duplicateNames roomNames = [] <-> NoDup roomNames.
Proof.
  rewrite (NoDup_count_occ string_dec). split.
  - intros Hnil x.
    destruct (le_lt_dec (count_occ string_dec roomNames x) 1) as [H|H];
      [exact H|].
    apply duplicateNames_In in H. rewrite Hnil in H. contradiction.
  - intros Hle. destruct (duplicateNames roomNames) as [|d ds] eqn:E;
      [reflexivity|].
    assert (H : In d (duplicateNames roomNames)) by (rewrite E; now left).
    apply duplicateNames_In in H. specialize (Hle d). lia.
Qed.

(** The names [createRoomPairs] reports as repeated are the names that
    occur at least twice (each listed once per occurrence after its
    first), so there is none exactly when the names are pairwise
    different. *)
Theorem duplicateNames_are_repeats (roomNames : list string) :
  (forall x, In x (duplicateNames roomNames)
             <-> (2 <= count_occ string_dec roomNames x)%nat)
  /\ (duplicateNames roomNames = [] <-> NoDup roomNames)
  /\ (length (duplicateNames roomNames) <= length roomNames)%nat.
Proof.
  split; [apply duplicateNames_In|].
  split; [apply duplicateNames_nil|apply laterOccurrences_length].
Qed.

Lemma entriesMessages_nil (sheetNames : list string) (newRooms : list NewRoomRow) :
  forall start : nat,
    entriesMessages sheetNames start newRooms = [] ->
    forall (index : nat) (row : NewRoomRow),
      nth_error newRooms index = Some row ->
      entryMessages sheetNames (start + index) row = [].
Proof.
  induction newRooms as [|r rest IH]; intros start Hnil index row Hnth.
  - now destruct index.
  - cbn [entriesMessages] in Hnil. apply app_eq_nil in Hnil.
    destruct Hnil as [Hhead Hrest].
    destruct index as [|index]; cbn in Hnth.
    + injection Hnth as <-. now rewrite Nat.add_0_r.
    + replace (start + S index)%nat with (S start + index)%nat by lia.
      now apply IH.
Qed.

Lemma entryMessages_nil (sheetNames : list string) (index : nat)
    (inputRoomName template : string) (type : BudgetingType) :
  entryMessages sheetNames index (inputRoomName, template, type) = [] ->
  trim inputRoomName <> "" /\ template <> "" /\ type <> NoType
  /\ ~ In (trim inputRoomName) sheetNames.
Proof.
  unfold entryMessages. intros H.
  apply app_eq_nil in H. destruct H as [H1 H].
  apply app_eq_nil in H. destruct H as [H2 H].
  apply app_eq_nil in H. destruct H as [H3 H4].
  repeat split.
  - intros E. rewrite E in H1. discriminate H1.
  - intros E. rewrite E in H2. discriminate H2.
  - intros E. rewrite E in H3. discriminate H3.
  - intros E. apply includes_In in E. rewrite E in H4. discriminate H4.
Qed.

(** What a batch that passes validation holds.  When [createRoomPairs]
    returns, the returned names are pairwise different, and the entry at
    every position has a name that is not blank after trimming and is
    no existing sheet name, a template that is not blank and a kind
    cell that is not blank; the pair at that position is the trimmed
    name and the template followed by a space and what the table
    [BUDGETING_TYPES] holds for the kind, printed as the template
    literal prints it; and every returned name is its own trimmed
    form. *)
Theorem createRoomPairs_success
    (newRooms : list NewRoomRow) (sheetNames : list string)
    (nameTemplatePairs : list (string * string)) :
  createRoomPairs newRooms sheetNames = inr nameTemplatePairs ->
  NoDup (map fst nameTemplatePairs)
  /\ (forall (index : nat) (inputRoomName template : string) (type : BudgetingType),
        nth_error newRooms index = Some (inputRoomName, template, type) ->
        trim inputRoomName <> "" /\ template <> ""
        /\ ~ In (trim inputRoomName) sheetNames
        /\ type <> NoType
        /\ nth_error nameTemplatePairs index
           = Some (trim inputRoomName,
                   (template ++ " " ++ showOptional (BUDGETING_TYPES type))%string))
  /\ (forall name,
        In name (map fst nameTemplatePairs) ->
        trim name = name /\ name <> "" /\ ~ In name sheetNames).
Proof.
  intros Hok. rewrite createRoomPairs_refines in Hok.
  destruct (validationMessages newRooms sheetNames) as [|m ms] eqn:Hmsgs;
    [|discriminate].
  injection Hok as <-.
  unfold validationMessages in Hmsgs. apply app_eq_nil in Hmsgs.
  destruct Hmsgs as [Hentries Hdup].
  assert (Hrow : forall index inputRoomName template type,
    nth_error newRooms index = Some (inputRoomName, template, type) ->
    trim inputRoomName <> "" /\ template <> "" /\ type <> NoType
    /\ ~ In (trim inputRoomName) sheetNames).
  { intros index inputRoomName template type Hnth.
    apply (entryMessages_nil sheetNames (0 + index)).
    now apply (entriesMessages_nil sheetNames newRooms 0 Hentries index). }
  split; [|split].
  - rewrite resolvedPairs_names.
    apply duplicateNames_nil.
    unfold duplicatesMessages in Hdup.
    now destruct (duplicateNames (trimmedNames newRooms)).
  - intros index inputRoomName template type Hnth.
    destruct (Hrow index inputRoomName template type Hnth) as [Hn [Ht [Hk Hs]]].
    repeat split; try assumption.
    unfold resolvedPairs.
    now rewrite (map_nth_error _ index newRooms Hnth).
  - intros name Hin. rewrite resolvedPairs_names in Hin.
    unfold trimmedNames in Hin. apply in_map_iff in Hin.
    destruct Hin as [[[inputRoomName template] type] [<- Hin]].
    apply In_nth_error in Hin. destruct Hin as [index Hnth].
    destruct (Hrow index inputRoomName template type Hnth) as [Hn [_ [_ Hs]]].
    cbn [fst]. split; [apply trim_idempotent|]. now split.
Qed.

Lemma createRoomPairs_success_witness :
  createRoomPairs [(" Loft ", "Mall", Enkel); ("Spa", "Mall", Avancerad)]
    ["Dashboard"; "Kitchen"]
  = inr [("Loft", "Mall (enkel)"); ("Spa", "Mall (avancerad)")]
  /\ NoDup ["Loft"; "Spa"]%string.
Proof.
  split; [reflexivity|].
  exact (proj1
    (createRoomPairs_success
       [(" Loft ", "Mall", Enkel); ("Spa", "Mall", Avancerad)]
       ["Dashboard"; "Kitchen"]
       [("Loft", "Mall (enkel)"); ("Spa", "Mall (avancerad)")] eq_refl)).
Defined.

(** The validator of src/unnamed/part_000 returns a pair exactly when
    the trimmed name is not blank, the template is not blank and the
    trimmed name is no sheet name; the pair then holds the trimmed name
    and the template followed by " (mall)".  Otherwise it throws; a
    pair with a blank name and a blank template is told both, the
    messages joined by a line break. *)
Theorem part000_createRoomNameAndTemplatePair_checks
    (inputRoomName template : string) (sheetNames : list string) :
  (trim inputRoomName <> "" /\ template <> ""
   /\ ~ In (trim inputRoomName) sheetNames ->
   Part000.createRoomNameAndTemplatePair (inputRoomName, template) sheetNames
   = inr (trim inputRoomName, (template ++ " (mall)")%string))
  /\ (forall namePair,
        Part000.createRoomNameAndTemplatePair (inputRoomName, template) sheetNames
        = inr namePair ->
        namePair = (trim inputRoomName, (template ++ " (mall)")%string)
        /\ trim inputRoomName <> "" /\ template <> ""
        /\ ~ In (trim inputRoomName) sheetNames)
  /\ (trim inputRoomName = "" -> template = "" -> ~ In ""%string sheetNames ->
      Part000.createRoomNameAndTemplatePair (inputRoomName, template) sheetNames
      = inl ("Namn saknas" ++ nl ++ "Mall saknas")%string).
Proof.
  unfold Part000.createRoomNameAndTemplatePair.
  split; [|split].
  - intros [Hn [Ht Hs]].
    apply String.eqb_neq in Hn, Ht. rewrite Hn, Ht.
    destruct (includes sheetNames (trim inputRoomName)) eqn:E; [|reflexivity].
    apply includes_In in E. contradiction.
  - intros namePair.
    destruct (trim inputRoomName =? "")%string eqn:En;
      destruct (template =? "")%string eqn:Et;
      destruct (includes sheetNames (trim inputRoomName)) eqn:Es;
      cbn [app length Nat.ltb Nat.leb]; try discriminate.
    intros H. injection H as <-.
    apply String.eqb_neq in En, Et.
    repeat split; try assumption.
    intros Hin. apply includes_In in Hin. congruence.
  - intros Hn Ht Hs. rewrite Hn, Ht. cbn [String.eqb].
    destruct (includes sheetNames "") eqn:E; [|reflexivity].
    apply includes_In in E. contradiction.
Qed.

(* ------------------------------------------------------------------ *)
(** ** AddRooms: a batch that passes *)
(* ------------------------------------------------------------------ *)

Local Open Scope Z_scope.

Lemma createNewRoomSheets_frame (nameTemplatePairs : list (string * string)) :
  forall ss : Spreadsheet,
    dashboardColumn (createNewRoomSheets ss nameTemplatePairs) = dashboardColumn ss
    /\ materialRow (createNewRoomSheets ss nameTemplatePairs) = materialRow ss
    /\ sumRow (createNewRoomSheets ss nameTemplatePairs) = sumRow ss
    /\ addRoomsValues (createNewRoomSheets ss nameTemplatePairs) = addRoomsValues ss
    /\ configExistingRooms (createNewRoomSheets ss nameTemplatePairs)
       = configExistingRooms ss.
Proof.
  unfold createNewRoomSheets.
  induction nameTemplatePairs as [|[roomName template] rest IH]; intros ss;
    [now repeat split|].
  cbn [fold_left]. unfold createNewRoomSheet at 2 4 6 8 10.
  destruct (getSheetByName ss template); [|apply IH].
  destruct (IH (logCall
                  (withSheets ss
                     (sheets ss
                      ++ [{| sheetName := roomName;
                             sheetId := freshSheetId (sheets ss);
                             sheetTabColor := Some RENOMATE_YELLOW;
                             sheetHidden := false |}]))
                  (CopySheet template roomName)))
    as [H1 [H2 [H3 [H4 H5]]]].
  now repeat split.
Qed.

(** Creating the tabs of validated pairs only adds tabs, named after
    rooms of the batch, and keeps the names of the tabs different. *)
Lemma createNewRoomSheets_tabs (nameTemplatePairs : list (string * string)) :
  forall ss : Spreadsheet,
    NoDup (getSheetNames ss) ->
    NoDup (map fst nameTemplatePairs) ->
    (forall name, In name (map fst nameTemplatePairs) -> ~ In name (getSheetNames ss)) ->
    exists newTabs,
      sheets (createNewRoomSheets ss nameTemplatePairs) = sheets ss ++ newTabs
      /\ incl (map sheetName newTabs) (map fst nameTemplatePairs)
      /\ NoDup (getSheetNames (createNewRoomSheets ss nameTemplatePairs))
      /\ Forall
           (fun tab =>
              sheetTabColor tab = Some RENOMATE_YELLOW /\ sheetHidden tab = false)
           newTabs.
Proof.
  unfold createNewRoomSheets.
  induction nameTemplatePairs as [|[roomName template] rest IH];
    intros ss Htabs Hpairs Hfresh.
  - exists []. rewrite app_nil_r.
    split; [reflexivity|]. split; [apply incl_refl|]. split; [exact Htabs|constructor].
  - cbn [fold_left map fst] in *.
    apply NoDup_cons_iff in Hpairs. destruct Hpairs as [Hhead Hrest].
    unfold createNewRoomSheet at 2 4.
    destruct (getSheetByName ss template).
    + set (tab := {| sheetName := roomName; sheetId := freshSheetId (sheets ss);
                     sheetTabColor := Some RENOMATE_YELLOW; sheetHidden := false |}).
      destruct (IH (logCall (withSheets ss (sheets ss ++ [tab]))
                      (CopySheet template roomName))) as [newTabs [Hs [Hi [Hn Hc]]]].
      * unfold getSheetNames. cbn [logCall logCalls withSheets sheets].
        rewrite map_app. apply NoDup_app; [exact Htabs|repeat constructor; easy|].
        intros a Ha [<-|[]]. apply (Hfresh roomName); [now left|exact Ha].
      * exact Hrest.
      * intros name Hname. unfold getSheetNames.
        cbn [logCall logCalls withSheets sheets]. rewrite map_app, in_app_iff.
        intros [Hold|[<-|[]]].
        -- apply (Hfresh name); [now right|exact Hold].
        -- contradiction.
      * exists (tab :: newTabs). split; [|split; [|split]].
        -- rewrite Hs. cbn [logCall logCalls withSheets sheets].
           now rewrite <- app_assoc.
        -- intros a [<-|Ha]; [now left|right; now apply Hi].
        -- exact Hn.
        -- constructor; [now split|exact Hc].
    + destruct (IH ss Htabs Hrest) as [newTabs [Hs [Hi [Hn Hc]]]].
      * intros name Hname. apply Hfresh. now right.
      * exists newTabs. split; [exact Hs|]. split; [|split; [exact Hn|exact Hc]].
        intros a Ha. right. now apply Hi.
Qed.

(** [addNewRooms] keeps every tab and keeps the names of the tabs
    pairwise different: the tabs after it are the tabs before it
    followed by new ones, each named after the trimmed name of an entry
    of the batch, coloured yellow and shown. *)
Theorem addNewRooms_keeps_names_unique (ss : Spreadsheet) :
  NoDup (getSheetNames ss) ->
  NoDup (getSheetNames (addNewRooms ss))
  /\ exists newTabs,
       sheets (addNewRooms ss) = sheets ss ++ newTabs
       /\ incl (map sheetName newTabs) (trimmedNames (newRoomRows ss))
       /\ Forall
            (fun tab =>
               sheetTabColor tab = Some RENOMATE_YELLOW /\ sheetHidden tab = false)
            newTabs.
Proof.
  intros Htabs. rewrite addNewRooms_cases.
  destruct (validationMessages (newRoomRows ss) (getSheetNames ss)) as [|m ms] eqn:Hmsgs.
  - destruct (resolvedPairs (newRoomRows ss)) as [|p ps] eqn:Hpairs.
    + split; [exact Htabs|]. exists []. cbn. rewrite app_nil_r.
      split; [reflexivity|]. split; [easy|constructor].
    + rewrite <- Hpairs.
      assert (Hok : createRoomPairs (newRoomRows ss) (getSheetNames ss)
                    = inr (resolvedPairs (newRoomRows ss)))
        by now rewrite createRoomPairs_refines, Hmsgs.
      unfold validationMessages in Hmsgs. apply app_eq_nil in Hmsgs.
      destruct Hmsgs as [Hentries Hdup].
      assert (Hnodup : NoDup (map fst (resolvedPairs (newRoomRows ss)))).
      { rewrite resolvedPairs_names. apply duplicateNames_nil.
        unfold duplicatesMessages in Hdup.
        now destruct (duplicateNames (trimmedNames (newRoomRows ss))). }
      assert (Hfresh : forall name,
        In name (map fst (resolvedPairs (newRoomRows ss))) ->
        ~ In name (getSheetNames ss)).
      { intros name Hin. rewrite resolvedPairs_names in Hin.
        unfold trimmedNames in Hin. apply in_map_iff in Hin.
        destruct Hin as [[[inputRoomName template] type] [<- Hin]].
        apply In_nth_error in Hin. destruct Hin as [index Hnth].
        apply (entriesMessages_nil _ _ 0 Hentries) in Hnth.
        now apply entryMessages_nil in Hnth. }
      destruct (createNewRoomSheets_tabs _ ss Htabs Hnodup Hfresh)
        as [newTabs [Hs [Hi [Hn Hc]]]].
      split; [exact Hn|].
      exists newTabs. split; [exact Hs|]. split; [|exact Hc].
      now rewrite resolvedPairs_names in Hi.
  - split; [exact Htabs|]. exists []. cbn. rewrite app_nil_r.
    split; [reflexivity|]. split; [easy|constructor].
Qed.

Lemma addNewRooms_keeps_names_unique_witness :
  NoDup (getSheetNames (exampleSpreadsheet [(" Loft ", "Mall", Enkel)] []))
  /\ getSheetNames (addNewRooms (exampleSpreadsheet [(" Loft ", "Mall", Enkel)] []))
     = ["Dashboard"; "Mall (enkel)"; "Kitchen"; "Den"; "Bath"; "Hall"; "Attic";
        "Loft"]%string
  /\ NoDup (getSheetNames
              (addNewRooms (exampleSpreadsheet [(" Loft ", "Mall", Enkel)] []))).
Proof.
  assert (H : NoDup (getSheetNames
                       (exampleSpreadsheet [(" Loft ", "Mall", Enkel)] []))).
  { vm_compute. repeat (constructor; [cbn; intuition discriminate|]).
    constructor. }
  split; [exact H|]. split; [reflexivity|].
  exact (proj1 (addNewRooms_keeps_names_unique
                  (exampleSpreadsheet [(" Loft ", "Mall", Enkel)] []) H)).
Defined.

Lemma setRows_over_inserted {A : Type} (pre blanks post values : list A) (row : Z) :
  length pre = Z.to_nat (row - 1) ->
  length blanks = length values ->
  setRows (pre ++ blanks ++ post) row values = pre ++ values ++ post.
Proof.
  intros Hpre Hblanks. unfold setRows. rewrite <- Hpre.
  rewrite firstn_app, firstn_all, Nat.sub_diag, firstn_O, app_nil_r.
  rewrite skipn_app, (skipn_all2 pre) by lia.
  replace (length pre + length values - length pre)%nat with (length blanks) by lia.
  rewrite skipn_app, skipn_all, Nat.sub_diag, skipn_O.
  reflexivity.
Qed.

Lemma newRoomRows_cleared (ss : Spreadsheet) : newRoomRows (clearContent ss) = [].
Proof.
  unfold newRoomRows, clearContent. cbn [logCall logCalls addRoomsValues].
  induction (addRoomsValues ss) as [|row rest IH]; [reflexivity|exact IH].
Qed.

(** A batch that passes and holds an entry, the sum row lying in the
    dashboard: [addNewRooms] puts one row per entry right above the sum
    row, in input order, every other row keeping its content and its
    order; the new rows show the trimmed names, not bold, each linked to
    "#gid=" followed by the id of the tab of that name (by "undefined"
    when no such tab exists, its template missing); the sum row moves
    down by the number of entries; the AddRooms range is left blank, so
    that running [addNewRooms] again only says there is nothing to add. *)
Theorem addNewRooms_inserts_rows (ss : Spreadsheet) :
  validationMessages (newRoomRows ss) (getSheetNames ss) = [] ->
  newRoomRows ss <> [] ->
  1 <= sumRow ss <= Z.of_nat (length (dashboardColumn ss)) ->
  (exists values,
      dashboardColumn (addNewRooms ss)
      = firstn (Z.to_nat (sumRow ss - 1)) (dashboardColumn ss)
        ++ map Some values
        ++ skipn (Z.to_nat (sumRow ss - 1)) (dashboardColumn ss)
      /\ map rtText values = trimmedNames (newRoomRows ss)
      /\ Forall
           (fun v =>
              rtBold v = Some false
              /\ rtLinkUrl v
                 = Some ("#gid="
                         ++ showOptional
                              (option_map (fun sh => showNat (sheetId sh))
                                 (getSheetByName (addNewRooms ss) (rtText v))))%string)
           values)
  /\ sumRow (addNewRooms ss)
     = sumRow ss + Z.of_nat (length (newRoomRows ss))
  /\ (materialRow ss < sumRow ss -> materialRow (addNewRooms ss) = materialRow ss)
  /\ newRoomRows (addNewRooms ss) = []
  /\ addNewRooms (addNewRooms ss) = logCall (addNewRooms ss) (Toast nothingToAdd).
Proof.
  intros Hmsgs Hrows Hsum.
  assert (Hagain : forall ss', newRoomRows ss' = [] ->
                               addNewRooms ss' = logCall ss' (Toast nothingToAdd)).
  { intros ss' Hnone. rewrite addNewRooms_cases, Hnone. reflexivity. }
  rewrite addNewRooms_cases, Hmsgs.
  destruct (resolvedPairs (newRoomRows ss)) as [|p ps] eqn:Hpairs.
  { unfold resolvedPairs in Hpairs. apply map_eq_nil in Hpairs. contradiction. }
  rewrite <- Hpairs. clear p ps Hpairs.
  set (pairs := resolvedPairs (newRoomRows ss)).
  destruct (createNewRoomSheets_frame pairs ss) as [Hcol [Hmat [Hsumrow _]]].
  assert (Hnames : map fst pairs = trimmedNames (newRoomRows ss))
    by apply resolvedPairs_names.
  assert (Hlen : length (map fst pairs) = length (newRoomRows ss))
    by (rewrite Hnames; unfold trimmedNames; apply length_map).
  split; [|split; [|split; [|split]]].
  - eexists. split; [|split].
    + unfold clearContent, addNewRoomsToDashboard, setRichTextValues, insertRows.
      cbn [logCall logCalls withDashboard dashboardColumn sumRow].
      rewrite Hcol, Hsumrow.
      apply setRows_over_inserted.
      * rewrite length_firstn. lia.
      * rewrite repeat_length, !length_map. lia.
    + rewrite map_map. cbn [rtText]. now rewrite map_id.
    + apply Forall_forall. intros v Hv. apply in_map_iff in Hv.
      destruct Hv as [roomName [<- _]]. cbn [rtBold rtLinkUrl rtText].
      split; reflexivity.
  - unfold clearContent, addNewRoomsToDashboard, setRichTextValues, insertRows.
    cbn [logCall logCalls withDashboard sumRow]. rewrite Hsumrow.
    unfold rowAfterInsert. rewrite Z.ltb_irrefl. now rewrite Hlen.
  - intros Hband.
    unfold clearContent, addNewRoomsToDashboard, setRichTextValues, insertRows.
    cbn [logCall logCalls withDashboard materialRow sumRow].
    rewrite Hsumrow, Hmat. unfold rowAfterInsert.
    replace (materialRow ss <? sumRow ss) with true; [reflexivity|].
    symmetry. now apply Z.ltb_lt.
  - apply newRoomRows_cleared.
  - apply Hagain, newRoomRows_cleared.
Qed.

Lemma addNewRooms_inserts_rows_witness :
  getValues
    (dashboardColumn
       (addNewRooms
          (exampleSpreadsheet [(" Loft ", "Mall", Enkel); ("Spa", "Saknas", Enkel)] [])))
  = [Some "Dashboard"; Some ""; Some "Rum"; Some "Material"; Some "Kitchen";
     Some "Den"; Some "Bath"; Some "Hall"; Some "Attic"; Some "Loft"; Some "Spa";
     Some "Summa"]%string
  /\ sumRow
       (addNewRooms
          (exampleSpreadsheet [(" Loft ", "Mall", Enkel); ("Spa", "Saknas", Enkel)] []))
     = 12.
Proof.
  split; [reflexivity|].
  exact (proj1 (proj2
    (addNewRooms_inserts_rows
       (exampleSpreadsheet [(" Loft ", "Mall", Enkel); ("Spa", "Saknas", Enkel)] [])
       eq_refl ltac:(discriminate) ltac:(vm_compute; split; discriminate)))).
Defined.

(* ------------------------------------------------------------------ *)
(** ** RenameRooms: the map collected *)
(* ------------------------------------------------------------------ *)

Lemma In_mapSet_keys (renameMap : RenameMap) (key value k : string) :
  In k (map fst (mapSet renameMap key value)) <-> k = key \/ In k (map fst renameMap).
Proof.
  induction renameMap as [|[k' v'] rest IH]; cbn [mapSet map fst In].
  - split; intros [H|[]]; left; now symmetry.
  - destruct (k' =? key)%string eqn:E; cbn [map fst In].
    + apply String.eqb_eq in E. subst.
      split.
      * intros [H|H]; [left; now symmetry|right; now right].
      * intros [H|[H|H]]; [left; now symmetry|now left|now right].
    + rewrite IH. split.
      * intros [H|[H|H]]; [right; now left|now left|right; now right].
      * intros [H|[H|H]]; [right; now left|now left|right; now right].
Qed.

Lemma NoDup_mapSet_keys (renameMap : RenameMap) (key value : string) :
  NoDup (map fst renameMap) -> NoDup (map fst (mapSet renameMap key value)).
Proof.
  induction renameMap as [|[k' v'] rest IH]; cbn [mapSet map fst]; intros H.
  - repeat constructor. easy.
  - apply NoDup_cons_iff in H. destruct H as [Hhead Hrest].
    destruct (k' =? key)%string eqn:E; cbn [map fst].
    + apply String.eqb_eq in E. subst. now constructor.
    + apply String.eqb_neq in E. constructor; [|now apply IH].
      rewrite In_mapSet_keys. intros [->|H]; congruence.
Qed.

Lemma In_mapSet_values (renameMap : RenameMap) (key value v : string) :
  In v (map snd (mapSet renameMap key value)) ->
  v = value \/ In v (map snd renameMap).
Proof.
  intros H. apply in_map_iff in H. destruct H as [[k' v'] [<- H]].
  apply In_mapSet in H. destruct H as [H|H].
  - injection H as _ ->. now left.
  - right. now apply (in_map snd) in H.
Qed.

Lemma NoDup_mapSet_values (renameMap : RenameMap) (key value : string) :
  NoDup (map snd renameMap) -> ~ In value (map snd renameMap) ->
  NoDup (map snd (mapSet renameMap key value)).
Proof.
  induction renameMap as [|[k' v'] rest IH]; cbn [mapSet map snd]; intros H Hnew.
  - repeat constructor. easy.
  - apply NoDup_cons_iff in H. destruct H as [Hhead Hrest].
    destruct (k' =? key)%string; cbn [map snd].
    + constructor; [|exact Hrest]. intros Hin. apply Hnew. now right.
    + constructor.
      * intros Hin. apply In_mapSet_values in Hin. destruct Hin as [->|Hin].
        -- apply Hnew. now left.
        -- contradiction.
      * apply IH; [exact Hrest|]. intros Hin. apply Hnew. now right.
Qed.

(** A map is well formed for the sheet names when its keys are
    different, its values are different, and every value is a trimmed,
    non-blank name that is no sheet name. *)
Lemma requestLoop_wellformed (sheetNames : list string) (operator : list PromptResponse) :
  forall (oldRoomNames : list string) (renameMap returned : RenameMap),
    snd (requestLoop sheetNames oldRoomNames renameMap operator) = Renamed returned ->
    NoDup (map fst renameMap) -> NoDup (map snd renameMap) ->
    (forall v, In v (map snd renameMap) ->
               v <> ""%string /\ trim v = v /\ ~ In v sheetNames) ->
    NoDup (map fst returned) /\ NoDup (map snd returned)
    /\ (forall v, In v (map snd returned) ->
                  v <> ""%string /\ trim v = v /\ ~ In v sheetNames)
    /\ (forall k, In k (map fst returned)
                  <-> In k (map fst renameMap) \/ In k oldRoomNames).
Proof.
  induction operator as [|response operator IH];
    intros oldRoomNames renameMap returned H Hkeys Hvalues Hvalid.
  - destruct oldRoomNames; [|discriminate H].
    injection H as <-. split; [exact Hkeys|]. split; [exact Hvalues|].
    split; [exact Hvalid|]. intros k. cbn [In]. tauto.
  - destruct oldRoomNames as [|oldName others].
    + injection H as <-. split; [exact Hkeys|]. split; [exact Hvalues|].
      split; [exact Hvalid|]. intros k. cbn [In]. tauto.
    + destruct response as [text|]; [|discriminate H].
      cbn [requestLoop] in H.
      destruct (rejection oldName (trim text) sheetNames renameMap) as [message|] eqn:R.
      * specialize (IH (oldName :: others) renameMap returned).
        destruct (requestLoop sheetNames (oldName :: others) renameMap operator).
        exact (IH H Hkeys Hvalues Hvalid).
      * apply rejection_accepts in R. destruct R as [Hne [Hsheet Hfresh]].
        specialize (IH others (mapSet renameMap oldName (trim text)) returned).
        destruct (requestLoop sheetNames others (mapSet renameMap oldName (trim text))
                    operator).
        destruct (IH H) as [H1 [H2 [H3 H4]]].
        -- now apply NoDup_mapSet_keys.
        -- now apply NoDup_mapSet_values.
        -- intros v Hv. apply In_mapSet_values in Hv. destruct Hv as [->|Hv].
           ++ split; [exact Hne|]. split; [apply trim_idempotent|exact Hsheet].
           ++ now apply Hvalid.
        -- split; [exact H1|]. split; [exact H2|]. split; [exact H3|].
           intros k. rewrite H4, In_mapSet_keys. cbn [In].
           split.
           ++ intros [[->|Hk]|Hk]; [right; now left|now left|right; now right].
           ++ intros [Hk|[<-|Hk]]; [left; now right|left; now left|now right].
Qed.

(** The map [requestNewRoomNames] returns: one entry per selected room
    and no other, the new names pairwise different, each of them
    trimmed, not blank and no sheet name. *)
Theorem requestNewRoomNames_returns_wellformed_map
    (oldRoomNames sheetNames : list string) (operator : list PromptResponse)
    (renameMap : RenameMap) :
  snd (requestNewRoomNames oldRoomNames sheetNames operator) = Renamed renameMap ->
  NoDup (map fst renameMap)
  /\ (forall k, In k (map fst renameMap) <-> In k oldRoomNames)
  /\ NoDup (mapValues renameMap)
  /\ (forall v, In v (mapValues renameMap) ->
                v <> ""%string /\ trim v = v /\ ~ In v sheetNames).
Proof.
  intros H.
  destruct (requestLoop_wellformed sheetNames operator oldRoomNames [] renameMap H
              (NoDup_nil _) (NoDup_nil _)
              (fun v (Hv : In v []) => match Hv with end))
    as [H1 [H2 [H3 H4]]].
  split; [exact H1|]. split; [|split; [exact H2|exact H3]].
  intros k. rewrite H4. cbn [map In]. tauto.
Qed.

Lemma requestNewRoomNames_returns_wellformed_map_witness :
  snd (requestNewRoomNames ["Kitchen"; "Bath"; "Kitchen"]
         ["Dashboard"; "Kitchen"; "Bath"]
         [ResponseOK ""; ResponseOK " Pantry "; ResponseOK "Pantry"; ResponseOK "Spa";
          ResponseOK "Galley"])
  = Renamed [("Kitchen", "Galley"); ("Bath", "Spa")]
  /\ NoDup (mapValues [("Kitchen", "Galley"); ("Bath", "Spa")]).
Proof.
  split; [reflexivity|].
  exact (proj1 (proj2 (proj2
    (requestNewRoomNames_returns_wellformed_map
       ["Kitchen"; "Bath"; "Kitchen"] ["Dashboard"; "Kitchen"; "Bath"]
       [ResponseOK ""; ResponseOK " Pantry "; ResponseOK "Pantry"; ResponseOK "Spa";
        ResponseOK "Galley"]
       [("Kitchen", "Galley"); ("Bath", "Spa")] eq_refl)))).
Defined.

(* ------------------------------------------------------------------ *)
(** ** RenameRooms: the tabs *)
(* ------------------------------------------------------------------ *)

Lemma renameName_absent (oldName newName : string) (names : list string) :
  ~ In oldName names -> map (renameName oldName newName) names = names.
Proof.
  induction names as [|n names IH]; intros Hnot; [reflexivity|].
  cbn [map]. rewrite IH by (intros H; apply Hnot; now right).
  unfold renameName.
  destruct (n =? oldName)%string eqn:E; [|reflexivity].
  apply String.eqb_eq in E. subst. exfalso. apply Hnot. now left.
Qed.

Lemma In_renameName (oldName newName y : string) (names : list string) :
  In y (map (renameName oldName newName) names) -> y = newName \/ In y names.
Proof.
  intros H. apply in_map_iff in H. destruct H as [n [<- Hn]].
  unfold renameName. destruct (n =? oldName)%string; [now left|now right].
Qed.

Lemma NoDup_renameName (oldName newName : string) (names : list string) :
  NoDup names -> ~ In newName names ->
  NoDup (map (renameName oldName newName) names).
Proof.
  induction names as [|n names IH]; intros Hnames Hnew; [constructor|].
  apply NoDup_cons_iff in Hnames. destruct Hnames as [Hhead Hrest].
  cbn [map]. constructor; [|apply IH; [exact Hrest|intros H; apply Hnew; now right]].
  unfold renameName at 1.
  destruct (n =? oldName)%string eqn:E.
  - apply String.eqb_eq in E. subst n.
    rewrite renameName_absent by exact Hhead.
    intros H. apply Hnew. now right.
  - intros H. apply In_renameName in H. destruct H as [->|H]; [|contradiction].
    apply Hnew. now left.
Qed.

Lemma setName_names (tabs : list Sheet) (oldName newName : string) :
  NoDup (map sheetName tabs) ->
  map sheetName (setName tabs oldName newName)
  = map (renameName oldName newName) (map sheetName tabs).
Proof.
  induction tabs as [|sh tabs IH]; intros H; [reflexivity|].
  cbn [map] in H. apply NoDup_cons_iff in H. destruct H as [Hhead Hrest].
  cbn [setName map]. unfold renameName at 1.
  destruct (sheetName sh =? oldName)%string eqn:E.
  - cbn [map sheetName]. f_equal.
    apply String.eqb_eq in E. subst oldName.
    now rewrite renameName_absent.
  - cbn [map]. f_equal. now apply IH.
Qed.

Lemma getSheetByName_none (ss : Spreadsheet) (name : string) :
  getSheetByName ss name = None <-> ~ In name (getSheetNames ss).
Proof.
  unfold getSheetByName, getSheetNames. split.
  - intros H Hin. apply in_map_iff in Hin. destruct Hin as [sh [<- Hsh]].
    apply (find_none _ _ H) in Hsh. cbn in Hsh.
    now rewrite String.eqb_refl in Hsh.
  - intros Hnot. destruct (find _ _) as [sh|] eqn:E; [|reflexivity].
    apply find_some in E. destruct E as [Hsh E]. apply String.eqb_eq in E.
    exfalso. apply Hnot. rewrite <- E. now apply in_map.
Qed.

Lemma renameSheet_names (ss : Spreadsheet) (oldName newName : string) :
  NoDup (getSheetNames ss) ->
  getSheetNames (renameSheet ss (oldName, newName))
  = map (renameName oldName newName) (getSheetNames ss).
Proof.
  intros H. unfold renameSheet.
  destruct (getSheetByName ss oldName) eqn:E.
  - unfold getSheetNames. cbn [logCall logCalls withSheets sheets].
    now apply setName_names.
  - apply getSheetByName_none in E. now rewrite renameName_absent.
Qed.

Lemma mapGet_absent (renameMap : RenameMap) (key : string) :
  ~ In key (map fst renameMap) -> mapGet renameMap key = None.
Proof.
  unfold mapGet. induction renameMap as [|[k v] rest IH]; intros H; [reflexivity|].
  cbn [find fst]. destruct (k =? key)%string eqn:E.
  - apply String.eqb_eq in E. subst. exfalso. apply H. now left.
  - apply IH. intros Hin. apply H. now right.
Qed.

Lemma renameSheets_frame (renameMap : RenameMap) :
  forall ss : Spreadsheet,
    dashboardColumn (renameSheets ss renameMap) = dashboardColumn ss
    /\ materialRow (renameSheets ss renameMap) = materialRow ss
    /\ sumRow (renameSheets ss renameMap) = sumRow ss
    /\ addRoomsValues (renameSheets ss renameMap) = addRoomsValues ss
    /\ configExistingRooms (renameSheets ss renameMap) = configExistingRooms ss.
Proof.
  unfold renameSheets.
  induction renameMap as [|[oldName newName] rest IH]; intros ss;
    [now repeat split|].
  cbn [fold_left].
  destruct (IH (renameSheet ss (oldName, newName))) as [H1 [H2 [H3 [H4 H5]]]].
  rewrite H1, H2, H3, H4, H5. unfold renameSheet.
  now destruct (getSheetByName ss oldName).
Qed.

(** Renaming the tabs by a map whose keys are different, whose values
    are different, no value being the name of a tab or a key: every tab
    gets the name the map gives it, at once, and the names stay
    pairwise different. *)
Lemma renameSheets_names (renameMap : RenameMap) :
  forall ss : Spreadsheet,
    NoDup (getSheetNames ss) ->
    NoDup (map fst renameMap) -> NoDup (map snd renameMap) ->
    (forall v, In v (map snd renameMap) ->
               ~ In v (getSheetNames ss) /\ ~ In v (map fst renameMap)) ->
    getSheetNames (renameSheets ss renameMap)
    = map (newNameOf renameMap) (getSheetNames ss)
    /\ NoDup (getSheetNames (renameSheets ss renameMap)).
Proof.
  unfold renameSheets.
  induction renameMap as [|[oldName newName] rest IH];
    intros ss Hnames Hkeys Hvalues Hfresh.
  - cbn [fold_left]. split; [|exact Hnames].
    unfold newNameOf. cbn. now rewrite map_id.
  - cbn [fold_left map fst snd] in *.
    apply NoDup_cons_iff in Hkeys. destruct Hkeys as [Hkey Hkeys].
    apply NoDup_cons_iff in Hvalues. destruct Hvalues as [Hvalue Hvalues].
    destruct (Hfresh newName (or_introl eq_refl)) as [Hnew Hnokey].
    destruct (IH (renameSheet ss (oldName, newName))) as [Heq Hnodup].
    + rewrite renameSheet_names by exact Hnames. now apply NoDup_renameName.
    + exact Hkeys.
    + exact Hvalues.
    + intros v Hv. destruct (Hfresh v (or_intror Hv)) as [Hv1 Hv2]. split.
      * rewrite renameSheet_names by exact Hnames.
        intros Hin. apply In_renameName in Hin. destruct Hin as [->|Hin];
          contradiction.
      * intros Hin. apply Hv2. now right.
    + split; [|exact Hnodup].
      rewrite Heq, renameSheet_names by exact Hnames. rewrite map_map.
      apply map_ext. intros n. unfold newNameOf, mapGet, renameName.
      cbn [find fst]. rewrite (String.eqb_sym oldName n).
      destruct (n =? oldName)%string; [|reflexivity].
      cbn [option_map snd].
      fold (mapGet rest newName). rewrite mapGet_absent; [reflexivity|].
      intros Hin. apply Hnokey. now right.
Qed.

Lemma renameInDashboard_tabs (ss ss' : Spreadsheet) (renameMap : RenameMap) :
  renameInDashboard ss renameMap = Some ss' ->
  sheets ss' = sheets ss /\ configExistingRooms ss' = configExistingRooms ss.
Proof.
  intros H. apply renameInDashboard_writes in H. destruct H as [_ ->].
  now split.
Qed.

(** [renameRooms] keeps the names of the tabs pairwise different, the
    selected names being names of tabs: when the collection returns a
    map, every tab is renamed as the map says, all at once, and no other
    tab changes its name; and whatever the operator does, no row of the
    dashboard is inserted or removed. *)
Theorem renameRooms_keeps_names_unique
    (ss : Spreadsheet) (operator : list PromptResponse) :
  NoDup (getSheetNames ss) ->
  incl (getSelectedRooms (configExistingRooms ss)) (getSheetNames ss) ->
  NoDup (getSheetNames (renameRooms ss operator))
  /\ (forall renameMap,
        snd (requestNewRoomNames (getSelectedRooms (configExistingRooms ss))
               (getSheetNames ss) operator)
        = Renamed renameMap ->
        getSheetNames (renameRooms ss operator)
        = map (newNameOf renameMap) (getSheetNames ss))
  /\ length (dashboardColumn (renameRooms ss operator))
     = length (dashboardColumn ss).
Proof.
  intros Hnames Hsel. unfold renameRooms.
  destruct (getSelectedRooms (configExistingRooms ss)) as [|room others] eqn:Esel.
  { cbn [length Nat.eqb]. split; [exact Hnames|]. split; [|reflexivity].
    intros renameMap H. destruct operator; injection H as <-.
    - unfold newNameOf. cbn. now rewrite map_id.
    - unfold newNameOf. cbn. now rewrite map_id. }
  cbn [length Nat.eqb].
  pose proof (requestLoop_wellformed (getSheetNames ss) operator (room :: others) [])
    as Hwf.
  unfold requestNewRoomNames.
  destruct (requestLoop (getSheetNames ss) (room :: others) [] operator)
    as [uiCalls outcome].
  cbn [snd] in *.
  destruct outcome as [renameMap| |].
  2:{ split; [exact Hnames|]. split; [discriminate|reflexivity]. }
  2:{ split; [exact Hnames|]. split; [discriminate|reflexivity]. }
  destruct (Hwf renameMap eq_refl (NoDup_nil _) (NoDup_nil _)
              (fun v (Hv : In v []) => match Hv with end))
    as [Hkeys [Hvalues [Hvalid Hdom]]].
  destruct (renameSheets_names renameMap (logCalls ss uiCalls)) as [Heq Hnodup];
    try assumption.
  { intros v Hv. destruct (Hvalid v Hv) as [_ [_ Hfresh]]. split; [exact Hfresh|].
    intros Hkey. apply Hdom in Hkey. destruct Hkey as [[]|Hkey].
    apply Hfresh, Hsel, Hkey. }
  destruct (renameSheets_frame renameMap (logCalls ss uiCalls)) as [Hcol _].
  destruct (renameInDashboard (renameSheets (logCalls ss uiCalls) renameMap) renameMap)
    as [ss'|] eqn:Ed.
  - pose proof (length_after_rename _ _ _ Ed) as Hlen.
    apply renameInDashboard_tabs in Ed. destruct Ed as [Htabs _].
    assert (Hsame : getSheetNames (uncheck ss')
                    = getSheetNames (renameSheets (logCalls ss uiCalls) renameMap)).
    { unfold getSheetNames. cbn [uncheck logCall logCalls sheets]. now rewrite Htabs. }
    rewrite Hsame. split; [exact Hnodup|]. split.
    + intros m Hm. injection Hm as <-. exact Heq.
    + cbn [uncheck logCall logCalls dashboardColumn]. now rewrite Hlen, Hcol.
  - split; [exact Hnodup|]. split.
    + intros m Hm. injection Hm as <-. exact Heq.
    + now rewrite Hcol.
Qed.

Lemma renameRooms_keeps_names_unique_witness :
  getSheetNames
    (renameRooms
       (exampleSpreadsheet [] [(true, "Kitchen"); (false, "Den"); (true, "Bath")])
       [ResponseOK "Pantry"; ResponseOK "Spa"])
  = ["Dashboard"; "Mall (enkel)"; "Pantry"; "Den"; "Spa"; "Hall"; "Attic"]%string
  /\ NoDup
       (getSheetNames
          (renameRooms
             (exampleSpreadsheet [] [(true, "Kitchen"); (false, "Den"); (true, "Bath")])
             [ResponseOK "Pantry"; ResponseOK "Spa"])).
Proof.
  split; [reflexivity|].
  refine (proj1
    (renameRooms_keeps_names_unique
       (exampleSpreadsheet [] [(true, "Kitchen"); (false, "Den"); (true, "Bath")])
       [ResponseOK "Pantry"; ResponseOK "Spa"] _ _)).
  - vm_compute. repeat (constructor; [cbn; intuition discriminate|]). constructor.
  - intros x Hx. vm_compute in Hx. vm_compute.
    destruct Hx as [<-|[<-|[]]]; tauto.
Defined.

(* ------------------------------------------------------------------ *)
(** ** RenameRooms: the rows of the band *)
(* ------------------------------------------------------------------ *)

Lemma rowAt_setRows_inside {A : Type} (column : list A) (row : Z) (values : list A)
    (r : Z) :
  1 <= row ->
  (Z.to_nat (row - 1) + length values <= length column)%nat ->
  row <= r < row + Z.of_nat (length values) ->
  rowAt (setRows column row values) r = nth_error values (Z.to_nat (r - row)).
Proof.
  intros Hrow Hfit Hr. unfold rowAt, setRows.
  assert (Hpre : length (firstn (Z.to_nat (row - 1)) column) = Z.to_nat (row - 1))
    by (apply firstn_length_le; lia).
  rewrite nth_error_app2 by lia. rewrite Hpre.
  rewrite nth_error_app1 by lia. f_equal. lia.
Qed.

Lemma nth_error_getRows {A : Type} (column : list A) (row numRows r : Z) :
  1 <= row -> row <= r < row + numRows ->
  nth_error (getRows column row numRows) (Z.to_nat (r - row)) = rowAt column r.
Proof.
  intros Hrow Hr. unfold getRows, rowAt.
  rewrite nth_error_firstn.
  replace (Z.to_nat (r - row) <? Z.to_nat numRows)%nat with true
    by (symmetry; apply Nat.ltb_lt; lia).
  rewrite nth_error_skipn. f_equal. lia.
Qed.

(** On the dashboard itself: when [renameInDashboard] writes, the band
    lying in the column, every text cell of the band shows the name the
    map gives to its text and keeps its link target; a text cell whose
    text is no key is exactly as it was; and a cell of the band that is
    not text becomes the empty text. *)
Theorem renameInDashboard_band_rows
    (ss ss' : Spreadsheet) (renameMap : RenameMap) (r : Z) :
  1 <= materialRow ss ->
  sumRow ss - 1 <= Z.of_nat (length (dashboardColumn ss)) ->
  renameInDashboard ss renameMap = Some ss' ->
  materialRow ss < r < sumRow ss ->
  (forall v,
      rowAt (dashboardColumn ss) r = Some (Some v) ->
      exists v',
        rowAt (dashboardColumn ss') r = Some (Some v')
        /\ rtText v' = newNameOf renameMap (rtText v)
        /\ rtLinkUrl v' = rtLinkUrl v
        /\ (mapHas renameMap (rtText v) = false -> v' = v))
  /\ (rowAt (dashboardColumn ss) r = Some None ->
      rowAt (dashboardColumn ss') r = Some (Some emptyRichText)).
Proof.
  intros Hmat Hfit Hrename Hr.
  apply renameInDashboard_writes in Hrename. destruct Hrename as [Hband ->].
  cbn [setRichTextValues logCall logCalls withDashboard dashboardColumn].
  set (row := materialRow ss + 1). set (numRows := sumRow ss - materialRow ss - 1).
  assert (Hlen : length (getRows (dashboardColumn ss) row numRows) = Z.to_nat numRows).
  { unfold getRows. rewrite length_firstn, length_skipn.
    unfold row, numRows. lia. }
  assert (Hcell : rowAt
            (setRows (dashboardColumn ss) row
               (map Some
                  (map (cellAfter renameMap)
                     (getRows (dashboardColumn ss) row numRows)))) r
          = option_map (fun cell => Some (cellAfter renameMap cell))
              (rowAt (dashboardColumn ss) r)).
  { rewrite rowAt_setRows_inside.
    - rewrite map_map, nth_error_map.
      rewrite (nth_error_getRows (dashboardColumn ss) row numRows r);
        [reflexivity| |]; unfold row, numRows; lia.
    - unfold row. lia.
    - rewrite !length_map, Hlen. unfold row, numRows. lia.
    - rewrite !length_map, Hlen. unfold row, numRows. lia. }
  rewrite Hcell. split.
  - intros v Hv. rewrite Hv. cbn [option_map cellAfter].
    unfold newNameOf. rewrite mapHas_mapGet.
    destruct (mapGet renameMap (rtText v)) as [newName|].
    + eexists. split; [reflexivity|]. cbn [rtText rtLinkUrl].
      repeat split. discriminate.
    + exists v. now repeat split.
  - intros Hnull. now rewrite Hnull.
Qed.

Lemma renameInDashboard_band_rows_witness :
  option_map (fun ss' => getValues (dashboardColumn ss'))
    (renameInDashboard (exampleSpreadsheet [] []) [("Den", "Study")])
  = Some [Some "Dashboard"; Some ""; Some "Rum"; Some "Material"; Some "Kitchen";
          Some "Study"; Some "Bath"; Some "Hall"; Some "Attic"; Some "Summa"]%string
  /\ exists v',
       option_map (fun ss' => rowAt (dashboardColumn ss') 6)
         (renameInDashboard (exampleSpreadsheet [] []) [("Den", "Study")])
       = Some (Some (Some v'))
       /\ rtLinkUrl v' = Some "#gid=3"%string.
Proof.
  split; [reflexivity|].
  destruct (renameInDashboard (exampleSpreadsheet [] []) [("Den", "Study")])
    as [ss'|] eqn:E; [|discriminate E].
  destruct (proj1
    (renameInDashboard_band_rows (exampleSpreadsheet [] []) ss' [("Den", "Study")] 6
       ltac:(vm_compute; discriminate) ltac:(vm_compute; discriminate) E
       ltac:(vm_compute; split; reflexivity))
    {| rtText := "Den"; rtLinkUrl := Some "#gid=3"; rtBold := Some false |} eq_refl)
    as [v' [Hrow [_ [Hlink _]]]].
  exists v'. cbn [option_map]. now rewrite Hrow.
Defined.

(* ------------------------------------------------------------------ *)
(** ** RenameRooms: a run that completes *)
(* ------------------------------------------------------------------ *)

Lemma mapSet_fresh (renameMap : RenameMap) (key value : string) :
  ~ In key (map fst renameMap) -> mapSet renameMap key value = renameMap ++ [(key, value)].
Proof.
  induction renameMap as [|[k v] rest IH]; intros H; [reflexivity|].
  cbn [mapSet app]. destruct (k =? key)%string eqn:E.
  - apply String.eqb_eq in E. subst. exfalso. apply H. now left.
  - rewrite IH; [reflexivity|]. intros Hin. apply H. now right.
Qed.

Lemma rejection_none (oldName newRoomName : string) (sheetNames : list string)
    (renameMap : RenameMap) :
  newRoomName <> ""%string -> ~ In newRoomName sheetNames ->
  ~ In newRoomName (mapValues renameMap) ->
  rejection oldName newRoomName sheetNames renameMap = None.
Proof.
  intros Hne Hsheet Hvalue. unfold rejection.
  apply String.eqb_neq in Hne. rewrite Hne.
  destruct (includes sheetNames newRoomName) eqn:E1;
    [apply includes_In in E1; contradiction|].
  destruct (includes (mapValues renameMap) newRoomName) eqn:E2;
    [apply includes_In in E2; contradiction|reflexivity].
Qed.

(** Answers that are all acceptable are taken one per room, with no
    prompt repeated. *)
Lemma requestLoop_accepts (sheetNames : list string) (oldRoomNames : list string) :
  forall (texts : list string) (renameMap : RenameMap),
    length texts = length oldRoomNames ->
    NoDup oldRoomNames ->
    (forall o, In o oldRoomNames -> ~ In o (map fst renameMap)) ->
    NoDup (map trim texts) ->
    (forall t, In t texts ->
               trim t <> ""%string /\ ~ In (trim t) sheetNames
               /\ ~ In (trim t) (mapValues renameMap)) ->
    snd (requestLoop sheetNames oldRoomNames renameMap (map ResponseOK texts))
    = Renamed (renameMap ++ combine oldRoomNames (map trim texts)).
Proof.
  induction oldRoomNames as [|oldName others IH];
    intros texts renameMap Hlen Holds Hkeys Hnews Hvalid.
  - destruct texts; [|discriminate Hlen]. cbn. now rewrite app_nil_r.
  - destruct texts as [|text texts]; [discriminate Hlen|].
    cbn [map requestLoop combine].
    destruct (Hvalid text (or_introl eq_refl)) as [Hne [Hsheet Hvalue]].
    rewrite (rejection_none oldName (trim text) sheetNames renameMap Hne Hsheet Hvalue).
    apply NoDup_cons_iff in Holds. destruct Holds as [Hold Holds].
    cbn [map] in Hnews. apply NoDup_cons_iff in Hnews. destruct Hnews as [Hnew Hnews].
    rewrite mapSet_fresh by (apply Hkeys; now left).
    specialize (IH texts (renameMap ++ [(oldName, trim text)])).
    destruct (requestLoop sheetNames others (renameMap ++ [(oldName, trim text)])
                (map ResponseOK texts)) as [uiCalls outcome].
    cbn [snd] in *. rewrite IH.
    + now rewrite <- app_assoc.
    + cbn [length] in Hlen. lia.
    + exact Holds.
    + intros o Ho. rewrite map_app, in_app_iff. cbn [map fst In].
      intros [Hk|[<-|[]]]; [|contradiction].
      apply (Hkeys o); [now right|exact Hk].
    + exact Hnews.
    + intros t Ht. destruct (Hvalid t (or_intror Ht)) as [H1 [H2 H3]].
      repeat split; try assumption.
      unfold mapValues. rewrite map_app, in_app_iff. cbn [map snd In].
      intros [Hv|[Hv|[]]]; [contradiction|].
      apply Hnew. rewrite Hv. now apply in_map.
Qed.

Lemma map_fst_combine {A B : Type} (l : list A) :
  forall l' : list B, length l' = length l -> map fst (combine l l') = l.
Proof.
  induction l as [|a l IH]; intros [|b l'] H; try discriminate H; [reflexivity|].
  cbn. f_equal. apply IH. cbn in H. lia.
Qed.

Lemma map_snd_combine {A B : Type} (l : list A) :
  forall l' : list B, length l' = length l -> map snd (combine l l') = l'.
Proof.
  induction l as [|a l IH]; intros [|b l'] H; try discriminate H; [reflexivity|].
  cbn. f_equal. apply IH. cbn in H. lia.
Qed.

Lemma getSelectedRooms_unchecked (ss : Spreadsheet) :
  getSelectedRooms (configExistingRooms (uncheck ss)) = [].
Proof.
  cbn [uncheck logCall logCalls configExistingRooms]. unfold getSelectedRooms.
  induction (configExistingRooms ss) as [|row rows IH]; [reflexivity|exact IH].
Qed.

(** A run of [renameRooms] that completes.  Some rooms are selected,
    all different and all names of tabs, the names of the tabs are
    pairwise different, the band holds a row, and the operator answers
    every prompt with OK and a text whose trimmed form is not blank, is
    no sheet name and differs from the other answers.  Then every
    answer is accepted at its first prompt, each selected tab gets the
    trimmed answer as its name, no other tab changes its name, and the
    run ends by unchecking the selection, so that nothing is selected
    afterwards. *)
Theorem renameRooms_completes (ss : Spreadsheet) (texts : list string) :
  getSelectedRooms (configExistingRooms ss) <> [] ->
  length texts = length (getSelectedRooms (configExistingRooms ss)) ->
  NoDup (getSelectedRooms (configExistingRooms ss)) ->
  incl (getSelectedRooms (configExistingRooms ss)) (getSheetNames ss) ->
  NoDup (getSheetNames ss) ->
  NoDup (map trim texts) ->
  (forall t, In t texts -> trim t <> ""%string /\ ~ In (trim t) (getSheetNames ss)) ->
  materialRow ss + 1 < sumRow ss ->
  snd (requestNewRoomNames (getSelectedRooms (configExistingRooms ss))
         (getSheetNames ss) (map ResponseOK texts))
  = Renamed (combine (getSelectedRooms (configExistingRooms ss)) (map trim texts))
  /\ getSheetNames (renameRooms ss (map ResponseOK texts))
     = map (newNameOf
              (combine (getSelectedRooms (configExistingRooms ss)) (map trim texts)))
         (getSheetNames ss)
  /\ getSelectedRooms (configExistingRooms (renameRooms ss (map ResponseOK texts))) = []
  /\ last (calls (renameRooms ss (map ResponseOK texts))) (Toast "") = Uncheck.
Proof.
  intros Hsome Hlen Holds Hsel Hnames Hnews Hvalid Hband.
  assert (Hout :
    snd (requestNewRoomNames (getSelectedRooms (configExistingRooms ss))
           (getSheetNames ss) (map ResponseOK texts))
    = Renamed (combine (getSelectedRooms (configExistingRooms ss)) (map trim texts))).
  { unfold requestNewRoomNames.
    rewrite (requestLoop_accepts (getSheetNames ss) _ texts []); try assumption.
    - reflexivity.
    - intros o _ [].
    - intros t Ht. destruct (Hvalid t Ht) as [H1 H2].
      split; [exact H1|]. split; [exact H2|]. intros []. }
  split; [exact Hout|].
  unfold renameRooms.
  destruct (getSelectedRooms (configExistingRooms ss)) as [|room others] eqn:Esel;
    [contradiction|].
  cbn [length Nat.eqb].
  destruct (requestNewRoomNames (room :: others) (getSheetNames ss)
              (map ResponseOK texts)) as [uiCalls outcome].
  cbn [snd] in Hout. subst outcome.
  set (renameMap := combine (room :: others) (map trim texts)) in *.
  assert (Hk : map fst renameMap = room :: others)
    by (apply map_fst_combine; now rewrite length_map).
  assert (Hv : map snd renameMap = map trim texts)
    by (apply map_snd_combine; now rewrite length_map).
  destruct (renameSheets_names renameMap (logCalls ss uiCalls)) as [Heq _].
  { exact Hnames. }
  { now rewrite Hk. }
  { now rewrite Hv. }
  { intros v Hin. rewrite Hv in Hin. apply in_map_iff in Hin.
    destruct Hin as [t [<- Ht]]. destruct (Hvalid t Ht) as [_ Hfresh].
    split; [exact Hfresh|]. rewrite Hk. intros Hkey. apply Hfresh, Hsel, Hkey. }
  destruct (renameSheets_frame renameMap (logCalls ss uiCalls))
    as [_ [Hmat [Hsum [_ Hconfig]]]].
  destruct (renameInDashboard (renameSheets (logCalls ss uiCalls) renameMap) renameMap)
    as [ss'|] eqn:Ed.
  - apply renameInDashboard_tabs in Ed. destruct Ed as [Htabs Hcfg].
    split; [|split].
    + unfold getSheetNames in *. cbn [uncheck logCall logCalls sheets].
      now rewrite Htabs.
    + apply getSelectedRooms_unchecked.
    + cbn [uncheck logCall logCalls calls]. apply last_last.
  - exfalso. unfold renameInDashboard in Ed. rewrite Hmat, Hsum in Ed.
    cbn [logCalls materialRow sumRow] in Ed.
    destruct (sumRow ss - materialRow ss - 1 <? 1) eqn:E; [|].
    + apply Z.ltb_lt in E. lia.
    + destruct (newRichText _ _) as [[heap rooms] written]. discriminate Ed.
Qed.

Lemma renameRooms_completes_witness :
  getSheetNames
    (renameRooms
       (exampleSpreadsheet [] [(true, "Kitchen"); (false, "Den"); (true, "Bath")])
       (map ResponseOK [" Pantry"; "Spa "]))
  = ["Dashboard"; "Mall (enkel)"; "Pantry"; "Den"; "Spa"; "Hall"; "Attic"]%string
  /\ getSelectedRooms
       (configExistingRooms
          (renameRooms
             (exampleSpreadsheet [] [(true, "Kitchen"); (false, "Den"); (true, "Bath")])
             (map ResponseOK [" Pantry"; "Spa "])))
     = [].
Proof.
  split; [reflexivity|].
  refine (proj1 (proj2 (proj2
    (renameRooms_completes
       (exampleSpreadsheet [] [(true, "Kitchen"); (false, "Den"); (true, "Bath")])
       [" Pantry"; "Spa "]%string _ _ _ _ _ _ _ _)))).
  - vm_compute. discriminate.
  - reflexivity.
  - vm_compute. repeat (constructor; [cbn; intuition discriminate|]). constructor.
  - intros x Hx. vm_compute in Hx. vm_compute.
    destruct Hx as [<-|[<-|[]]]; tauto.
  - vm_compute. repeat (constructor; [cbn; intuition discriminate|]). constructor.
  - vm_compute. repeat (constructor; [cbn; intuition discriminate|]). constructor.
  - intros t Ht. vm_compute in Ht.
    destruct Ht as [<-|[<-|[]]]; vm_compute; split; intuition discriminate.
  - vm_compute. reflexivity.
Defined.

(* ------------------------------------------------------------------ *)
(** ** DeleteRooms *)
(* ------------------------------------------------------------------ *)

Lemma filter_other_absent (name : string) (names : list string) :
  ~ In name names -> filter (fun x => negb (x =? name)%string) names = names.
Proof.
  induction names as [|y names IH]; intros H; [reflexivity|].
  cbn [filter]. destruct (y =? name)%string eqn:E.
  - apply String.eqb_eq in E. subst. exfalso. apply H. now left.
  - cbn [negb]. f_equal. apply IH. intros Hin. apply H. now right.
Qed.

Lemma remove_at_indexOf (name : string) (names : list string) :
  NoDup names -> In name names ->
  firstn (Z.to_nat (indexOf names name)) names
  ++ skipn (S (Z.to_nat (indexOf names name))) names
  = filter (fun x => negb (x =? name)%string) names.
Proof.
  induction names as [|y names IH]; intros Hnodup Hin; [contradiction|].
  apply NoDup_cons_iff in Hnodup. destruct Hnodup as [Hhead Hrest].
  cbn [indexOf filter]. destruct (y =? name)%string eqn:E.
  - apply String.eqb_eq in E. subst y. cbn [negb Z.to_nat firstn skipn app].
    now rewrite filter_other_absent.
  - apply String.eqb_neq in E. destruct Hin as [->|Hin]; [contradiction|].
    pose proof (indexOf_earlier names name [] Hin) as Hidx.
    rewrite app_nil_r in Hidx.
    destruct (indexOf names name <? 0) eqn:L; [lia|].
    replace (Z.to_nat (indexOf names name + 1))
      with (S (Z.to_nat (indexOf names name))) by lia.
    cbn [negb firstn skipn app]. f_equal. now apply IH.
Qed.

Lemma deleteSheet_names (ss : Spreadsheet) (roomName : string) :
  NoDup (getSheetNames ss) ->
  getSheetNames (deleteSheet ss roomName)
  = filter (fun x => negb (x =? roomName)%string) (getSheetNames ss).
Proof.
  intros H. unfold deleteSheet.
  destruct (getSheetByName ss roomName) eqn:E.
  - assert (Hin : In roomName (getSheetNames ss)).
    { destruct (in_dec string_dec roomName (getSheetNames ss)) as [Hin|Hnot];
        [exact Hin|].
      apply getSheetByName_none in Hnot. congruence. }
    unfold getSheetNames in *. cbn [logCall logCalls withSheets sheets].
    cbn zeta. rewrite map_app, <- firstn_map, <- skipn_map.
    now apply remove_at_indexOf.
  - apply getSheetByName_none in E. now rewrite filter_other_absent.
Qed.

Lemma deleteSheet_frame (ss : Spreadsheet) (roomName : string) :
  dashboardColumn (deleteSheet ss roomName) = dashboardColumn ss
  /\ materialRow (deleteSheet ss roomName) = materialRow ss
  /\ sumRow (deleteSheet ss roomName) = sumRow ss
  /\ configExistingRooms (deleteSheet ss roomName) = configExistingRooms ss.
Proof. unfold deleteSheet. now destruct (getSheetByName ss roomName). Qed.

Lemma filter_includes_nil (names : list string) :
  filter (fun x => negb (includes [] x)) names = names.
Proof.
  induction names as [|y names IH]; [reflexivity|].
  cbn [filter includes existsb negb]. now f_equal.
Qed.

Lemma filter_includes_cons (roomName : string) (rest names : list string) :
  filter (fun x => negb (includes rest x))
    (filter (fun x => negb (x =? roomName)%string) names)
  = filter (fun x => negb (includes (roomName :: rest) x)) names.
Proof.
  induction names as [|y names IH]; [reflexivity|].
  cbn [filter includes existsb]. rewrite (String.eqb_sym roomName y).
  destruct (y =? roomName)%string; cbn [negb orb]; [exact IH|].
  cbn [filter]. fold (includes rest y).
  destruct (includes rest y); cbn [negb]; [exact IH|].
  f_equal. exact IH.
Qed.

Lemma deleteSheets_names (roomNames : list string) :
  forall ss : Spreadsheet,
    NoDup (getSheetNames ss) ->
    getSheetNames (deleteSheets ss roomNames)
    = filter (fun x => negb (includes roomNames x)) (getSheetNames ss)
    /\ dashboardColumn (deleteSheets ss roomNames) = dashboardColumn ss
    /\ configExistingRooms (deleteSheets ss roomNames) = configExistingRooms ss.
Proof.
  unfold deleteSheets.
  induction roomNames as [|roomName rest IH]; intros ss H.
  - cbn [fold_left]. now rewrite filter_includes_nil.
  - cbn [fold_left].
    destruct (deleteSheet_frame ss roomName) as [Hcol [_ [_ Hcfg]]].
    destruct (IH (deleteSheet ss roomName)) as [Hn [Hc Hg]].
    { rewrite deleteSheet_names by exact H. now apply NoDup_filter. }
    rewrite Hn, Hc, Hg, Hcol, Hcfg, deleteSheet_names by exact H.
    now rewrite filter_includes_cons.
Qed.

Lemma deleteInDashboard_frame (ss : Spreadsheet) (roomNames : list string) :
  sheets (deleteInDashboard ss roomNames) = sheets ss
  /\ configExistingRooms (deleteInDashboard ss roomNames) = configExistingRooms ss.
Proof.
  unfold deleteInDashboard.
  generalize (deleteGroups (dashboardColumn ss) roomNames) as groups.
  intros groups. revert ss.
  induction groups as [|[s c] groups IH]; intros ss; [now split|].
  cbn [fold_left]. destruct (IH (deleteRows ss s c)) as [H1 H2].
  now rewrite H1, H2.
Qed.

(** [deleteRooms], the names of the tabs being pairwise different.
    With nothing selected it only says so.  When the operator does not
    answer yes, the tabs, the dashboard and the selection are as they
    were and no mutating call is made.  When the operator answers yes,
    the tabs left are the tabs whose name is not selected, in their
    order and still with different names (a selected name with no tab
    is skipped), and the selection is unchecked. *)
Theorem deleteRooms_removes_selected_tabs (ss : Spreadsheet) :
  NoDup (getSheetNames ss) ->
  (getSelectedRooms (configExistingRooms ss) = [] ->
   forall answerYes, deleteRooms ss answerYes = logCall ss (Toast noRoomsSelected))
  /\ (sheets (deleteRooms ss false) = sheets ss
      /\ dashboardColumn (deleteRooms ss false) = dashboardColumn ss
      /\ configExistingRooms (deleteRooms ss false) = configExistingRooms ss
      /\ filter isMutation (calls (deleteRooms ss false))
         = filter isMutation (calls ss))
  /\ (getSelectedRooms (configExistingRooms ss) <> [] ->
      getSheetNames (deleteRooms ss true)
      = filter
          (fun name => negb (includes (getSelectedRooms (configExistingRooms ss)) name))
          (getSheetNames ss)
      /\ NoDup (getSheetNames (deleteRooms ss true))
      /\ getSelectedRooms (configExistingRooms (deleteRooms ss true)) = []).
Proof.
  intros Hnames. unfold deleteRooms.
  destruct (getSelectedRooms (configExistingRooms ss)) as [|room others] eqn:Esel.
  - cbn [length Nat.eqb]. split; [reflexivity|]. split; [|easy].
    repeat split. cbn [logCall logCalls calls].
    now apply filter_isMutation_app.
  - cbn [length Nat.eqb negb]. split; [discriminate|]. split.
    + repeat split. cbn [logCall logCalls calls]. now apply filter_isMutation_app.
    + intros _.
      set (ss1 := logCall ss (Alert (confirmMessage (room :: others)))).
      destruct (deleteSheets_names (room :: others) ss1 Hnames) as [Hn _].
      destruct (deleteInDashboard_frame (deleteSheets ss1 (room :: others))
                  (room :: others)) as [Htabs _].
      assert (Hsame : getSheetNames
                        (uncheck (deleteInDashboard (deleteSheets ss1 (room :: others))
                                    (room :: others)))
                      = getSheetNames (deleteSheets ss1 (room :: others))).
      { unfold getSheetNames. cbn [uncheck logCall logCalls sheets].
        now rewrite Htabs. }
      rewrite Hsame, Hn. split; [reflexivity|]. split.
      * now apply NoDup_filter.
      * apply getSelectedRooms_unchecked.
Qed.

Lemma deleteRooms_removes_selected_tabs_witness :
  getSheetNames
    (deleteRooms
       (exampleSpreadsheet [] [(true, "Hall"); (false, "Den"); (true, "Ghost")]) true)
  = ["Dashboard"; "Mall (enkel)"; "Kitchen"; "Den"; "Bath"; "Attic"]%string
  /\ NoDup
       (getSheetNames
          (deleteRooms
             (exampleSpreadsheet [] [(true, "Hall"); (false, "Den"); (true, "Ghost")])
             true)).
Proof.
  split; [reflexivity|].
  refine (proj1 (proj2 (proj2 (proj2
    (deleteRooms_removes_selected_tabs
       (exampleSpreadsheet [] [(true, "Hall"); (false, "Den"); (true, "Ghost")]) _))
    _))).
  - vm_compute. repeat (constructor; [cbn; intuition discriminate|]). constructor.
  - vm_compute. discriminate.
Defined.

Lemma findIndex_absent (values : list (option string)) (roomName : string) :
  ~ In (Some roomName) values -> findIndex values roomName = -1.
Proof.
  induction values as [|row rest IH]; intros H; [reflexivity|].
  cbn [findIndex]. rewrite IH by (intros Hin; apply H; now right).
  destruct row as [text|]; [|reflexivity].
  destruct (text =? roomName)%string eqn:E; [|reflexivity].
  apply String.eqb_eq in E. subst. exfalso. apply H. now left.
Qed.

(** Names that are in no cell of the first column are dropped without
    a word: they add no position to delete, whatever else is selected;
    and when no selected name is in the column, [deleteInDashboard]
    deletes nothing, makes no call and leaves the spreadsheet as it
    was. *)
Theorem deleteInDashboard_drops_unmatched
    (ss : Spreadsheet) (before unmatched after : list string) :
  (forall name, In name unmatched ->
                ~ In (Some name) (getValues (dashboardColumn ss))) ->
  deleteIndexes (dashboardColumn ss) (before ++ unmatched ++ after)
  = deleteIndexes (dashboardColumn ss) (before ++ after)
  /\ deleteInDashboard ss (before ++ unmatched ++ after)
     = deleteInDashboard ss (before ++ after)
  /\ deleteInDashboard ss unmatched = ss.
Proof.
  intros Hnone.
  assert (Hdrop : deleteIndexes (dashboardColumn ss) unmatched = []).
  { unfold deleteIndexes.
    induction unmatched as [|name rest IH]; [reflexivity|].
    cbn [map filter].
    rewrite findIndex_absent by (apply Hnone; now left).
    cbn. apply IH. intros n Hn. apply Hnone. now right. }
  assert (Hsplit : forall xs ys,
    deleteIndexes (dashboardColumn ss) (xs ++ ys)
    = deleteIndexes (dashboardColumn ss) xs ++ deleteIndexes (dashboardColumn ss) ys).
  { intros xs ys. unfold deleteIndexes. now rewrite map_app, filter_app. }
  assert (Heq : deleteIndexes (dashboardColumn ss) (before ++ unmatched ++ after)
                = deleteIndexes (dashboardColumn ss) (before ++ after)).
  { now rewrite !Hsplit, Hdrop. }
  split; [exact Heq|]. split.
  - unfold deleteInDashboard, deleteGroups. now rewrite Heq.
  - unfold deleteInDashboard, deleteGroups. rewrite Hdrop. reflexivity.
Qed.

Lemma deleteInDashboard_drops_unmatched_witness :
  deleteInDashboard (exampleSpreadsheet [] []) ["Ghost"; "Bath"; "Cellar"]%string
  = deleteInDashboard (exampleSpreadsheet [] []) ["Ghost"; "Bath"]%string.
Proof.
  refine (proj1 (proj2
    (deleteInDashboard_drops_unmatched (exampleSpreadsheet [] [])
       ["Ghost"; "Bath"]%string ["Cellar"]%string [] _))).
  intros name [<-|[]]. vm_compute. intuition discriminate.
Defined.

(* ------------------------------------------------------------------ *)
(** ** The two copies of the validator *)
(* ------------------------------------------------------------------ *)

Lemma part001_mapRoomPairs_trimmed (sheetNames : list string)
    (newRooms : list NewRoomRow) :
  (forall row, In row newRooms -> trim (fst (fst row)) = fst (fst row)) ->
  forall (error : string) (index : nat),
    Part001.mapRoomPairs sheetNames error index newRooms
    = mapRoomPairs sheetNames error index newRooms.
Proof.
  induction newRooms as [|[[roomName template] type] rest IH];
    intros Htrim error index; [reflexivity|].
  cbn [Part001.mapRoomPairs mapRoomPairs].
  assert (Hrow : Part001.roomPair sheetNames error index (roomName, template, type)
                 = roomPair sheetNames error index (roomName, template, type)).
  { pose proof (Htrim (roomName, template, type) (or_introl eq_refl)) as Hname.
    cbn [fst] in Hname. unfold Part001.roomPair, roomPair.
    now rewrite Hname. }
  rewrite Hrow.
  destruct (roomPair sheetNames error index (roomName, template, type))
    as [error1 namePair].
  rewrite IH; [reflexivity|].
  intros row Hrow'. apply Htrim. now right.
Qed.

(** On a batch whose names carry no white space at either end, the
    validator of src/unnamed/part_001 and the one of src/scripts.ts
    return the same pairs or throw the same error. *)
Theorem part001_createRoomPairs_agrees_on_trimmed
    (newRooms : list NewRoomRow) (sheetNames : list string) :
  (forall row, In row newRooms -> trim (fst (fst row)) = fst (fst row)) ->
  Part001.createRoomPairs newRooms sheetNames = createRoomPairs newRooms sheetNames.
Proof.
  intros Htrim. unfold Part001.createRoomPairs, createRoomPairs.
  now rewrite part001_mapRoomPairs_trimmed.
Qed.

Lemma part001_createRoomPairs_agrees_on_trimmed_witness :
  Part001.createRoomPairs [("Loft", "", Enkel); ("Loft", "Mall", NoType)] ["Loft"]%string
  = createRoomPairs [("Loft", "", Enkel); ("Loft", "Mall", NoType)] ["Loft"]%string.
Proof.
  refine (part001_createRoomPairs_agrees_on_trimmed
            [("Loft", "", Enkel); ("Loft", "Mall", NoType)] ["Loft"]%string _).
  intros row [<-|[<-|[]]]; reflexivity.
Defined.

(* ------------------------------------------------------------------ *)
(** ** Validator: every problem is reported *)
(* ------------------------------------------------------------------ *)

Local Open Scope string_scope.
Local Open Scope list_scope.

(** A text occurs at two positions of a list exactly when it is counted
    at least twice. *)
Lemma count_occ_two_positions (l : list string) (x : string) :
  (exists i j : nat, i <> j /\ nth_error l i = Some x /\ nth_error l j = Some x)
  <-> (2 <= count_occ string_dec l x)%nat.
Proof.
  split.
  - intros [i [j [Hij [Hi Hj]]]]. revert i j Hij Hi Hj.
    induction l as [|a l IH]; intros i j Hij Hi Hj.
    + destruct i; discriminate Hi.
    + destruct i as [|i], j as [|j]; cbn [nth_error] in Hi, Hj.
      * contradiction.
      * injection Hi as ->. rewrite count_occ_cons_eq by reflexivity.
        apply nth_error_In in Hj. apply (count_occ_In string_dec) in Hj. lia.
      * injection Hj as ->. rewrite count_occ_cons_eq by reflexivity.
        apply nth_error_In in Hi. apply (count_occ_In string_dec) in Hi. lia.
      * assert (Hij' : i <> j) by congruence.
        specialize (IH i j Hij' Hi Hj).
        destruct (string_dec a x) as [->|Hne].
        -- rewrite count_occ_cons_eq by reflexivity. lia.
        -- now rewrite count_occ_cons_neq by assumption.
  - induction l as [|a l IH]; intros H.
    + cbn in H. lia.
    + destruct (string_dec a x) as [->|Hne].
      * rewrite count_occ_cons_eq in H by reflexivity.
        assert (Hin : In x l) by (apply (count_occ_In string_dec); lia).
        apply In_nth_error in Hin. destruct Hin as [j Hj].
        exists 0%nat, (S j). repeat split; [discriminate|exact Hj].
      * rewrite count_occ_cons_neq in H by assumption.
        destruct (IH H) as [i [j [Hij [Hi Hj]]]].
        exists (S i), (S j). repeat split; [congruence|exact Hi|exact Hj].
Qed.

Lemma nth_error_map_Some {A B : Type} (f : A -> B) (l : list A) (i : nat) (y : B) :
  nth_error (map f l) i = Some y -> exists x, nth_error l i = Some x /\ f x = y.
Proof.
  rewrite nth_error_map. destruct (nth_error l i) as [x|]; [|discriminate].
  cbn [option_map]. intros H. injection H as <-. now exists x.
Qed.

(** Every message of a list sits on a line of its own in the text of
    the failure. *)
Lemma onePerLine_line (messages : list string) (message : string) :
  In message messages ->
  exists before after : string,
    onePerLine messages = (before ++ message ++ nl ++ after)%string.
Proof.
  induction messages as [|m rest IH]; intros Hin; [contradiction|].
  destruct Hin as [->|Hin].
  - exists ""%string, (onePerLine rest). reflexivity.
  - destruct (IH Hin) as [before [after E]].
    exists (m ++ nl ++ before)%string, after.
    cbn [onePerLine]. rewrite E. now rewrite !append_assoc.
Qed.

(** C5.  Validation reports every problem of every entry.  What
    [createRoomPairs] returns is decided by the full list of messages of
    the batch: with no message it returns the pairs, otherwise it throws
    one error whose text is all the messages, one per line.  That list
    holds, for the entry at every position, the message of a blank
    name, of a blank template, of a blank budgeting kind and of a name
    that already exists, and the message of the names repeated in the
    batch.  The names repeated are told from the entries alone: when
    the entries at two different positions have the same trimmed name,
    that name is among the names listed and the message listing them is
    raised; and a name is listed only when two entries at different
    positions have it.  Every message raised is a line of the text of
    the error thrown. *)
Theorem createRoomPairs_collects_every_error
    (newRooms : list NewRoomRow) (sheetNames : list string) :
  createRoomPairs newRooms sheetNames
  = match validationMessages newRooms sheetNames with
    | [] => inr (resolvedPairs newRooms)
    | messages => inl (onePerLine messages)
    end
  /\ (forall (index : nat) (inputRoomName template : string) (type : BudgetingType),
        nth_error newRooms index = Some (inputRoomName, template, type) ->
        (trim inputRoomName = ""%string ->
         In (nameMissing (index + 1)) (validationMessages newRooms sheetNames))
        /\ (template = ""%string ->
            In (templateMissing (index + 1)) (validationMessages newRooms sheetNames))
        /\ (type = NoType ->
            In (budgetingMissing (index + 1)) (validationMessages newRooms sheetNames))
        /\ (In (trim inputRoomName) sheetNames ->
            In (alreadyExists (trim inputRoomName))
              (validationMessages newRooms sheetNames)))
  /\ (duplicateNames (trimmedNames newRooms) <> [] ->
      In (namesRepeated (duplicateNames (trimmedNames newRooms)))
        (validationMessages newRooms sheetNames))
  /\ (forall (i j : nat) (row row' : NewRoomRow),
        i <> j ->
        nth_error newRooms i = Some row ->
        nth_error newRooms j = Some row' ->
        trim (fst (fst row)) = trim (fst (fst row')) ->
        In (trim (fst (fst row))) (duplicateNames (trimmedNames newRooms))
        /\ In (namesRepeated (duplicateNames (trimmedNames newRooms)))
             (validationMessages newRooms sheetNames)
        /\ exists text : string, createRoomPairs newRooms sheetNames = inl text)
  /\ (forall roomName : string,
        In roomName (duplicateNames (trimmedNames newRooms)) ->
        exists (i j : nat) (row row' : NewRoomRow),
          i <> j
          /\ nth_error newRooms i = Some row
          /\ nth_error newRooms j = Some row'
          /\ trim (fst (fst row)) = roomName
          /\ trim (fst (fst row')) = roomName)
  /\ (forall message : string,
        In message (validationMessages newRooms sheetNames) ->
        exists before after : string,
          createRoomPairs newRooms sheetNames
          = inl (before ++ message ++ nl ++ after)%string).
Proof.
  split; [apply createRoomPairs_refines|].
  destruct (validationMessages_complete newRooms sheetNames) as [Hentries Hdup].
  split; [exact Hentries|]. split; [exact Hdup|].
  assert (Hfails : forall message : string,
    In message (validationMessages newRooms sheetNames) ->
    exists before after : string,
      createRoomPairs newRooms sheetNames
      = inl (before ++ message ++ nl ++ after)%string).
  { intros message Hin. rewrite createRoomPairs_refines.
    destruct (onePerLine_line _ _ Hin) as [before [after E]].
    exists before, after.
    destruct (validationMessages newRooms sheetNames) as [|m ms];
      [contradiction|]. now rewrite E. }
  split; [|split; [|exact Hfails]].
  - intros i j row row' Hij Hi Hj Hsame.
    assert (Hlisted : In (trim (fst (fst row))) (duplicateNames (trimmedNames newRooms))).
    { apply duplicateNames_In, count_occ_two_positions.
      exists i, j. split; [exact Hij|]. unfold trimmedNames. split.
      - rewrite nth_error_map.
        exact (f_equal (option_map (fun r : NewRoomRow => trim (fst (fst r)))) Hi).
      - rewrite nth_error_map, Hsame.
        exact (f_equal (option_map (fun r : NewRoomRow => trim (fst (fst r)))) Hj). }
    assert (Hraised : In (namesRepeated (duplicateNames (trimmedNames newRooms)))
                        (validationMessages newRooms sheetNames)).
    { apply Hdup. intros E. rewrite E in Hlisted. contradiction. }
    split; [exact Hlisted|]. split; [exact Hraised|].
    destruct (Hfails _ Hraised) as [before [after E]]. eexists. exact E.
  - intros roomName Hlisted.
    apply duplicateNames_In, count_occ_two_positions in Hlisted.
    destruct Hlisted as [i [j [Hij [Hi Hj]]]].
    apply nth_error_map_Some in Hi, Hj.
    destruct Hi as [row [Hi Hrow]]. destruct Hj as [row' [Hj Hrow']].
    exists i, j, row, row'. now repeat split.
Qed.

(* ------------------------------------------------------------------ *)
(** ** RenameRooms: names that exist already *)
(* ------------------------------------------------------------------ *)




(* ------------------------------------------------------------------ *)
(** ** DashboardSync: what relabelling writes to the band *)
(* ------------------------------------------------------------------ *)

Local Open Scope Z_scope.

(** C4, amended.  For every rename map, the array [newRichText] built
    from any cells holds
    - for a text cell whose text is a key, a new rich-text value whose
      text is the mapped name and whose link target is the cell's own;
    - for a text cell whose text is no key, the object read, holding
      the cell's value;
    - for a cell that is not text, a new empty value;
    one object per cell.  And when [renameInDashboard] writes, the cells
    it reads are the rows after the material row up to the one before
    the sum row, the column afterwards is the column before with the
    values of that array written over those rows, the write is a single
    call, and the number of rows is as it was.  The material row being
    a row and the band lying in the column, the rows outside the band
    are as they were, and every row of the band holds the value of the
    object written for its cell: in the three cases above, the mapped
    name with the cell's link target, the cell's own value passed
    through as the object read, and the empty value. *)
Theorem renameInDashboard_relabels (renameMap : RenameMap) :
  (forall (cells : list Cell) (i : nat) (v : RichTextValue) (newName : string),
      nth_error cells i = Some (Some v) ->
      mapGet renameMap (rtText v) = Some newName ->
      exists r w,
        nth_error (snd (fst (newRichText renameMap cells))) i = Some (Some r)
        /\ nth_error (snd (newRichText renameMap cells)) i = Some w
        /\ w <> r
        /\ deref (fst (fst (newRichText renameMap cells))) w
           = {| rtText := newName; rtLinkUrl := rtLinkUrl v; rtBold := None |})
  /\ (forall (cells : list Cell) (i : nat) (v : RichTextValue),
        nth_error cells i = Some (Some v) ->
        mapHas renameMap (rtText v) = false ->
        exists r,
          nth_error (snd (fst (newRichText renameMap cells))) i = Some (Some r)
          /\ nth_error (snd (newRichText renameMap cells)) i = Some r
          /\ deref (fst (fst (newRichText renameMap cells))) r = v)
  /\ (forall (cells : list Cell) (i : nat),
        nth_error cells i = Some None ->
        exists w,
          nth_error (snd (fst (newRichText renameMap cells))) i = Some None
          /\ nth_error (snd (newRichText renameMap cells)) i = Some w
          /\ deref (fst (fst (newRichText renameMap cells))) w = emptyRichText)
  /\ (forall cells : list Cell,
        length (snd (newRichText renameMap cells)) = length cells)
  /\ (forall (ss ss' : Spreadsheet) (cells : list Cell) (heap : Heap)
             (rooms : list (option Ref)) (written : list Ref),
        renameInDashboard ss renameMap = Some ss' ->
        cells = getRows (dashboardColumn ss) (materialRow ss + 1)
                  (sumRow ss - materialRow ss - 1) ->
        newRichText renameMap cells = (heap, rooms, written) ->
        dashboardColumn ss'
        = setRows (dashboardColumn ss) (materialRow ss + 1)
            (map (fun w => Some (deref heap w)) written)
        /\ calls ss'
           = calls ss
             ++ [SetRichTextValues (materialRow ss + 1) (Z.of_nat (length cells))]
        /\ length (dashboardColumn ss') = length (dashboardColumn ss)
        /\ sheets ss' = sheets ss
        /\ materialRow ss' = materialRow ss /\ sumRow ss' = sumRow ss
        /\ (1 <= materialRow ss ->
            sumRow ss - 1 <= Z.of_nat (length (dashboardColumn ss)) ->
            length cells = Z.to_nat (sumRow ss - materialRow ss - 1)
            /\ (forall r,
                  1 <= r -> r <= materialRow ss \/ sumRow ss <= r ->
                  rowAt (dashboardColumn ss') r = rowAt (dashboardColumn ss) r)
            /\ (forall r,
                  materialRow ss < r < sumRow ss ->
                  exists (cell : Cell) (room : option Ref) (w : Ref),
                    rowAt (dashboardColumn ss) r = Some cell
                    /\ nth_error rooms (Z.to_nat (r - materialRow ss - 1)) = Some room
                    /\ nth_error written (Z.to_nat (r - materialRow ss - 1)) = Some w
                    /\ rowAt (dashboardColumn ss') r = Some (Some (deref heap w))
                    /\ match cell with
                       | Some v =>
                           exists robj,
                             room = Some robj
                             /\ match mapGet renameMap (rtText v) with
                                | Some newName =>
                                    w <> robj
                                    /\ deref heap w
                                       = {| rtText := newName;
                                            rtLinkUrl := rtLinkUrl v;
                                            rtBold := None |}
                                | None => w = robj /\ deref heap w = v
                                end
                       | None => room = None /\ deref heap w = emptyRichText
                       end))).
Proof.
  assert (Hat : forall (cells : list Cell) (i : nat) (cell : Cell),
    nth_error cells i = Some cell ->
    exists room w,
      nth_error (snd (fst (newRichText renameMap cells))) i = Some room
      /\ nth_error (snd (newRichText renameMap cells)) i = Some w
      /\ readAs (fst (getRichTextValues [] cells)) cell room
      /\ writtenAs renameMap (fst (getRichTextValues [] cells))
           (fst (fst (newRichText renameMap cells))) room w).
  { intros cells i cell Hi.
    destruct (newRichText_objects renameMap cells) as [_ [Hread Hwritten]].
    destruct (Forall2_nth_error_l _ _ _ Hread i cell Hi) as [room [Hroom Hr]].
    destruct (Forall2_nth_error_l _ _ _ Hwritten i room Hroom) as [w [Hw Hwr]].
    now exists room, w. }
  assert (Hlength : forall cells : list Cell,
    length (snd (newRichText renameMap cells)) = length cells).
  { intros cells.
    rewrite <- (length_map (deref (fst (fst (newRichText renameMap cells))))).
    now rewrite newRichText_values, length_map. }
  split; [|split; [|split; [|split; [exact Hlength|]]]].
  - intros cells i v newName Hi Hget.
    destruct (Hat cells i (Some v) Hi) as [room [w [Hroom [Hw [Hr Hwr]]]]].
    destruct room as [r|]; [|contradiction]. cbn in Hr, Hwr.
    destruct Hwr as [v' [Hv' [_ Hcase]]].
    assert (v' = v) by congruence. subst v'. rewrite Hget in Hcase.
    destruct Hcase as [Hfresh Hnew].
    exists r, w. repeat split; try assumption.
    + intros ->. congruence.
    + now apply deref_lookup.
  - intros cells i v Hi Hhas.
    destruct (Hat cells i (Some v) Hi) as [room [w [Hroom [Hw [Hr Hwr]]]]].
    destruct room as [r|]; [|contradiction]. cbn in Hr, Hwr.
    destruct Hwr as [v' [Hv' [Hafter Hcase]]].
    assert (v' = v) by congruence. subst v'.
    rewrite mapHas_mapGet in Hhas.
    destruct (mapGet renameMap (rtText v)); [discriminate|]. subst w.
    exists r. repeat split; try assumption. now apply deref_lookup.
  - intros cells i Hi.
    destruct (Hat cells i None Hi) as [room [w [Hroom [Hw [Hr Hwr]]]]].
    destruct room as [r|]; [contradiction|]. cbn in Hwr.
    exists w. repeat split; try assumption. now apply deref_lookup.
  - intros ss ss' cells heap rooms written Hrename Hcells Hnew.
    pose proof (length_after_rename ss ss' renameMap Hrename) as Hsame.
    pose proof (Hlength cells) as Hwritten. rewrite Hnew in Hwritten.
    cbn [snd] in Hwritten.
    assert (Hss' : ss' = setRichTextValues ss (materialRow ss + 1)
                           (map (deref heap) written)).
    { unfold renameInDashboard in Hrename.
      destruct (sumRow ss - materialRow ss - 1 <? 1); [discriminate|].
      rewrite <- Hcells, Hnew in Hrename. now injection Hrename as <-. }
    assert (Hband : 1 <= sumRow ss - materialRow ss - 1).
    { now apply renameInDashboard_writes in Hrename. }
    assert (Hcol : dashboardColumn ss'
                   = setRows (dashboardColumn ss) (materialRow ss + 1)
                       (map (fun w => Some (deref heap w)) written)).
    { rewrite Hss'.
      cbn [setRichTextValues logCall logCalls withDashboard dashboardColumn].
      now rewrite map_map. }
    split; [exact Hcol|]. split.
    { rewrite Hss'.
      cbn [setRichTextValues logCall logCalls withDashboard calls].
      now rewrite length_map, Hwritten. }
    split; [exact Hsame|].
    split; [now rewrite Hss'|]. split; [now rewrite Hss'|]. split; [now rewrite Hss'|].
    intros Hmat Hfit.
    assert (Hlen : length cells = Z.to_nat (sumRow ss - materialRow ss - 1)).
    { rewrite Hcells. unfold getRows. rewrite length_firstn, length_skipn. lia. }
    split; [exact Hlen|]. split.
    + intros r Hr Hout. rewrite Hcol.
      apply rowAt_setRows_outside; try lia.
      * rewrite length_map, Hwritten, Hlen. lia.
      * rewrite length_map, Hwritten, Hlen. destruct Hout; [left|right]; lia.
    + intros r Hr.
      set (i := Z.to_nat (r - materialRow ss - 1)).
      assert (Hcell : nth_error cells i = rowAt (dashboardColumn ss) r).
      { rewrite Hcells. unfold i.
        replace (r - materialRow ss - 1) with (r - (materialRow ss + 1)) by lia.
        apply nth_error_getRows; lia. }
      destruct (nth_error cells i) as [cell|] eqn:Hi.
      2:{ apply nth_error_None in Hi. unfold i in Hi. lia. }
      destruct (Hat cells i cell Hi) as [room [w [Hroom [Hw [Hread Hwr]]]]].
      rewrite Hnew in Hroom, Hw, Hwr. cbn [fst snd] in Hroom, Hw, Hwr.
      exists cell, room, w.
      split; [now symmetry|]. split; [exact Hroom|]. split; [exact Hw|]. split.
      * rewrite Hcol, rowAt_setRows_inside.
        -- replace (r - (materialRow ss + 1)) with (r - materialRow ss - 1) by lia.
           fold i. now rewrite nth_error_map, Hw.
        -- lia.
        -- rewrite length_map, Hwritten, Hlen. lia.
        -- rewrite length_map, Hwritten, Hlen. lia.
      * destruct cell as [v|], room as [robj|]; try contradiction.
        -- cbn in Hread, Hwr. destruct Hwr as [v' [Hv' [_ Hcase]]].
           assert (v' = v) by congruence. subst v'.
           exists robj. split; [reflexivity|].
           destruct (mapGet renameMap (rtText v)) as [newName|].
           ++ destruct Hcase as [Hfresh Hvalue]. split.
              ** intros ->. congruence.
              ** now apply deref_lookup.
           ++ subst w. split; [reflexivity|].
              destruct (newRichText_objects renameMap cells) as [_ [_ Hall]].
              destruct (Forall2_nth_error_l _ _ _ Hall i (Some robj)) as [w' [Hw' Hwr']].
              { now rewrite Hnew. }
              rewrite Hnew in Hw', Hwr'. cbn [fst snd] in Hw', Hwr'.
              cbn in Hwr'. destruct Hwr' as [v'' [Hb [Ha _]]].
              assert (v'' = v) by congruence. subst v''.
              now apply deref_lookup.
        -- cbn in Hwr. split; [reflexivity|]. now apply deref_lookup.
Qed.

(** The spec's example on a dashboard: Kitchen, linked to doc://123 and
    renamed to Den, keeps its link; Bath, no key of the map, is as it
    was; the cell that is not text becomes the empty text; one write of
    three rows. *)
Lemma renameInDashboard_relabels_witness :
  exists ss' : Spreadsheet,
    renameInDashboard relabelExample [("Kitchen", "Den")] = Some ss'
    /\ dashboardColumn ss'
       = [textCell "Dashboard" None; textCell "Material" None;
          Some {| rtText := "Den"; rtLinkUrl := Some "doc://123"; rtBold := None |};
          textCell "Bath" (Some "doc://7");
          Some emptyRichText; textCell "Summa" None]
    /\ calls ss' = [SetRichTextValues 3 3].
Proof.
  destruct (renameInDashboard relabelExample [("Kitchen", "Den")])
    as [ss'|] eqn:E; [|discriminate E].
  destruct (proj2 (proj2 (proj2 (proj2
              (renameInDashboard_relabels [("Kitchen", "Den")]))))
            relabelExample ss' _ _ _ _ E eq_refl eq_refl)
    as [Hcol [Hcalls _]].
  exists ss'. split; [reflexivity|]. split.
  - rewrite Hcol. reflexivity.
  - rewrite Hcalls. reflexivity.
Defined.
